(** * DocRouter nodes for n8n: a shallow embedding of the [execute] routines

    The repository holds seven n8n nodes (DocRouterDocument, DocRouterTag,
    DocRouterAccount, DocRouterSchema, DocRouterLLM, DocRouterKnowledgeBase
    and the upload-only DocRouter).  Each [execute] reads its parameters
    from the host, issues HTTP requests through the host helper and pushes
    entries on [returnData].  The embedding keeps that shape: a state and
    exception monad whose state is the list of requests issued so far
    (plus [returnData] at the outer level), the host as a record of
    functions, and JavaScript strings as lists of UTF-16 code units. *)

From Stdlib Require Import String Ascii List Bool Arith NArith ZArith QArith Lia.
Import ListNotations.

Close Scope Q_scope.
Open Scope list_scope.
#[local] Set Warnings "-register-all".

(** ** JavaScript strings *)

(** A JavaScript string is a sequence of UTF-16 code units. *)
Definition jsstring := list N.

(** Source literals are written as Rocq strings; every literal of the
    sources that is spelled this way is ASCII. *)
Definition lit (s : string) : jsstring :=
  map N_of_ascii (list_ascii_of_string s).

Fixpoint jseqb (a b : jsstring) : bool :=
  match a, b with
  | [], [] => true
  | x :: a', y :: b' => N.eqb x y && jseqb a' b'
  | _, _ => false
  end.

Infix "===" := jseqb (at level 70, no associativity).

(** [WhiteSpace] and [LineTerminator] code units of ECMAScript, the ones
    [String.prototype.trim] strips. *)
Definition is_js_space (c : N) : bool :=
  (N.leb 9 c && N.leb c 13)
  || N.eqb c 32 || N.eqb c 160 || N.eqb c 5760
  || (N.leb 8192 c && N.leb c 8202)
  || N.eqb c 8232 || N.eqb c 8233 || N.eqb c 8239 || N.eqb c 8287
  || N.eqb c 12288 || N.eqb c 65279.

Fixpoint trimStart (s : jsstring) : jsstring :=
  match s with
  | [] => []
  | c :: r => if is_js_space c then trimStart r else s
  end.

Definition trimEnd (s : jsstring) : jsstring := rev (trimStart (rev s)).

(** [s.trim()] *)
Definition trim (s : jsstring) : jsstring := trimEnd (trimStart s).

Definition comma : N := 44.

(** [s.split(',')]: the pieces between commas; the empty string splits
    into one empty piece. *)
Fixpoint split_comma (s : jsstring) : list jsstring :=
  match s with
  | [] => [[]]
  | c :: r =>
      if N.eqb c comma then [] :: split_comma r
      else match split_comma r with
           | p :: ps => (c :: p) :: ps
           | [] => [[c]]
           end
  end.

(** Truthiness of a string: [Boolean(s)]. *)
Definition nonempty (s : jsstring) : bool :=
  match s with [] => false | _ => true end.

(** [a || b] on strings. *)
Definition or_str (a b : jsstring) : jsstring := if nonempty a then a else b.

(** [s.split(',').map((id) => id.trim()).filter(Boolean)] *)
Definition split_trim_filter (s : jsstring) : list jsstring :=
  filter nonempty (map trim (split_comma s)).

(** ** JavaScript values *)

(** Numbers are only forwarded, compared with 60 and tested for zero;
    rationals stand for them. *)
Definition number := Q.

Inductive value : Type :=
| VUndefined
| VNull
| VBool (b : bool)
| VNum (n : number)
| VStr (s : jsstring)
| VArr (l : list value)
| VObj (fields : list (jsstring * value)).

(** [IDataObject]: an object as its own properties in insertion order. *)
Definition IDataObject := list (jsstring * value).

Fixpoint obj_get (o : IDataObject) (k : jsstring) : option value :=
  match o with
  | [] => None
  | (k', v) :: r => if k' === k then Some v else obj_get r k
  end.

(** [o[k] = v]: overwrite in place or append. *)
Fixpoint obj_set (o : IDataObject) (k : jsstring) (v : value) : IDataObject :=
  match o with
  | [] => [(k, v)]
  | (k', v') :: r => if k' === k then (k', v) :: r else (k', v') :: obj_set r k v
  end.

(** [k in o] *)
Definition obj_has (o : IDataObject) (k : jsstring) : bool :=
  match obj_get o k with Some _ => true | None => false end.

(** [o.k] with [undefined] for a missing property. *)
Definition obj_prop (o : IDataObject) (k : jsstring) : value :=
  match obj_get o k with Some v => v | None => VUndefined end.

(** [v?.k] for the property names the nodes read: primitives and arrays
    have no such own property. *)
Definition get_prop (v : value) (k : jsstring) : value :=
  match v with
  | VObj o => obj_prop o k
  | _ => VUndefined
  end.

(** [Boolean(v)] *)
Definition truthy (v : value) : bool :=
  match v with
  | VUndefined | VNull => false
  | VBool b => b
  | VNum n => negb (Qeq_bool n 0)
  | VStr s => nonempty s
  | VArr _ | VObj _ => true
  end.

(** [v == null] *)
Definition nullish (v : value) : bool :=
  match v with VUndefined | VNull => true | _ => false end.

(** [v ?? d] *)
Definition nullish_or (v d : value) : value := if nullish v then d else v.

(** [a || b] *)
Definition or_val (a b : value) : value := if truthy a then a else b.

(** An integer literal. *)
Definition num (z : Z) : number := inject_Z z.

Definition numOfNat (n : nat) : number := num (Z.of_nat n).

(** What [JSON.stringify] puts on the wire for a request sent with
    [json: true]: a property whose value is [undefined] is dropped, an
    [undefined] array element becomes [null]. *)
Fixpoint wire (v : value) : value :=
  match v with
  | VArr l =>
      VArr (map (fun x => match x with VUndefined => VNull | _ => wire x end) l)
  | VObj o =>
      VObj ((fix go (o : list (jsstring * value)) : list (jsstring * value) :=
               match o with
               | [] => []
               | (k, VUndefined) :: r => go r
               | (k, x) :: r => (k, wire x) :: go r
               end) o)
  | _ => v
  end.

(** Does the serialized body carry property [k]? *)
Definition wire_has (body : value) (k : jsstring) : bool :=
  match wire body with
  | VObj o => obj_has o k
  | _ => false
  end.

(** [String(v)], as a template literal computes it for plain data.  The
    printing of a number is the engine's and is taken as a parameter. *)
Fixpoint String_of (numstr : number -> jsstring) (v : value) : jsstring :=
  match v with
  | VUndefined => lit "undefined"
  | VNull => lit "null"
  | VBool true => lit "true"
  | VBool false => lit "false"
  | VNum n => numstr n
  | VStr s => s
  | VArr l =>
      (fix join (l : list value) : jsstring :=
         match l with
         | [] => []
         | [x] => if nullish x then [] else String_of numstr x
         | x :: r =>
             (if nullish x then [] else String_of numstr x) ++ comma :: join r
         end) l
  | VObj _ => lit "[object Object]"
  end.

(** ** Errors *)

(** A thrown JavaScript error, as far as the nodes look at it: whether it
    is an [instanceof NodeOperationError], its [message], and its [context]
    property ([None] when the condition
    [error instanceof Error && 'context' in error] is false, as for the
    [SyntaxError] of [JSON.parse] or a [TypeError]). *)
Record JsError : Type := {
  isNodeOperationError : bool;
  message : jsstring;
  context : option IDataObject;
}.

Definition itemIndexKey : jsstring := lit "itemIndex".

(** [new NodeOperationError(this.getNode(), msg)] and
    [new NodeOperationError(this.getNode(), msg, { itemIndex })].
    The class is n8n-workflow's: its errors carry a [context] object, and
    the [itemIndex] option is stored in it. *)
Definition NodeOperationError (msg : jsstring) (itemIndex : option nat) : JsError :=
  {| isNodeOperationError := true;
     message := msg;
     context := Some match itemIndex with
                     | Some i => [(itemIndexKey, VNum (numOfNat i))]
                     | None => []
                     end |}.

(** An error of the engine itself ([TypeError]). *)
Definition TypeError (msg : jsstring) : JsError :=
  {| isNodeOperationError := false; message := msg; context := None |}.

(** [if (error instanceof Error && 'context' in error) error.context =
    { ...error.context, itemIndex }] *)
Definition annotate (itemIndex : nat) (e : JsError) : JsError :=
  match context e with
  | Some c =>
      {| isNodeOperationError := isNodeOperationError e;
         message := message e;
         context := Some (obj_set c itemIndexKey (VNum (numOfNat itemIndex))) |}
  | None => e
  end.

Definition result (A : Type) : Type := (JsError + A)%type.

(** [Object.keys(v).length] *)
Definition Object_keys_length (v : value) : result nat :=
  match v with
  | VUndefined | VNull =>
      inl (TypeError (lit "Cannot convert undefined or null to object"))
  | VBool _ | VNum _ => inr 0
  | VStr s => inr (length s)
  | VArr l => inr (length l)
  | VObj o => inr (length o)
  end.

(** ** The state and exception monad *)

(** A computation over a state [S] that returns or throws; the state
    survives a throw, as the effects of JavaScript statements do. *)
Definition M (S A : Type) : Type := S -> result A * S.

Definition ret {S A} (a : A) : M S A := fun s => (inr a, s).

Definition throw {S A} (e : JsError) : M S A := fun s => (inl e, s).

Definition bind {S A B} (m : M S A) (k : A -> M S B) : M S B :=
  fun s =>
    match m s with
    | (inr a, s') => k a s'
    | (inl e, s') => (inl e, s')
    end.

(** [try { m } catch (error) { handler error }] *)
Definition try_catch {S A} (m : M S A) (handler : JsError -> M S A) : M S A :=
  fun s =>
    match m s with
    | (inr a, s') => (inr a, s')
    | (inl e, s') => handler e s'
    end.

(** A host call that returns or throws without touching the state. *)
Definition lift {S A} (r : result A) : M S A := fun s => (r, s).

Declare Scope js_scope.
Delimit Scope js_scope with js.
Notation "x <- m ;; k" := (bind m (fun x => k))
  (at level 61, m at next level, right associativity) : js_scope.
Notation "m ;; k" := (bind m (fun _ => k))
  (at level 61, right associativity) : js_scope.
Open Scope js_scope.

(** [for (let i = start; i < start + n; i++) body i] *)
Fixpoint for_loop {St} (n : nat) (i : nat) (body : nat -> M St unit) : M St unit :=
  match n with
  | O => ret tt
  | S n' => body i ;; for_loop n' (S i) body
  end.

(** ** Requests, items and the host *)

Inductive Method : Type := GET | POST | PUT | DELETE.

(** The options object of [httpRequestWithAuthentication], with the
    credential type it is called with. *)
Record Request : Type := {
  credentialsType : string;
  method : Method;
  baseURL : jsstring;
  url : jsstring;
  qs : option IDataObject;
  body : option value;
  jsonFlag : bool;
}.

Record IBinaryData : Type := {
  data : jsstring;
  fileName : option jsstring;
}.

(** [INodeExecutionData] *)
Record INodeExecutionData : Type := {
  json : value;
  binary : option (list (jsstring * IBinaryData));
  pairedItem : option nat;
  error : option JsError;
}.

Record Credentials : Type := {
  cred_baseUrl : option jsstring;
  apiToken : jsstring;
}.

(** [IExecuteFunctions], the JavaScript engine and the remote service.
    [getNodeParameter] is given at the types the sources cast its result
    to; [remote] answers a request from the requests issued before it. *)
Record Host : Type := {
  getInputData : list INodeExecutionData;
  getString : string -> nat -> option jsstring -> result jsstring;
  getNumber : string -> nat -> option number -> result number;
  getOptNumber : string -> nat -> result (option number);
  getBoolean : string -> nat -> option bool -> result bool;
  getJson : string -> nat -> option value -> result value;
  nodeParameters : IDataObject;
  getCredentials : string -> result Credentials;
  continueOnFail : bool;
  (* the buffer as [buffer.toString('base64')] prints it *)
  getBinaryDataBuffer : nat -> jsstring -> result jsstring;
  remote : list Request -> Request -> result value;
  JSON_parse : jsstring -> result value;
  Number_toString : number -> jsstring;
  (* the message n8n-workflow gives a [NodeOperationError] that wraps an
     error with the given message: a message that contains a common error
     code ([ECONNREFUSED], [ENOTFOUND], ...) is replaced by a description
     of the failure *)
  descriptiveMessage : jsstring -> jsstring;
}.

Definition trace := list Request.

(** [await this.helpers.httpRequestWithAuthentication.call(this, cred, opts)]:
    the request is issued, then the remote's answer is returned or thrown. *)
Definition httpRequestWithAuthentication (h : Host) (r : Request) : M trace value :=
  fun tr => (remote h tr r, tr ++ [r]).

(** The state of one [execute] call. *)
Record ExecState : Type := {
  requests : trace;
  returnData : list INodeExecutionData;
}.

(** Run request-building code inside [execute]. *)
Definition liftReq {A} (m : M trace A) : M ExecState A :=
  fun s =>
    let (r, tr) := m (requests s) in
    (r, {| requests := tr; returnData := returnData s |}).

(** [returnData.push(e)] *)
Definition push (e : INodeExecutionData) : M ExecState unit :=
  fun s => (inr tt, {| requests := requests s; returnData := returnData s ++ [e] |}).

(** [return [returnData]] (the single output branch). *)
Definition return_returnData : M ExecState (list INodeExecutionData) :=
  fun s => (inr (returnData s), s).

(** [{ json: response ?? {}, pairedItem: { item: itemIndex } }] *)
Definition okEntry (response : value) (itemIndex : nat) : INodeExecutionData :=
  {| json := nullish_or response (VObj []);
     binary := None;
     pairedItem := Some itemIndex;
     error := None |}.

(** [new NodeOperationError(this.getNode(), error as Error)]: the library
    sets the message of the wrapping error. *)
Definition wrapError (h : Host) (e : JsError) : JsError :=
  {| isNodeOperationError := true;
     message := descriptiveMessage h (message e);
     context := Some match context e with Some c => c | None => [] end |}.

(** [{ json: { error: error.message }, pairedItem: { item: itemIndex },
       error: error instanceof NodeOperationError ? error
              : new NodeOperationError(this.getNode(), error) }] *)
Definition errorEntry (h : Host) (e : JsError) (itemIndex : nat) : INodeExecutionData :=
  {| json := VObj [(lit "error", VStr (message e))];
     binary := None;
     pairedItem := Some itemIndex;
     error := Some (if isNodeOperationError e then e else wrapError h e) |}.

(** The [catch] block of the run-once branches, which is also the
    [handleError] closure of the Account and Knowledge Base nodes. *)
Definition handleError (h : Host) (e : JsError) (itemIndex : nat) : M ExecState unit :=
  if continueOnFail h then push (errorEntry h e itemIndex)
  else throw e.

(** The [catch] block of the per-item loops that is written inline: the
    re-thrown error gets the item index in its context. *)
Definition catchItem (h : Host) (e : JsError) (itemIndex : nat) : M ExecState unit :=
  if continueOnFail h then push (errorEntry h e itemIndex)
  else throw (annotate itemIndex e).

Definition defaultBaseUrl : jsstring := lit "https://app.docrouter.ai/fastapi".

(** [(credentials?.baseUrl as string)?.trim() || 'https://app.docrouter.ai/fastapi'] *)
Definition baseUrlOf (c : Credentials) : jsstring :=
  or_str (match cred_baseUrl c with Some u => trim u | None => [] end) defaultBaseUrl.

Definition tokenLookupUrl : jsstring := lit "/v0/account/token/organization".

Definition orgApi : string := "docRouterOrgApi".

(** [GET /v0/account/token/organization?token=...] *)
Definition lookupRequest (baseUrl token : jsstring) : Request :=
  {| credentialsType := orgApi; method := GET; baseURL := baseUrl;
     url := tokenLookupUrl;
     qs := Some [(lit "token", VStr token)];
     body := None; jsonFlag := true |}.

(** The token lookup that opens [execute] in the per-organization nodes:
    the request, then [tokenInfoResponse?.organization_id] and the throw
    when it is falsy.  The organization ID is returned as the template
    literals of the URLs print it. *)
Definition lookupOrganization (h : Host) (baseUrl token msg : jsstring) : M trace jsstring :=
  tokenInfoResponse <- httpRequestWithAuthentication h (lookupRequest baseUrl token) ;;
  let organizationId := get_prop tokenInfoResponse (lit "organization_id") in
  if negb (truthy organizationId) then throw (NodeOperationError msg None)
  else ret (String_of (Number_toString h) organizationId).

Definition orgMessage : jsstring :=
  lit "Could not determine organization ID from token. Use an organization-level API token.".

(** [JSON.parse(text || fallback)] for a parameter that is either text or
    already an object: [typeof p === 'string' ? JSON.parse(p || fb) : p]. *)
Definition parseIfString (h : Host) (p : value) (fallback : jsstring) : result value :=
  match p with
  | VStr s => JSON_parse h (or_str s fallback)
  | _ => inr p
  end.

Definition mkRequest (cred : string) (m : Method) (baseUrl u : jsstring)
    (q : option IDataObject) (b : option value) : Request :=
  {| credentialsType := cred; method := m; baseURL := baseUrl; url := u;
     qs := q; body := b; jsonFlag := true |}.

Definition strings (l : list jsstring) : value := VArr (map VStr l).

(** [item.binary?.[name]] *)
Fixpoint binaryOf (b : list (jsstring * IBinaryData)) (name : jsstring) : option IBinaryData :=
  match b with
  | [] => None
  | (k, d) :: r => if k === name then Some d else binaryOf r name
  end.

Definition itemBinary (items : list INodeExecutionData) (itemIndex : nat)
    (name : jsstring) : result (option IBinaryData) :=
  match nth_error items itemIndex with
  | Some item =>
      inr match binary item with
          | Some b => binaryOf b name
          | None => None
          end
  | None => inl (TypeError (lit "Cannot read properties of undefined (reading 'binary')"))
  end.

Definition noBinaryMessage (binaryPropertyName : jsstring) : jsstring :=
  lit "No binary data found on property " ++ 34%N :: binaryPropertyName ++ [34%N].

(** [documentNameParam?.trim() || (binaryData.fileName as string) || 'document'] *)
Definition documentNameOf (documentNameParam : jsstring) (binaryData : IBinaryData) : jsstring :=
  or_str (trim documentNameParam)
    (or_str (match fileName binaryData with Some f => f | None => [] end)
       (lit "document")).

(** The body of an upload, shared by the Document node and the DocRouter
    node, from the binary attachment on. *)
Definition uploadBody (h : Host) (itemIndex : nat) (binaryPropertyName : jsstring)
    (documentNameParam tagIdsParam : jsstring) (metadataParam : value)
    (binaryData : IBinaryData) : M trace value :=
  content <- lift (getBinaryDataBuffer h itemIndex binaryPropertyName) ;;
  let documentName := documentNameOf documentNameParam binaryData in
  let tagIds := if nonempty tagIdsParam then split_trim_filter tagIdsParam else [] in
  metadata <- lift (parseIfString h metadataParam (lit "{}")) ;;
  nkeys <- lift (Object_keys_length (or_val metadata (VObj []))) ;;
  ret (VObj
    [(lit "documents",
      VArr [VObj
        [(lit "name", VStr documentName);
         (lit "content", VStr content);
         (lit "tag_ids", match tagIds with [] => VUndefined | _ => strings tagIds end);
         (lit "metadata", match nkeys with O => VUndefined | _ => metadata end)]])]).

Definition unknownOperation (operation : jsstring) : JsError :=
  NodeOperationError (lit "Unknown operation: " ++ operation) None.

(** ** DocRouterDocument *)
Module DocRouterDocument.

Definition orgMessage : jsstring :=
  lit "Could not determine organization ID from token. Make sure you are using an organization-level API token.".

(** The [try] block of [if (operation === 'list')]. *)
Definition listOnce (h : Host) (baseUrl organizationId : jsstring) : M trace value :=
  limit <- lift (getNumber h "limit" 0 (Some (num 10))) ;;
  skip <- lift (getNumber h "skip" 0 (Some (num 0))) ;;
  filterTagIds <- lift (getString h "filterTagIds" 0 (Some [])) ;;
  nameSearch <- lift (getString h "nameSearch" 0 (Some [])) ;;
  metadataSearch <- lift (getString h "metadataSearch" 0 (Some [])) ;;
  let qs := [(lit "limit", VNum limit); (lit "skip", VNum skip)] in
  let qs := if nonempty filterTagIds then obj_set qs (lit "tag_ids") (VStr filterTagIds) else qs in
  let qs := if nonempty nameSearch then obj_set qs (lit "name_search") (VStr nameSearch) else qs in
  let qs := if nonempty metadataSearch
            then obj_set qs (lit "metadata_search") (VStr metadataSearch) else qs in
  httpRequestWithAuthentication h
    (mkRequest orgApi GET baseUrl
       (lit "/v0/orgs/" ++ organizationId ++ lit "/documents") (Some qs) None).

Definition upload (h : Host) (baseUrl organizationId : jsstring) (itemIndex : nat) : M trace value :=
  binaryPropertyName <- lift (getString h "binaryPropertyName" itemIndex None) ;;
  documentNameParam <- lift (getString h "documentName" itemIndex (Some [])) ;;
  tagIdsParam <- lift (getString h "tagIds" itemIndex (Some [])) ;;
  metadataParam <- lift (getJson h "metadata" itemIndex (Some (VObj []))) ;;
  binaryData <- lift (itemBinary (getInputData h) itemIndex binaryPropertyName) ;;
  match binaryData with
  | None => throw (NodeOperationError (noBinaryMessage binaryPropertyName) (Some itemIndex))
  | Some binaryData =>
      body <- uploadBody h itemIndex binaryPropertyName documentNameParam tagIdsParam
                metadataParam binaryData ;;
      httpRequestWithAuthentication h
        (mkRequest orgApi POST baseUrl
           (lit "/v0/orgs/" ++ organizationId ++ lit "/documents") None (Some body))
  end.

Definition get (h : Host) (baseUrl organizationId : jsstring) (itemIndex : nat) : M trace value :=
  documentId <- lift (getString h "documentId" itemIndex None) ;;
  fileType <- lift (getString h "fileType" itemIndex (Some (lit "original"))) ;;
  httpRequestWithAuthentication h
    (mkRequest orgApi GET baseUrl
       (lit "/v0/orgs/" ++ organizationId ++ lit "/documents/" ++ documentId)
       (Some [(lit "file_type", VStr fileType)]) None).

(** The request body of [case 'update'], built field by field. *)
Definition updateBody (h : Host) (newDocumentName tagIdsParam : jsstring)
    (metadataParam : value) : result IDataObject :=
  let body : IDataObject := [] in
  let body := if nonempty newDocumentName
              then obj_set body (lit "document_name") (VStr newDocumentName) else body in
  let body := if nonempty tagIdsParam
              then obj_set body (lit "tag_ids") (strings (split_trim_filter tagIdsParam))
              else body in
  if truthy metadataParam then
    match parseIfString h metadataParam (lit "{}") with
    | inl e => inl e
    | inr metadata =>
        match Object_keys_length metadata with
        | inl e => inl e
        | inr O => inr body
        | inr _ => inr (obj_set body (lit "metadata") metadata)
        end
    end
  else inr body.

Definition update (h : Host) (baseUrl organizationId : jsstring) (itemIndex : nat) : M trace value :=
  documentId <- lift (getString h "documentId" itemIndex None) ;;
  newDocumentName <- lift (getString h "newDocumentName" itemIndex (Some [])) ;;
  tagIdsParam <- lift (getString h "tagIds" itemIndex (Some [])) ;;
  metadataParam <- lift (getJson h "metadata" itemIndex (Some (VObj []))) ;;
  body <- lift (updateBody h newDocumentName tagIdsParam metadataParam) ;;
  response <- httpRequestWithAuthentication h
    (mkRequest orgApi PUT baseUrl
       (lit "/v0/orgs/" ++ organizationId ++ lit "/documents/" ++ documentId)
       None (Some (VObj body))) ;;
  ret (nullish_or response (VObj [(lit "success", VBool true)])).

Definition delete (h : Host) (baseUrl organizationId : jsstring) (itemIndex : nat) : M trace value :=
  documentId <- lift (getString h "documentId" itemIndex None) ;;
  httpRequestWithAuthentication h
    (mkRequest orgApi DELETE baseUrl
       (lit "/v0/orgs/" ++ organizationId ++ lit "/documents/" ++ documentId)
       None None) ;;
  ret (VObj [(lit "success", VBool true); (lit "documentId", VStr documentId)]).

(** The [switch (operation)] of the per-item loop. *)
Definition perItem (h : Host) (baseUrl organizationId operation : jsstring)
    (itemIndex : nat) : M trace value :=
  if operation === lit "upload" then upload h baseUrl organizationId itemIndex
  else if operation === lit "get" then get h baseUrl organizationId itemIndex
  else if operation === lit "update" then update h baseUrl organizationId itemIndex
  else if operation === lit "delete" then delete h baseUrl organizationId itemIndex
  else throw (unknownOperation operation).

Definition execute (h : Host) : M ExecState (list INodeExecutionData) :=
  let items := getInputData h in
  operation <- lift (getString h "operation" 0 None) ;;
  credentials <- lift (getCredentials h orgApi) ;;
  let baseUrl := baseUrlOf credentials in
  organizationId <- liftReq (lookupOrganization h baseUrl (apiToken credentials) orgMessage) ;;
  if operation === lit "list" then
    try_catch
      (response <- liftReq (listOnce h baseUrl organizationId) ;;
       push (okEntry response 0))
      (fun error => handleError h error 0) ;;
    return_returnData
  else
    for_loop (length items) 0 (fun itemIndex =>
      try_catch
        (response <- liftReq (perItem h baseUrl organizationId operation itemIndex) ;;
         push (okEntry response itemIndex))
        (fun error => catchItem h error itemIndex)) ;;
    return_returnData.

End DocRouterDocument.

(** ** DocRouterTag *)
Module DocRouterTag.

Definition listOnce (h : Host) (baseUrl organizationId : jsstring) : M trace value :=
  limit <- lift (getNumber h "limit" 0 (Some (num 10))) ;;
  skip <- lift (getNumber h "skip" 0 (Some (num 0))) ;;
  nameSearch <- lift (getString h "nameSearch" 0 (Some [])) ;;
  let qs := [(lit "limit", VNum limit); (lit "skip", VNum skip)] in
  let qs := if nonempty (trim nameSearch)
            then obj_set qs (lit "name_search") (VStr (trim nameSearch)) else qs in
  httpRequestWithAuthentication h
    (mkRequest orgApi GET baseUrl
       (lit "/v0/orgs/" ++ organizationId ++ lit "/tags") (Some qs) None).

Definition get (h : Host) (baseUrl organizationId : jsstring) (itemIndex : nat) : M trace value :=
  tagId <- lift (getString h "tagId" itemIndex None) ;;
  httpRequestWithAuthentication h
    (mkRequest orgApi GET baseUrl
       (lit "/v0/orgs/" ++ organizationId ++ lit "/tags/" ++ tagId) None None).

(** The body that [create] and [update] build alike. *)
Definition tagBody (tagName color description : jsstring) : IDataObject :=
  let body := [(lit "name", VStr (trim tagName))] in
  let body := if nonempty (trim color)
              then obj_set body (lit "color") (VStr (trim color)) else body in
  let body := if nonempty (trim description)
              then obj_set body (lit "description") (VStr (trim description)) else body in
  body.

Definition create (h : Host) (baseUrl organizationId : jsstring) (itemIndex : nat) : M trace value :=
  tagName <- lift (getString h "tagName" itemIndex None) ;;
  color <- lift (getString h "color" itemIndex (Some [])) ;;
  description <- lift (getString h "description" itemIndex (Some [])) ;;
  httpRequestWithAuthentication h
    (mkRequest orgApi POST baseUrl
       (lit "/v0/orgs/" ++ organizationId ++ lit "/tags")
       None (Some (VObj (tagBody tagName color description)))).

Definition update (h : Host) (baseUrl organizationId : jsstring) (itemIndex : nat) : M trace value :=
  tagId <- lift (getString h "tagId" itemIndex None) ;;
  tagName <- lift (getString h "tagName" itemIndex None) ;;
  color <- lift (getString h "color" itemIndex (Some [])) ;;
  description <- lift (getString h "description" itemIndex (Some [])) ;;
  httpRequestWithAuthentication h
    (mkRequest orgApi PUT baseUrl
       (lit "/v0/orgs/" ++ organizationId ++ lit "/tags/" ++ tagId)
       None (Some (VObj (tagBody tagName color description)))).

Definition delete (h : Host) (baseUrl organizationId : jsstring) (itemIndex : nat) : M trace value :=
  tagId <- lift (getString h "tagId" itemIndex None) ;;
  httpRequestWithAuthentication h
    (mkRequest orgApi DELETE baseUrl
       (lit "/v0/orgs/" ++ organizationId ++ lit "/tags/" ++ tagId) None None) ;;
  ret (VObj [(lit "success", VBool true); (lit "tagId", VStr tagId)]).

Definition perItem (h : Host) (baseUrl organizationId operation : jsstring)
    (itemIndex : nat) : M trace value :=
  if operation === lit "get" then get h baseUrl organizationId itemIndex
  else if operation === lit "create" then create h baseUrl organizationId itemIndex
  else if operation === lit "update" then update h baseUrl organizationId itemIndex
  else if operation === lit "delete" then delete h baseUrl organizationId itemIndex
  else throw (unknownOperation operation).

Definition execute (h : Host) : M ExecState (list INodeExecutionData) :=
  let items := getInputData h in
  operation <- lift (getString h "operation" 0 None) ;;
  credentials <- lift (getCredentials h orgApi) ;;
  let baseUrl := baseUrlOf credentials in
  organizationId <- liftReq (lookupOrganization h baseUrl (apiToken credentials) orgMessage) ;;
  if operation === lit "list" then
    try_catch
      (response <- liftReq (listOnce h baseUrl organizationId) ;;
       push (okEntry response 0))
      (fun error => handleError h error 0) ;;
    return_returnData
  else
    for_loop (length items) 0 (fun itemIndex =>
      try_catch
        (response <- liftReq (perItem h baseUrl organizationId operation itemIndex) ;;
         push (okEntry response itemIndex))
        (fun error => catchItem h error itemIndex)) ;;
    return_returnData.

End DocRouterTag.

(** ** DocRouter (upload only) *)
Module DocRouter.

(** The [try] block of the loop; the parameters are read once, at index 0,
    before the loop. *)
Definition perItem (h : Host) (baseUrl organizationId binaryPropertyName
    documentNameParam tagIdsParam : jsstring) (metadataParam : value)
    (itemIndex : nat) : M trace value :=
  binaryData <- lift (itemBinary (getInputData h) itemIndex binaryPropertyName) ;;
  match binaryData with
  | None => throw (NodeOperationError (noBinaryMessage binaryPropertyName) (Some itemIndex))
  | Some binaryData =>
      body <- uploadBody h itemIndex binaryPropertyName documentNameParam tagIdsParam
                metadataParam binaryData ;;
      httpRequestWithAuthentication h
        (mkRequest orgApi POST baseUrl
           (lit "/v0/orgs/" ++ organizationId ++ lit "/documents") None (Some body))
  end.

Definition execute (h : Host) : M ExecState (list INodeExecutionData) :=
  let items := getInputData h in
  operation <- lift (getString h "operation" 0 None) ;;
  if negb (operation === lit "upload") then throw (unknownOperation operation)
  else
    organizationId <- lift (getString h "organizationId" 0 None) ;;
    binaryPropertyName <- lift (getString h "binaryPropertyName" 0 None) ;;
    documentNameParam <- lift (getString h "documentName" 0 (Some [])) ;;
    tagIdsParam <- lift (getString h "tagIds" 0 (Some [])) ;;
    metadataParam <- lift (getJson h "metadata" 0 (Some (VObj []))) ;;
    credentials <- lift (getCredentials h orgApi) ;;
    let baseUrl := baseUrlOf credentials in
    for_loop (length items) 0 (fun itemIndex =>
      try_catch
        (response <- liftReq (perItem h baseUrl organizationId binaryPropertyName
                                documentNameParam tagIdsParam metadataParam itemIndex) ;;
         push (okEntry response itemIndex))
        (fun error => catchItem h error itemIndex)) ;;
    return_returnData.

End DocRouter.

Definition customApiCall : jsstring := lit "__CUSTOM_API_CALL__".

Definition dq : N := 34.

(** The text shared by the custom-API-call messages of the nodes that use
    the organization credential; [arrow] is the character between
    "Authentication" and "Predefined" as the source file spells it. *)
Definition customApiCallMessage (arrow : jsstring) (supports : jsstring) : jsstring :=
  lit "For custom API calls, use the HTTP Request node and choose "
  ++ dq :: lit "DocRouter Organization API" ++ dq :: lit " under Authentication "
  ++ arrow ++ lit " Predefined Credential Type. This node only supports "
  ++ supports.

(** ** DocRouterAccount *)
Module DocRouterAccount.

Definition accountApi : string := "docRouterAccountApi".

(** [['listUsers', 'listOrganizations', 'getUser', 'getOrganization'].includes(operation)] *)
Definition runOnce (operation : jsstring) : bool :=
  existsb (fun o => o === operation)
    [lit "listUsers"; lit "listOrganizations"; lit "getUser"; lit "getOrganization"].

(** The [try] block of [if (runOnce)]. *)
Definition once (h : Host) (baseUrl operation : jsstring) : M trace value :=
  if operation === lit "listUsers" then
    limit <- lift (getNumber h "limit" 0 (Some (num 10))) ;;
    skip <- lift (getNumber h "skip" 0 (Some (num 0))) ;;
    organizationIdFilter <- lift (getString h "organizationIdFilter" 0 (Some [])) ;;
    searchName <- lift (getString h "searchName" 0 (Some [])) ;;
    let qs := [(lit "limit", VNum limit); (lit "skip", VNum skip)] in
    let qs := if nonempty (trim organizationIdFilter)
              then obj_set qs (lit "organization_id") (VStr (trim organizationIdFilter))
              else qs in
    let qs := if nonempty (trim searchName)
              then obj_set qs (lit "search_name") (VStr (trim searchName)) else qs in
    httpRequestWithAuthentication h
      (mkRequest accountApi GET baseUrl (lit "/v0/account/users") (Some qs) None)
  else if operation === lit "getUser" then
    userId <- lift (getString h "userId" 0 None) ;;
    httpRequestWithAuthentication h
      (mkRequest accountApi GET baseUrl (lit "/v0/account/users")
         (Some [(lit "user_id", VStr (trim userId))]) None)
  else if operation === lit "listOrganizations" then
    limit <- lift (getNumber h "orgLimit" 0 (Some (num 10))) ;;
    skip <- lift (getNumber h "orgSkip" 0 (Some (num 0))) ;;
    userId <- lift (getString h "orgUserId" 0 (Some [])) ;;
    nameSearch <- lift (getString h "nameSearch" 0 (Some [])) ;;
    memberSearch <- lift (getString h "memberSearch" 0 (Some [])) ;;
    let qs := [(lit "limit", VNum limit); (lit "skip", VNum skip)] in
    let qs := if nonempty (trim userId)
              then obj_set qs (lit "user_id") (VStr (trim userId)) else qs in
    let qs := if nonempty (trim nameSearch)
              then obj_set qs (lit "name_search") (VStr (trim nameSearch)) else qs in
    let qs := if nonempty (trim memberSearch)
              then obj_set qs (lit "member_search") (VStr (trim memberSearch)) else qs in
    httpRequestWithAuthentication h
      (mkRequest accountApi GET baseUrl (lit "/v0/account/organizations") (Some qs) None)
  else
    organizationId <- lift (getString h "organizationId" 0 None) ;;
    httpRequestWithAuthentication h
      (mkRequest accountApi GET baseUrl (lit "/v0/account/organizations")
         (Some [(lit "organization_id", VStr (trim organizationId))]) None).

Definition createUser (h : Host) (baseUrl : jsstring) (i : nat) : M trace value :=
  email <- lift (getString h "email" i None) ;;
  userName <- lift (getString h "userName" i None) ;;
  password <- lift (getString h "password" i None) ;;
  httpRequestWithAuthentication h
    (mkRequest accountApi POST baseUrl (lit "/v0/account/users") None
       (Some (VObj [(lit "email", VStr (trim email));
                    (lit "name", VStr (trim userName));
                    (lit "password", VStr password)]))).

(** ['k' in nodeParams && nodeParams.k != null] *)
Definition present (nodeParams : IDataObject) (k : jsstring) : bool :=
  obj_has nodeParams k && negb (nullish (obj_prop nodeParams k)).

(** The request body of [case 'updateUser'], built field by field. *)
Definition updateUserBody (nodeParams : IDataObject)
    (userNameUpdate passwordUpdate role : jsstring) : IDataObject :=
  let body : IDataObject := [] in
  let body := if nonempty userNameUpdate
              then obj_set body (lit "name") (VStr (trim userNameUpdate)) else body in
  let body := if nonempty passwordUpdate
              then obj_set body (lit "password") (VStr passwordUpdate) else body in
  let body := if present nodeParams (lit "role")
              then obj_set body (lit "role")
                     (if nonempty role then VStr role else obj_prop nodeParams (lit "role"))
              else body in
  let body := if present nodeParams (lit "emailVerified")
              then obj_set body (lit "email_verified") (obj_prop nodeParams (lit "emailVerified"))
              else body in
  let body := if present nodeParams (lit "hasSeenTour")
              then obj_set body (lit "has_seen_tour") (obj_prop nodeParams (lit "hasSeenTour"))
              else body in
  body.

Definition updateUserMessage : jsstring :=
  lit "Provide at least one field to update (name, password, role, email verified, or has seen tour).".

Definition updateUser (h : Host) (baseUrl : jsstring) (i : nat) : M trace value :=
  userId <- lift (getString h "userId" i None) ;;
  userNameUpdate <- lift (getString h "userNameUpdate" i (Some [])) ;;
  passwordUpdate <- lift (getString h "passwordUpdate" i (Some [])) ;;
  role <- lift (getString h "role" i (Some [])) ;;
  let nodeParams := nodeParameters h in
  let body := updateUserBody nodeParams userNameUpdate passwordUpdate role in
  match body with
  | [] => throw (NodeOperationError updateUserMessage None)
  | _ =>
      httpRequestWithAuthentication h
        (mkRequest accountApi PUT baseUrl (lit "/v0/account/users/" ++ trim userId)
           None (Some (VObj body)))
  end.

Definition deleteUser (h : Host) (baseUrl : jsstring) (i : nat) : M trace value :=
  userId <- lift (getString h "userId" i None) ;;
  httpRequestWithAuthentication h
    (mkRequest accountApi DELETE baseUrl (lit "/v0/account/users/" ++ trim userId)
       None None) ;;
  ret (VObj [(lit "success", VBool true); (lit "user_id", VStr (trim userId))]).

Definition createOrganization (h : Host) (baseUrl : jsstring) (i : nat) : M trace value :=
  orgName <- lift (getString h "orgName" i None) ;;
  orgType <- lift (getString h "orgType" i (Some (lit "individual"))) ;;
  httpRequestWithAuthentication h
    (mkRequest accountApi POST baseUrl (lit "/v0/account/organizations") None
       (Some (VObj [(lit "name", VStr (trim orgName));
                    (lit "type", VStr (or_str orgType (lit "individual")))]))).

Definition membersMessage : jsstring := lit "Members must be a valid JSON array".

(** The request body of [case 'updateOrganization']; the inner [try]
    turns a failure of [JSON.parse] into a [NodeOperationError]. *)
Definition updateOrganizationBody (h : Host) (nodeParams : IDataObject)
    (orgNameUpdate orgTypeUpdate membersParam : jsstring) : result IDataObject :=
  let body : IDataObject := [] in
  let body := if nonempty orgNameUpdate
              then obj_set body (lit "name") (VStr (trim orgNameUpdate)) else body in
  let body := if present nodeParams (lit "orgTypeUpdate")
              then obj_set body (lit "type")
                     (if nonempty orgTypeUpdate then VStr orgTypeUpdate
                      else obj_prop nodeParams (lit "orgTypeUpdate"))
              else body in
  if nonempty membersParam && nonempty (trim membersParam) then
    match JSON_parse h (trim membersParam) with
    | inr members => inr (obj_set body (lit "members") members)
    | inl _ => inl (NodeOperationError membersMessage None)
    end
  else inr body.

Definition updateOrganization (h : Host) (baseUrl : jsstring) (i : nat) : M trace value :=
  organizationId <- lift (getString h "organizationId" i None) ;;
  orgNameUpdate <- lift (getString h "orgNameUpdate" i (Some [])) ;;
  orgTypeUpdate <- lift (getString h "orgTypeUpdate" i (Some [])) ;;
  membersParam <- lift (getString h "members" i (Some [])) ;;
  let nodeParams := nodeParameters h in
  body <- lift (updateOrganizationBody h nodeParams orgNameUpdate orgTypeUpdate membersParam) ;;
  httpRequestWithAuthentication h
    (mkRequest accountApi PUT baseUrl
       (lit "/v0/account/organizations/" ++ trim organizationId)
       None (Some (VObj body))).

Definition deleteOrganization (h : Host) (baseUrl : jsstring) (i : nat) : M trace value :=
  organizationId <- lift (getString h "organizationId" i None) ;;
  httpRequestWithAuthentication h
    (mkRequest accountApi DELETE baseUrl
       (lit "/v0/account/organizations/" ++ trim organizationId) None None) ;;
  ret (VObj [(lit "success", VBool true);
             (lit "organization_id", VStr (trim organizationId))]).

Definition customMessage : jsstring :=
  lit "For custom API calls, use the HTTP Request node with DocRouter Account API credentials. This node only supports account users and organizations operations.".

Definition perItem (h : Host) (baseUrl operation : jsstring) (i : nat) : M trace value :=
  if operation === lit "createUser" then createUser h baseUrl i
  else if operation === lit "updateUser" then updateUser h baseUrl i
  else if operation === lit "deleteUser" then deleteUser h baseUrl i
  else if operation === lit "createOrganization" then createOrganization h baseUrl i
  else if operation === lit "updateOrganization" then updateOrganization h baseUrl i
  else if operation === lit "deleteOrganization" then deleteOrganization h baseUrl i
  else if operation === customApiCall then throw (NodeOperationError customMessage None)
  else throw (unknownOperation operation).

Definition execute (h : Host) : M ExecState (list INodeExecutionData) :=
  let items := getInputData h in
  operation <- lift (getString h "operation" 0 None) ;;
  credentials <- lift (getCredentials h accountApi) ;;
  let baseUrl := baseUrlOf credentials in
  if runOnce operation then
    try_catch
      (response <- liftReq (once h baseUrl operation) ;;
       push (okEntry response 0))
      (fun error => handleError h error 0) ;;
    return_returnData
  else
    for_loop (length items) 0 (fun i =>
      try_catch
        (response <- liftReq (perItem h baseUrl operation i) ;;
         push (okEntry response i))
        (fun error => handleError h error i)) ;;
    return_returnData.

End DocRouterAccount.

(** ** DocRouterSchema *)
Module DocRouterSchema.

Definition listOnce (h : Host) (baseUrl organizationId : jsstring) : M trace value :=
  limit <- lift (getNumber h "limit" 0 (Some (num 10))) ;;
  skip <- lift (getNumber h "skip" 0 (Some (num 0))) ;;
  nameSearch <- lift (getString h "nameSearch" 0 (Some [])) ;;
  let qs := [(lit "limit", VNum limit); (lit "skip", VNum skip)] in
  let qs := if nonempty (trim nameSearch)
            then obj_set qs (lit "name_search") (VStr (trim nameSearch)) else qs in
  httpRequestWithAuthentication h
    (mkRequest orgApi GET baseUrl
       (lit "/v0/orgs/" ++ organizationId ++ lit "/schemas") (Some qs) None).

Definition listVersionsOnce (h : Host) (baseUrl organizationId : jsstring) : M trace value :=
  schemaId <- lift (getString h "schemaId" 0 None) ;;
  httpRequestWithAuthentication h
    (mkRequest orgApi GET baseUrl
       (lit "/v0/orgs/" ++ organizationId ++ lit "/schemas/" ++ schemaId ++ lit "/versions")
       None None).

Definition validateOnce (h : Host) (baseUrl organizationId : jsstring) : M trace value :=
  schemaRevid <- lift (getString h "schemaRevid" 0 None) ;;
  validateDataParam <- lift (getJson h "validateData" 0 None) ;;
  validateData <- lift (parseIfString h validateDataParam (lit "{}")) ;;
  httpRequestWithAuthentication h
    (mkRequest orgApi POST baseUrl
       (lit "/v0/orgs/" ++ organizationId ++ lit "/schemas/" ++ schemaRevid ++ lit "/validate")
       None (Some validateData)).

Definition get (h : Host) (baseUrl organizationId : jsstring) (itemIndex : nat) : M trace value :=
  schemaRevid <- lift (getString h "schemaRevid" itemIndex None) ;;
  httpRequestWithAuthentication h
    (mkRequest orgApi GET baseUrl
       (lit "/v0/orgs/" ++ organizationId ++ lit "/schemas/" ++ schemaRevid) None None).

Definition create (h : Host) (baseUrl organizationId : jsstring) (itemIndex : nat) : M trace value :=
  name <- lift (getString h "name" itemIndex None) ;;
  jsonSchemaParam <- lift (getJson h "jsonSchema" itemIndex None) ;;
  jsonSchema <- lift (parseIfString h jsonSchemaParam (lit "{}")) ;;
  httpRequestWithAuthentication h
    (mkRequest orgApi POST baseUrl
       (lit "/v0/orgs/" ++ organizationId ++ lit "/schemas") None
       (Some (VObj [(lit "name", VStr (trim name)); (lit "json_schema", jsonSchema)]))).

Definition update (h : Host) (baseUrl organizationId : jsstring) (itemIndex : nat) : M trace value :=
  schemaId <- lift (getString h "schemaId" itemIndex None) ;;
  name <- lift (getString h "name" itemIndex None) ;;
  jsonSchemaParam <- lift (getJson h "jsonSchema" itemIndex None) ;;
  jsonSchema <- lift (parseIfString h jsonSchemaParam (lit "{}")) ;;
  httpRequestWithAuthentication h
    (mkRequest orgApi PUT baseUrl
       (lit "/v0/orgs/" ++ organizationId ++ lit "/schemas/" ++ schemaId) None
       (Some (VObj [(lit "name", VStr (trim name)); (lit "json_schema", jsonSchema)]))).

Definition delete (h : Host) (baseUrl organizationId : jsstring) (itemIndex : nat) : M trace value :=
  schemaId <- lift (getString h "schemaId" itemIndex None) ;;
  httpRequestWithAuthentication h
    (mkRequest orgApi DELETE baseUrl
       (lit "/v0/orgs/" ++ organizationId ++ lit "/schemas/" ++ schemaId) None None) ;;
  ret (VObj [(lit "success", VBool true); (lit "schemaId", VStr schemaId)]).

Definition customMessage : jsstring :=
  customApiCallMessage [226; 8224; 8217]%N
    (lit "List, Get, Create, Update, Delete, Validate, and List Versions.").

Definition perItem (h : Host) (baseUrl organizationId operation : jsstring)
    (itemIndex : nat) : M trace value :=
  if operation === lit "get" then get h baseUrl organizationId itemIndex
  else if operation === lit "create" then create h baseUrl organizationId itemIndex
  else if operation === lit "update" then update h baseUrl organizationId itemIndex
  else if operation === lit "delete" then delete h baseUrl organizationId itemIndex
  else if operation === customApiCall then throw (NodeOperationError customMessage None)
  else throw (unknownOperation operation).

Definition execute (h : Host) : M ExecState (list INodeExecutionData) :=
  let items := getInputData h in
  operation <- lift (getString h "operation" 0 None) ;;
  credentials <- lift (getCredentials h orgApi) ;;
  let baseUrl := baseUrlOf credentials in
  organizationId <- liftReq (lookupOrganization h baseUrl (apiToken credentials) orgMessage) ;;
  if operation === lit "list" then
    try_catch
      (response <- liftReq (listOnce h baseUrl organizationId) ;;
       push (okEntry response 0))
      (fun error => handleError h error 0) ;;
    return_returnData
  else if operation === lit "listVersions" then
    try_catch
      (response <- liftReq (listVersionsOnce h baseUrl organizationId) ;;
       push (okEntry response 0))
      (fun error => handleError h error 0) ;;
    return_returnData
  else if operation === lit "validate" then
    try_catch
      (response <- liftReq (validateOnce h baseUrl organizationId) ;;
       push (okEntry response 0))
      (fun error => handleError h error 0) ;;
    return_returnData
  else
    for_loop (length items) 0 (fun itemIndex =>
      try_catch
        (response <- liftReq (perItem h baseUrl organizationId operation itemIndex) ;;
         push (okEntry response itemIndex))
        (fun error => catchItem h error itemIndex)) ;;
    return_returnData.

End DocRouterSchema.

(** ** DocRouterLLM *)
Module DocRouterLLM.

Definition requiredMessage (what : jsstring) : jsstring :=
  lit "Prompt Revision ID is required for " ++ what ++ lit ".".

Definition run (h : Host) (baseUrl organizationId documentId promptRevid : jsstring)
    (itemIndex : nat) : M trace value :=
  force <- lift (getBoolean h "force" itemIndex (Some false)) ;;
  httpRequestWithAuthentication h
    (mkRequest orgApi POST baseUrl
       (lit "/v0/orgs/" ++ organizationId ++ lit "/llm/run/" ++ documentId)
       (Some [(lit "prompt_revid", VStr (or_str promptRevid (lit "default")));
              (lit "force", VBool force)]) None).

Definition get (h : Host) (baseUrl organizationId documentId promptRevid : jsstring)
    (itemIndex : nat) : M trace value :=
  fallback <- lift (getBoolean h "fallback" itemIndex (Some false)) ;;
  httpRequestWithAuthentication h
    (mkRequest orgApi GET baseUrl
       (lit "/v0/orgs/" ++ organizationId ++ lit "/llm/result/" ++ documentId)
       (Some [(lit "prompt_revid", VStr (or_str promptRevid (lit "default")));
              (lit "fallback", VBool fallback)]) None).

Definition update (h : Host) (baseUrl organizationId documentId promptRevid : jsstring)
    (itemIndex : nat) : M trace value :=
  updatedLlmResultParam <- lift (getJson h "updatedLlmResult" itemIndex None) ;;
  isVerified <- lift (getBoolean h "isVerified" itemIndex (Some false)) ;;
  updatedLlmResult <- lift (parseIfString h updatedLlmResultParam (lit "{}")) ;;
  if negb (nonempty (trim promptRevid)) then
    throw (NodeOperationError (requiredMessage (lit "Update")) (Some itemIndex))
  else
    httpRequestWithAuthentication h
      (mkRequest orgApi PUT baseUrl
         (lit "/v0/orgs/" ++ organizationId ++ lit "/llm/result/" ++ documentId)
         (Some [(lit "prompt_revid", VStr (trim promptRevid))])
         (Some (VObj [(lit "updated_llm_result", updatedLlmResult);
                      (lit "is_verified", VBool isVerified)]))).

Definition delete (h : Host) (baseUrl organizationId documentId promptRevid : jsstring)
    (itemIndex : nat) : M trace value :=
  if negb (nonempty (trim promptRevid)) then
    throw (NodeOperationError (requiredMessage (lit "Delete")) (Some itemIndex))
  else
    httpRequestWithAuthentication h
      (mkRequest orgApi DELETE baseUrl
         (lit "/v0/orgs/" ++ organizationId ++ lit "/llm/result/" ++ documentId)
         (Some [(lit "prompt_revid", VStr (trim promptRevid))]) None) ;;
    ret (VObj [(lit "success", VBool true);
               (lit "documentId", VStr documentId);
               (lit "promptRevid", VStr (trim promptRevid))]).

Definition customMessage : jsstring :=
  customApiCallMessage [226; 8224; 8217]%N (lit "Run, Get, Update, and Delete.").

(** The [try] block of the loop: two parameters, then the [switch]. *)
Definition perItem (h : Host) (baseUrl organizationId operation : jsstring)
    (itemIndex : nat) : M trace value :=
  documentId <- lift (getString h "documentId" itemIndex None) ;;
  promptRevid <- lift (getString h "promptRevid" itemIndex (Some (lit "default"))) ;;
  if operation === lit "run" then run h baseUrl organizationId documentId promptRevid itemIndex
  else if operation === lit "get" then get h baseUrl organizationId documentId promptRevid itemIndex
  else if operation === lit "update"
  then update h baseUrl organizationId documentId promptRevid itemIndex
  else if operation === lit "delete"
  then delete h baseUrl organizationId documentId promptRevid itemIndex
  else if operation === customApiCall then throw (NodeOperationError customMessage None)
  else throw (unknownOperation operation).

Definition execute (h : Host) : M ExecState (list INodeExecutionData) :=
  let items := getInputData h in
  operation <- lift (getString h "operation" 0 None) ;;
  credentials <- lift (getCredentials h orgApi) ;;
  let baseUrl := baseUrlOf credentials in
  organizationId <- liftReq (lookupOrganization h baseUrl (apiToken credentials) orgMessage) ;;
  for_loop (length items) 0 (fun itemIndex =>
    try_catch
      (response <- liftReq (perItem h baseUrl organizationId operation itemIndex) ;;
       push (okEntry response itemIndex))
      (fun error => catchItem h error itemIndex)) ;;
  return_returnData.

End DocRouterLLM.

(** ** DocRouterKnowledgeBase *)
Module DocRouterKnowledgeBase.

(** [['list', 'listDocuments', 'listChunks', 'search', 'chat', 'reconcile',
      'reconcileAll'].includes(operation)] *)
Definition runOnce (operation : jsstring) : bool :=
  existsb (fun o => o === operation)
    [lit "list"; lit "listDocuments"; lit "listChunks"; lit "search"; lit "chat";
     lit "reconcile"; lit "reconcileAll"].

Definition kbUrl (organizationId : jsstring) : jsstring :=
  lit "/v0/orgs/" ++ organizationId ++ lit "/knowledge-bases".

(** ['k' in nodeParams && nodeParams.k != null ? nodeParams.k : undefined] *)
Definition optionalParam (nodeParams : IDataObject) (k : jsstring) : value :=
  if obj_has nodeParams k && negb (nullish (obj_prop nodeParams k))
  then obj_prop nodeParams k else VUndefined.

Definition search (h : Host) (baseUrl organizationId : jsstring) : M trace value :=
  kbId <- lift (getString h "kbId" 0 None) ;;
  searchQuery <- lift (getString h "searchQuery" 0 None) ;;
  topK <- lift (getNumber h "topK" 0 (Some (num 5))) ;;
  searchSkip <- lift (getNumber h "searchSkip" 0 (Some (num 0))) ;;
  metadataFilterParam <- lift (getJson h "metadataFilter" 0 (Some (VStr (lit "{}")))) ;;
  let coalesceNeighborsSearch :=
    optionalParam (nodeParameters h) (lit "coalesceNeighborsSearch") in
  metadataFilter <- lift (parseIfString h metadataFilterParam (lit "{}")) ;;
  let body := [(lit "query", VStr (trim searchQuery)); (lit "top_k", VNum topK);
               (lit "skip", VNum searchSkip)] in
  nkeys <- lift (Object_keys_length metadataFilter) ;;
  let body := match nkeys with
              | O => body
              | _ => obj_set body (lit "metadata_filter") metadataFilter
              end in
  let body := if negb (nullish coalesceNeighborsSearch)
              then obj_set body (lit "coalesce_neighbors") coalesceNeighborsSearch
              else body in
  httpRequestWithAuthentication h
    (mkRequest orgApi POST baseUrl
       (kbUrl organizationId ++ lit "/" ++ kbId ++ lit "/search") None (Some (VObj body))).

Definition chat (h : Host) (baseUrl organizationId : jsstring) : M trace value :=
  kbId <- lift (getString h "kbId" 0 None) ;;
  chatModel <- lift (getString h "chatModel" 0 None) ;;
  messagesParam <- lift (getJson h "messages" 0 None) ;;
  temperature <- lift (getNumber h "temperature" 0 (Some (7 # 10)%Q)) ;;
  let maxTokens := optionalParam (nodeParameters h) (lit "maxTokens") in
  stream <- lift (getBoolean h "stream" 0 (Some true)) ;;
  chatMetadataFilterParam <- lift (getJson h "chatMetadataFilter" 0 (Some (VStr (lit "{}")))) ;;
  messages <- lift (parseIfString h messagesParam (lit "[]")) ;;
  chatMetadataFilter <- lift (parseIfString h chatMetadataFilterParam (lit "{}")) ;;
  let body := [(lit "model", VStr (trim chatModel)); (lit "messages", messages);
               (lit "temperature", VNum temperature); (lit "stream", VBool stream)] in
  let body := if negb (nullish maxTokens)
              then obj_set body (lit "max_tokens") maxTokens else body in
  nkeys <- lift (Object_keys_length chatMetadataFilter) ;;
  let body := match nkeys with
              | O => body
              | _ => obj_set body (lit "metadata_filter") chatMetadataFilter
              end in
  httpRequestWithAuthentication h
    (mkRequest orgApi POST baseUrl
       (kbUrl organizationId ++ lit "/" ++ kbId ++ lit "/chat") None (Some (VObj body))).

(** The [try] block of the run-once branch. *)
Definition once (h : Host) (baseUrl organizationId operation : jsstring) : M trace value :=
  if operation === lit "list" then
    limit <- lift (getNumber h "limit" 0 (Some (num 10))) ;;
    skip <- lift (getNumber h "skip" 0 (Some (num 0))) ;;
    nameSearch <- lift (getString h "nameSearch" 0 (Some [])) ;;
    let qs := [(lit "limit", VNum limit); (lit "skip", VNum skip)] in
    let qs := if nonempty (trim nameSearch)
              then obj_set qs (lit "name_search") (VStr (trim nameSearch)) else qs in
    httpRequestWithAuthentication h
      (mkRequest orgApi GET baseUrl (kbUrl organizationId) (Some qs) None)
  else if operation === lit "listDocuments" then
    kbId <- lift (getString h "kbId" 0 None) ;;
    listLimit <- lift (getNumber h "listLimit" 0 (Some (num 10))) ;;
    listSkip <- lift (getNumber h "listSkip" 0 (Some (num 0))) ;;
    httpRequestWithAuthentication h
      (mkRequest orgApi GET baseUrl
         (kbUrl organizationId ++ lit "/" ++ kbId ++ lit "/documents")
         (Some [(lit "limit", VNum listLimit); (lit "skip", VNum listSkip)]) None)
  else if operation === lit "listChunks" then
    kbId <- lift (getString h "kbId" 0 None) ;;
    documentId <- lift (getString h "documentId" 0 None) ;;
    chunksLimit <- lift (getNumber h "chunksLimit" 0 (Some (num 100))) ;;
    chunksSkip <- lift (getNumber h "chunksSkip" 0 (Some (num 0))) ;;
    httpRequestWithAuthentication h
      (mkRequest orgApi GET baseUrl
         (kbUrl organizationId ++ lit "/" ++ kbId ++ lit "/documents/" ++ documentId
          ++ lit "/chunks")
         (Some [(lit "limit", VNum chunksLimit); (lit "skip", VNum chunksSkip)]) None)
  else if operation === lit "search" then search h baseUrl organizationId
  else if operation === lit "chat" then chat h baseUrl organizationId
  else if operation === lit "reconcile" then
    kbId <- lift (getString h "kbId" 0 None) ;;
    dryRun <- lift (getBoolean h "dryRun" 0 (Some false)) ;;
    httpRequestWithAuthentication h
      (mkRequest orgApi POST baseUrl
         (kbUrl organizationId ++ lit "/" ++ kbId ++ lit "/reconcile")
         (Some [(lit "dry_run", VBool dryRun)]) None)
  else
    dryRun <- lift (getBoolean h "dryRun" 0 (Some false)) ;;
    httpRequestWithAuthentication h
      (mkRequest orgApi POST baseUrl
         (kbUrl organizationId ++ lit "/reconcile-all")
         (Some [(lit "dry_run", VBool dryRun)]) None).

Definition get (h : Host) (baseUrl organizationId : jsstring) (itemIndex : nat) : M trace value :=
  kbId <- lift (getString h "kbId" itemIndex None) ;;
  httpRequestWithAuthentication h
    (mkRequest orgApi GET baseUrl (kbUrl organizationId ++ lit "/" ++ kbId) None None).

(** [tagIdsStr?.trim() ? tagIdsStr.split(',').map((id) => id.trim()).filter(Boolean) : []] *)
Definition tagIdsOf (tagIdsStr : jsstring) : list jsstring :=
  if nonempty (trim tagIdsStr) then split_trim_filter tagIdsStr else [].

(** [reconcileEnabled && reconcileIntervalSeconds != null &&
     reconcileIntervalSeconds >= 60] *)
Definition withInterval (body : IDataObject) (reconcileEnabled : bool)
    (reconcileIntervalSeconds : option number) : IDataObject :=
  match reconcileIntervalSeconds with
  | Some n =>
      if reconcileEnabled && Qle_bool (num 60) n
      then obj_set body (lit "reconcile_interval_seconds") (VNum n)
      else body
  | None => body
  end.

Definition create (h : Host) (baseUrl organizationId : jsstring) (itemIndex : nat) : M trace value :=
  name <- lift (getString h "name" itemIndex None) ;;
  description <- lift (getString h "description" itemIndex (Some [])) ;;
  tagIdsStr <- lift (getString h "tagIds" itemIndex (Some [])) ;;
  chunkerType <- lift (getString h "chunkerType" itemIndex (Some (lit "recursive"))) ;;
  chunkSize <- lift (getNumber h "chunkSize" itemIndex (Some (num 512))) ;;
  chunkOverlap <- lift (getNumber h "chunkOverlap" itemIndex (Some (num 128))) ;;
  embeddingModel <- lift (getString h "embeddingModel" itemIndex
                            (Some (lit "text-embedding-3-small"))) ;;
  coalesceNeighbors <- lift (getNumber h "coalesceNeighbors" itemIndex (Some (num 0))) ;;
  reconcileEnabled <- lift (getBoolean h "reconcileEnabled" itemIndex (Some false)) ;;
  reconcileIntervalSeconds <- lift (getOptNumber h "reconcileIntervalSeconds" itemIndex) ;;
  let body :=
    [(lit "name", VStr (trim name));
     (lit "description", VStr (trim description));
     (lit "tag_ids", strings (tagIdsOf tagIdsStr));
     (lit "chunker_type", VStr (or_str (trim chunkerType) (lit "recursive")));
     (lit "chunk_size", VNum chunkSize);
     (lit "chunk_overlap", VNum chunkOverlap);
     (lit "embedding_model",
      VStr (or_str (trim embeddingModel) (lit "text-embedding-3-small")));
     (lit "coalesce_neighbors", VNum coalesceNeighbors);
     (lit "reconcile_enabled", VBool reconcileEnabled)] in
  let body := withInterval body reconcileEnabled reconcileIntervalSeconds in
  httpRequestWithAuthentication h
    (mkRequest orgApi POST baseUrl (kbUrl organizationId) None (Some (VObj body))).

Definition update (h : Host) (baseUrl organizationId : jsstring) (itemIndex : nat) : M trace value :=
  kbId <- lift (getString h "kbId" itemIndex None) ;;
  name <- lift (getString h "name" itemIndex None) ;;
  description <- lift (getString h "description" itemIndex (Some [])) ;;
  tagIdsStr <- lift (getString h "tagIds" itemIndex (Some [])) ;;
  coalesceNeighbors <- lift (getNumber h "coalesceNeighbors" itemIndex (Some (num 0))) ;;
  reconcileEnabled <- lift (getBoolean h "reconcileEnabled" itemIndex (Some false)) ;;
  reconcileIntervalSeconds <- lift (getOptNumber h "reconcileIntervalSeconds" itemIndex) ;;
  let body :=
    [(lit "name", VStr (trim name));
     (lit "description", VStr (trim description));
     (lit "tag_ids", strings (tagIdsOf tagIdsStr));
     (lit "coalesce_neighbors", VNum coalesceNeighbors);
     (lit "reconcile_enabled", VBool reconcileEnabled)] in
  let body := withInterval body reconcileEnabled reconcileIntervalSeconds in
  httpRequestWithAuthentication h
    (mkRequest orgApi PUT baseUrl (kbUrl organizationId ++ lit "/" ++ kbId)
       None (Some (VObj body))).

Definition delete (h : Host) (baseUrl organizationId : jsstring) (itemIndex : nat) : M trace value :=
  kbId <- lift (getString h "kbId" itemIndex None) ;;
  httpRequestWithAuthentication h
    (mkRequest orgApi DELETE baseUrl (kbUrl organizationId ++ lit "/" ++ kbId) None None) ;;
  ret (VObj [(lit "success", VBool true); (lit "kbId", VStr kbId)]).

Definition customMessage : jsstring :=
  customApiCallMessage [8594%N]
    (lit "List, Get, Create, Update, Delete, List Documents, List Chunks, Search, Chat, Reconcile, and Reconcile All.").

Definition perItem (h : Host) (baseUrl organizationId operation : jsstring)
    (itemIndex : nat) : M trace value :=
  if operation === lit "get" then get h baseUrl organizationId itemIndex
  else if operation === lit "create" then create h baseUrl organizationId itemIndex
  else if operation === lit "update" then update h baseUrl organizationId itemIndex
  else if operation === lit "delete" then delete h baseUrl organizationId itemIndex
  else if operation === customApiCall then throw (NodeOperationError customMessage None)
  else throw (unknownOperation operation).

Definition execute (h : Host) : M ExecState (list INodeExecutionData) :=
  let items := getInputData h in
  operation <- lift (getString h "operation" 0 None) ;;
  credentials <- lift (getCredentials h orgApi) ;;
  let baseUrl := baseUrlOf credentials in
  organizationId <- liftReq (lookupOrganization h baseUrl (apiToken credentials) orgMessage) ;;
  if runOnce operation then
    try_catch
      (response <- liftReq (once h baseUrl organizationId operation) ;;
       push (okEntry response 0))
      (fun error => handleError h error 0) ;;
    return_returnData
  else
    for_loop (length items) 0 (fun itemIndex =>
      try_catch
        (response <- liftReq (perItem h baseUrl organizationId operation itemIndex) ;;
         push (okEntry response itemIndex))
        (fun error => catchItem h error itemIndex)) ;;
    return_returnData.

End DocRouterKnowledgeBase.

(** ** A uniform view of the seven nodes *)

(** Every [execute] first reads the operation and the credentials (and
    resolves the organization), then either runs one [try] block once or
    runs one [try] block per input item.  A [Plan] is what is left to do
    once the opening part has returned. *)
Record Plan : Type := {
  planOnce : option (M trace value);
  planItem : nat -> M trace value;
  planAnnotates : bool;
}.

(** The run-once branch: one [try] block, its [catch], [return [returnData]]. *)
Definition runOnceBlock (h : Host) (m : M trace value) : M ExecState (list INodeExecutionData) :=
  try_catch
    (response <- liftReq m ;; push (okEntry response 0))
    (fun error => handleError h error 0) ;;
  return_returnData.

(** One turn of the per-item loop. *)
Definition itemStep (h : Host) (annotates : bool) (body : nat -> M trace value)
    (itemIndex : nat) : M ExecState unit :=
  try_catch
    (response <- liftReq (body itemIndex) ;; push (okEntry response itemIndex))
    (fun error => if annotates then catchItem h error itemIndex
                  else handleError h error itemIndex).

Definition runPlan (h : Host) (p : Plan) : M ExecState (list INodeExecutionData) :=
  match planOnce p with
  | Some m => runOnceBlock h m
  | None =>
      for_loop (length (getInputData h)) 0 (itemStep h (planAnnotates p) (planItem p)) ;;
      return_returnData
  end.

Inductive Node : Type :=
| Document | Tag | Account | Schema | LLM | KnowledgeBase | Upload.

(** The [execute] of each node, as written above. *)
Definition executeOf (n : Node) : Host -> M ExecState (list INodeExecutionData) :=
  match n with
  | Document => DocRouterDocument.execute
  | Tag => DocRouterTag.execute
  | Account => DocRouterAccount.execute
  | Schema => DocRouterSchema.execute
  | LLM => DocRouterLLM.execute
  | KnowledgeBase => DocRouterKnowledgeBase.execute
  | Upload => DocRouter.execute
  end.

(** The operations a node runs once for the whole batch. *)
Definition isRunOnce (n : Node) (operation : jsstring) : bool :=
  match n with
  | Document | Tag => operation === lit "list"
  | Account => DocRouterAccount.runOnce operation
  | Schema =>
      (operation === lit "list") || (operation === lit "listVersions")
      || (operation === lit "validate")
  | KnowledgeBase => DocRouterKnowledgeBase.runOnce operation
  | LLM | Upload => false
  end.

(** The nodes that resolve the organization from the token. *)
Definition resolvesOrganization (n : Node) : bool :=
  match n with
  | Document | Tag | Schema | LLM | KnowledgeBase => true
  | Account | Upload => false
  end.

Definition orgMessageOf (n : Node) : jsstring :=
  match n with
  | Document => DocRouterDocument.orgMessage
  | _ => orgMessage
  end.

(** What is left to do in a per-organization node once the organization
    is known. *)
Definition orgPlan (n : Node) (h : Host) (baseUrl organizationId operation : jsstring) : Plan :=
  match n with
  | Document =>
      {| planOnce := if operation === lit "list"
                     then Some (DocRouterDocument.listOnce h baseUrl organizationId) else None;
         planItem := DocRouterDocument.perItem h baseUrl organizationId operation;
         planAnnotates := true |}
  | Tag =>
      {| planOnce := if operation === lit "list"
                     then Some (DocRouterTag.listOnce h baseUrl organizationId) else None;
         planItem := DocRouterTag.perItem h baseUrl organizationId operation;
         planAnnotates := true |}
  | Schema =>
      {| planOnce :=
           if operation === lit "list"
           then Some (DocRouterSchema.listOnce h baseUrl organizationId)
           else if operation === lit "listVersions"
           then Some (DocRouterSchema.listVersionsOnce h baseUrl organizationId)
           else if operation === lit "validate"
           then Some (DocRouterSchema.validateOnce h baseUrl organizationId)
           else None;
         planItem := DocRouterSchema.perItem h baseUrl organizationId operation;
         planAnnotates := true |}
  | LLM =>
      {| planOnce := None;
         planItem := DocRouterLLM.perItem h baseUrl organizationId operation;
         planAnnotates := true |}
  | _ =>
      {| planOnce := if DocRouterKnowledgeBase.runOnce operation
                     then Some (DocRouterKnowledgeBase.once h baseUrl organizationId operation)
                     else None;
         planItem := DocRouterKnowledgeBase.perItem h baseUrl organizationId operation;
         planAnnotates := true |}
  end.

(** The opening part of [execute], up to the choice between the run-once
    branch and the loop. *)
Definition preludeOf (n : Node) (h : Host) : M trace Plan :=
  match n with
  | Account =>
      operation <- lift (getString h "operation" 0 None) ;;
      credentials <- lift (getCredentials h DocRouterAccount.accountApi) ;;
      let baseUrl := baseUrlOf credentials in
      ret {| planOnce := if DocRouterAccount.runOnce operation
                         then Some (DocRouterAccount.once h baseUrl operation) else None;
             planItem := DocRouterAccount.perItem h baseUrl operation;
             planAnnotates := false |}
  | Upload =>
      operation <- lift (getString h "operation" 0 None) ;;
      if negb (operation === lit "upload") then throw (unknownOperation operation)
      else
        organizationId <- lift (getString h "organizationId" 0 None) ;;
        binaryPropertyName <- lift (getString h "binaryPropertyName" 0 None) ;;
        documentNameParam <- lift (getString h "documentName" 0 (Some [])) ;;
        tagIdsParam <- lift (getString h "tagIds" 0 (Some [])) ;;
        metadataParam <- lift (getJson h "metadata" 0 (Some (VObj []))) ;;
        credentials <- lift (getCredentials h orgApi) ;;
        ret {| planOnce := None;
               planItem := DocRouter.perItem h (baseUrlOf credentials) organizationId
                             binaryPropertyName documentNameParam tagIdsParam metadataParam;
               planAnnotates := true |}
  | _ =>
      operation <- lift (getString h "operation" 0 None) ;;
      credentials <- lift (getCredentials h orgApi) ;;
      let baseUrl := baseUrlOf credentials in
      organizationId <- lookupOrganization h baseUrl (apiToken credentials) (orgMessageOf n) ;;
      ret (orgPlan n h baseUrl organizationId operation)
  end.

(** The state in which [execute] starts. *)
Definition start : ExecState := {| requests := []; returnData := [] |}.

(** The entry pushed for an item whose [try] block ended with [r]. *)
Definition entryOf (h : Host) (r : result value) (itemIndex : nat) : INodeExecutionData :=
  match r with
  | inr response => okEntry response itemIndex
  | inl e => errorEntry h e itemIndex
  end.

(** The requests issued once the first [n] turns of a loop starting at
    item [i] are over, whether their [try] blocks returned or threw. *)
Fixpoint traceAfter (n i : nat) (body : nat -> M trace value) (tr : trace) : trace :=
  match n with
  | O => tr
  | S n' => traceAfter n' (S i) body (snd (body i tr))
  end.

(** [r] is the token lookup request. *)
Definition isLookup (r : Request) : bool := url r === tokenLookupUrl.

(** [r] addresses a resource of an organization. *)
Definition isOrgResource (r : Request) : bool := firstn 9 (url r) === lit "/v0/orgs/".

(** The error carries the item index [i] in its context. *)
Definition annotatedWith (i : nat) (e : JsError) : Prop :=
  exists c, context e = Some c /\ obj_get c itemIndexKey = Some (VNum (numOfNat i)).

(** [pieces.join(',')] *)
Fixpoint join_comma (pieces : list jsstring) : jsstring :=
  match pieces with
  | [] => []
  | [p] => p
  | p :: ps => p ++ comma :: join_comma ps
  end.

(** [body.documents[0].k] of an upload body, as serialized. *)
Definition uploadField (body : value) (k : jsstring) : option value :=
  match wire body with
  | VObj o =>
      match obj_get o (lit "documents") with
      | Some (VArr (VObj d :: _)) => obj_get d k
      | _ => None
      end
  | _ => None
  end.

(** [body.k] of a request body, as serialized. *)
Definition bodyField (body : option value) (k : jsstring) : option value :=
  match body with
  | Some b => match wire b with VObj o => obj_get o k | _ => None end
  | None => None
  end.

(** ** A concrete host for running the nodes on examples *)

(** The [SyntaxError] of [JSON.parse]: no [context] property. *)
Definition SyntaxError : JsError :=
  {| isNodeOperationError := false;
     message := lit "Unexpected token in JSON";
     context := None |}.

(** [JSON.parse] on the few texts the examples use: the empty object, the
    empty array, and texts that are not JSON, which throw. *)
Definition exampleParse (s : jsstring) : result value :=
  if s === lit "{}" then inr (VObj [])
  else if s === lit "[]" then inr (VArr [])
  else inl SyntaxError.

Definition missingParameter : JsError :=
  {| isNodeOperationError := false;
     message := lit "Could not get parameter";
     context := Some [] |}.

(** The library's description of the one message of the examples that
    holds an error code; the other messages are kept. *)
Definition exampleDescribe (m : jsstring) : jsstring :=
  if m === lit "connect ECONNREFUSED"
  then lit "The service refused the connection - perhaps it is offline"
  else m.

(** A host whose parameters come from a table (the fallback is used for a
    parameter the table does not set), and whose remote answers each
    request by [answer]. *)
Definition exampleHost (items : list INodeExecutionData)
    (params : string -> nat -> option value) (nodeParams : IDataObject)
    (continue : bool) (answer : Request -> result value) : Host :=
  {| getInputData := items;
     getString := fun name i d =>
       match params name i, d with
       | Some (VStr s), _ => inr s
       | Some _, _ => inl missingParameter
       | None, Some s => inr s
       | None, None => inl missingParameter
       end;
     getNumber := fun name i d =>
       match params name i, d with
       | Some (VNum n), _ => inr n
       | Some _, _ => inl missingParameter
       | None, Some n => inr n
       | None, None => inl missingParameter
       end;
     getOptNumber := fun name i =>
       match params name i with
       | Some (VNum n) => inr (Some n)
       | _ => inr None
       end;
     getBoolean := fun name i d =>
       match params name i, d with
       | Some (VBool b), _ => inr b
       | Some _, _ => inl missingParameter
       | None, Some b => inr b
       | None, None => inl missingParameter
       end;
     getJson := fun name i d =>
       match params name i, d with
       | Some v, _ => inr v
       | None, Some v => inr v
       | None, None => inl missingParameter
       end;
     nodeParameters := nodeParams;
     getCredentials := fun _ => inr {| cred_baseUrl := None; apiToken := lit "T" |};
     continueOnFail := continue;
     getBinaryDataBuffer := fun _ _ => inr (lit "aGVsbG8=");
     remote := fun _ r => answer r;
     JSON_parse := exampleParse;
     Number_toString := fun _ => lit "0";
     descriptiveMessage := exampleDescribe |}.

(** A remote that knows the organization of the token, answers a [DELETE]
    with an empty body and everything else with a small object. *)
Definition exampleRemote (r : Request) : result value :=
  if isLookup r then inr (VObj [(lit "organization_id", VStr (lit "org1"))])
  else match method r with
       | DELETE => inr VUndefined
       | _ => inr (VObj [(lit "id", VStr (lit "r1"))])
       end.

(** A remote whose token lookup yields no organization. *)
Definition noOrgRemote (r : Request) : result value :=
  if isLookup r then inr (VObj []) else inr (VObj [(lit "id", VStr (lit "r1"))]).

(** [n] input items without attachments. *)
Definition plainItems (n : nat) : list INodeExecutionData :=
  repeat {| json := VObj []; binary := None; pairedItem := None; error := None |} n.

(** One input item with a file under the property [data]. *)
Definition fileItem (name : option jsstring) : INodeExecutionData :=
  {| json := VObj [];
     binary := Some [(lit "data", {| data := lit "aGVsbG8="; fileName := name |})];
     pairedItem := None;
     error := None |}.

(** A parameter table: the same values at every item index. *)
Fixpoint table (l : list (string * value)) (name : string) (i : nat) : option value :=
  match l with
  | [] => None
  | (k, v) :: r => if String.eqb k name then Some v else table r name i
  end.

(** The entries pushed by [n] turns of a loop that starts at item [i] and
    never aborts. *)
Fixpoint entriesFrom (h : Host) (n i : nat) (body : nat -> M trace value) (tr : trace)
  : list INodeExecutionData :=
  match n with
  | O => []
  | S n' => entryOf h (fst (body i tr)) i :: entriesFrom h n' (S i) body (snd (body i tr))
  end.

(** The [try] blocks of items [i .. i+j-1] all return. *)
Definition allReturn (j i : nat) (body : nat -> M trace value) (tr : trace) : Prop :=
  forall k, k < j -> exists v, fst (body (i + k) (traceAfter k i body tr)) = inr v.

(** The per-item [catch] of every node but Account puts the item index in
    the context of the error it re-throws. *)
Definition annotatesOf (n : Node) : bool :=
  match n with Account => false | _ => true end.

(** Whatever the outcome, [m] only adds requests that satisfy [P]. *)
Definition issues (P : Request -> Prop) {A} (m : M trace A) : Prop :=
  forall tr, exists new, snd (m tr) = tr ++ new /\ Forall P new.

(** [m] returns or throws without issuing a request. *)
Definition silent {A} (m : M trace A) : Prop := forall tr, snd (m tr) = tr.

(** [m] throws without issuing a request. *)
Definition failsSilently {A} (m : M trace A) : Prop :=
  forall tr, exists e, m tr = (inl e, tr).

Definition orgOnly (r : Request) : Prop := isOrgResource r = true.

(** [q.body.documents[0].k] of the request [q], as serialized. *)
Definition requestUploadField (q : Request) (k : jsstring) : option value :=
  match body q with
  | Some b => uploadField b k
  | None => None
  end.

(** The delete operations of the nodes. *)
Inductive DeleteOp : Type :=
| DeleteDocument | DeleteTag | DeleteSchema | DeleteKnowledgeBase
| DeleteLLMResult | DeleteUser | DeleteOrganization.

(** The [try] block that the per-item loop runs for a delete operation. *)
Definition deleteBlock (d : DeleteOp) (h : Host) (baseUrl org : jsstring) (i : nat)
  : M trace value :=
  match d with
  | DeleteDocument => DocRouterDocument.perItem h baseUrl org (lit "delete") i
  | DeleteTag => DocRouterTag.perItem h baseUrl org (lit "delete") i
  | DeleteSchema => DocRouterSchema.perItem h baseUrl org (lit "delete") i
  | DeleteKnowledgeBase => DocRouterKnowledgeBase.perItem h baseUrl org (lit "delete") i
  | DeleteLLMResult => DocRouterLLM.perItem h baseUrl org (lit "delete") i
  | DeleteUser => DocRouterAccount.perItem h baseUrl (lit "deleteUser") i
  | DeleteOrganization => DocRouterAccount.perItem h baseUrl (lit "deleteOrganization") i
  end.

(** The parameter that names what is deleted. *)
Definition idParameter (d : DeleteOp) : string :=
  match d with
  | DeleteDocument | DeleteLLMResult => "documentId"
  | DeleteTag => "tagId"
  | DeleteSchema => "schemaId"
  | DeleteKnowledgeBase => "kbId"
  | DeleteUser => "userId"
  | DeleteOrganization => "organizationId"
  end.

(** The property of the confirmation that holds the identifier. *)
Definition idProperty (d : DeleteOp) : jsstring :=
  match d with
  | DeleteDocument | DeleteLLMResult => lit "documentId"
  | DeleteTag => lit "tagId"
  | DeleteSchema => lit "schemaId"
  | DeleteKnowledgeBase => lit "kbId"
  | DeleteUser => lit "user_id"
  | DeleteOrganization => lit "organization_id"
  end.

(** The identifier as the node uses it: the Account node trims it. *)
Definition idUsed (d : DeleteOp) (id : jsstring) : jsstring :=
  match d with
  | DeleteUser | DeleteOrganization => trim id
  | _ => id
  end.

(** JSON text that is supplied and that [JSON.parse] rejects. *)
Definition malformed (h : Host) (s : jsstring) : Prop :=
  s <> [] /\ exists e, JSON_parse h s = inl e.

(** ** Example runs *)

(** Validate on the Schema node, two input items. *)
Definition hostValidate : Host :=
  exampleHost (plainItems 2)
    (table [("operation"%string, VStr (lit "validate"));
            ("schemaRevid"%string, VStr (lit "rev1"));
            ("validateData"%string, VStr (lit "{}"))])
    [] true exampleRemote.

(** An upload through the DocRouter node: one file, organization [org9]. *)
Definition hostUpload : Host :=
  exampleHost [fileItem (Some (lit "invoice.pdf"))]
    (table [("operation"%string, VStr (lit "upload"));
            ("organizationId"%string, VStr (lit "org9"));
            ("binaryPropertyName"%string, VStr (lit "data"));
            ("documentName"%string, VStr (lit "  "));
            ("tagIds"%string, VStr (lit "a, b ,c"))])
    [] true exampleRemote.

(** An upload through the Document node whose metadata is not JSON; the
    run stops at the first failure. *)
Definition hostBadMetadata : Host :=
  exampleHost [fileItem None]
    (table [("operation"%string, VStr (lit "upload"));
            ("binaryPropertyName"%string, VStr (lit "data"));
            ("metadata"%string, VStr (lit "{bad"))])
    [] false exampleRemote.

(** An upload through the Document node over two items, the second
    without attachment; the run stops at the first failure. *)
Definition hostMissingFile : Host :=
  exampleHost [fileItem (Some (lit "invoice.pdf"));
               {| json := VObj []; binary := None; pairedItem := None; error := None |}]
    (table [("operation"%string, VStr (lit "upload"));
            ("binaryPropertyName"%string, VStr (lit "data"))])
    [] false exampleRemote.

(** An LLM result update over three items; the second has a blank prompt
    revision.  The run continues on failure. *)
Definition hostBlankRevision : Host :=
  exampleHost (plainItems 3)
    (fun name i =>
       if String.eqb name "promptRevid" && Nat.eqb i 1 then Some (VStr (lit " "))
       else table [("operation"%string, VStr (lit "update"));
                   ("documentId"%string, VStr (lit "doc1"));
                   ("updatedLlmResult"%string, VStr (lit "{}"))] name i)
    [] true exampleRemote.

(** A document delete with a token that belongs to no organization. *)
Definition hostNoOrganization : Host :=
  exampleHost (plainItems 1)
    (table [("operation"%string, VStr (lit "delete"));
            ("documentId"%string, VStr (lit "X"))])
    [] false noOrgRemote.

(** A document delete of [X]. *)
Definition hostDelete : Host :=
  exampleHost (plainItems 1)
    (table [("operation"%string, VStr (lit "delete"));
            ("documentId"%string, VStr (lit "X"))])
    [] false exampleRemote.

(** A document update that provides no field. *)
Definition hostEmptyUpdate : Host :=
  exampleHost (plainItems 1)
    (table [("operation"%string, VStr (lit "update"));
            ("documentId"%string, VStr (lit "X"))])
    [] false exampleRemote.

(** A tag update whose name is the empty string. *)
Definition hostEmptyTagName : Host :=
  exampleHost (plainItems 1)
    (table [("operation"%string, VStr (lit "update"));
            ("tagId"%string, VStr (lit "t1"));
            ("tagName"%string, VStr [])])
    [] false exampleRemote.

(** An organization update whose members text is one space. *)
Definition hostBlankMembers : Host :=
  exampleHost (plainItems 1)
    (table [("operation"%string, VStr (lit "updateOrganization"));
            ("organizationId"%string, VStr (lit "o1"));
            ("members"%string, VStr (lit " "))])
    [] false exampleRemote.

(** A knowledge base creation without tag IDs. *)
Definition hostCreateKnowledgeBase : Host :=
  exampleHost (plainItems 1)
    (table [("operation"%string, VStr (lit "create"));
            ("name"%string, VStr (lit "kb"))])
    [] false exampleRemote.

(** The custom-API-call sentinel on the Document node. *)
Definition hostCustomApiCall : Host :=
  exampleHost (plainItems 1)
    (table [("operation"%string, VStr customApiCall)])
    [] false exampleRemote.

(** The operation names a node declares in its [options]. *)
Definition declaredOperations (n : Node) : list jsstring :=
  match n with
  | Document => [lit "upload"; lit "list"; lit "get"; lit "update"; lit "delete"]
  | Tag => [lit "list"; lit "get"; lit "create"; lit "update"; lit "delete"]
  | Account =>
      [lit "listUsers"; lit "getUser"; lit "createUser"; lit "updateUser"; lit "deleteUser";
       lit "listOrganizations"; lit "getOrganization"; lit "createOrganization";
       lit "updateOrganization"; lit "deleteOrganization"]
  | Schema =>
      [lit "list"; lit "get"; lit "create"; lit "update"; lit "delete"; lit "validate";
       lit "listVersions"]
  | LLM => [lit "run"; lit "get"; lit "update"; lit "delete"]
  | KnowledgeBase =>
      [lit "list"; lit "get"; lit "create"; lit "update"; lit "delete"; lit "listDocuments";
       lit "listChunks"; lit "search"; lit "chat"; lit "reconcile"; lit "reconcileAll"]
  | Upload => [lit "upload"]
  end.

(** The error a node throws for a name it does not declare: its own
    message for the sentinel where it has one, the generic one otherwise. *)
Definition rejection (custom : option jsstring) (operation : jsstring) : JsError :=
  match custom with
  | Some msg =>
      if operation === customApiCall then NodeOperationError msg None
      else unknownOperation operation
  | None => unknownOperation operation
  end.

(** ** Further vocabulary for the properties of whole runs *)

(** Whatever the outcome, [m] adds at most [n] requests, all of which
    satisfy [P]. *)
Definition emits (P : Request -> Prop) (n : nat) {A} (m : M trace A) : Prop :=
  forall tr, exists new, snd (m tr) = tr ++ new /\ length new <= n /\ Forall P new.

(** The credential type a node passes to the HTTP helper. *)
Definition credentialOf (n : Node) : string :=
  match n with
  | Account => DocRouterAccount.accountApi
  | _ => orgApi
  end.

(** The request goes through credential [cred] to [baseUrl], is sent as
    JSON, and its path starts with [prefix]. *)
Definition addressed (cred : string) (baseUrl prefix : jsstring) (r : Request) : Prop :=
  credentialsType r = cred /\ baseURL r = baseUrl /\ jsonFlag r = true /\
  exists rest, url r = prefix ++ rest.

(** The path prefix of the resources of organization [org]. *)
Definition orgPrefix (org : jsstring) : jsstring := lit "/v0/orgs/" ++ org ++ lit "/".

(** How many resource requests a run may issue at most. *)
Definition requestBound (n : Node) (h : Host) (operation : jsstring) : nat :=
  if isRunOnce n operation then 1 else length (getInputData h).

(** A request of the Account node: through the account credential, to
    [baseUrl], on the users or on the organizations collection. *)
Definition accountRequest (baseUrl : jsstring) (r : Request) : Prop :=
  credentialsType r = DocRouterAccount.accountApi /\ baseURL r = baseUrl /\
  jsonFlag r = true /\
  exists rest, url r = lit "/v0/account/users" ++ rest \/
               url r = lit "/v0/account/organizations" ++ rest.

(** A request of the DocRouter node: a [POST] on the documents of [org]. *)
Definition uploadRequest (baseUrl org : jsstring) (r : Request) : Prop :=
  credentialsType r = orgApi /\ method r = POST /\ baseURL r = baseUrl /\
  url r = lit "/v0/orgs/" ++ org ++ lit "/documents" /\ qs r = None.

(** The shape of an output entry: a [json] that is not null, no binary
    data, a paired item, and, when an [error] is attached, a
    [NodeOperationError] beside the [json] [{ error: message }] of the
    error that was caught: the attached error is the caught one when that
    is a [NodeOperationError], and the caught one wrapped by the library
    (which sets the message of the wrapping error) otherwise. *)
Definition wellFormedEntry (h : Host) (e : INodeExecutionData) : Prop :=
  nullish (json e) = false /\
  binary e = None /\
  (exists i, pairedItem e = Some i) /\
  match error e with
  | None => True
  | Some err =>
      isNodeOperationError err = true /\
      exists caught,
        json e = VObj [(lit "error", VStr (message caught))] /\
        err = (if isNodeOperationError caught then caught else wrapError h caught)
  end.

(** ** Further example runs *)

Definition connectionRefused : JsError :=
  {| isNodeOperationError := false;
     message := lit "connect ECONNREFUSED";
     context := Some [] |}.

(** A remote that cannot be reached. *)
Definition downRemote (r : Request) : result value := inl connectionRefused.

(** A remote that answers the token lookup only. *)
Definition lookupOnlyRemote (r : Request) : result value :=
  if isLookup r then inr (VObj [(lit "organization_id", VStr (lit "org1"))])
  else inl connectionRefused.

(** A document get over two items against a remote that answers the
    token lookup only; the run continues on failure. *)
Definition hostItemsDown : Host :=
  exampleHost (plainItems 2)
    (table [("operation"%string, VStr (lit "get"));
            ("documentId"%string, VStr (lit "X"))])
    [] true lookupOnlyRemote.

(** A document get over two items against a remote that is down; the run
    continues on failure. *)
Definition hostLookupDown : Host :=
  exampleHost (plainItems 2)
    (table [("operation"%string, VStr (lit "get"));
            ("documentId"%string, VStr (lit "X"))])
    [] true downRemote.

(** An operation name the Document node does not declare, on an empty
    batch. *)
Definition hostNoItems : Host :=
  exampleHost []
    (table [("operation"%string, VStr (lit "frobnicate"))])
    [] false exampleRemote.

(** A listing on a batch of five items, with a tag filter and a padded
    name search. *)
Definition hostList : Host :=
  exampleHost (plainItems 5)
    (table [("operation"%string, VStr (lit "list"));
            ("filterTagIds"%string, VStr (lit "t1,t2"));
            ("nameSearch"%string, VStr (lit " inv "))])
    [] false exampleRemote.


(** A knowledge base search with a padded query and no filter. *)
Definition hostSearch : Host :=
  exampleHost (plainItems 2)
    (table [("operation"%string, VStr (lit "search"));
            ("kbId"%string, VStr (lit "kb1"));
            ("searchQuery"%string, VStr (lit " cats "))])
    [] false exampleRemote.

(** The credentials of the example hosts. *)
Definition exampleCredentials : Credentials :=
  {| cred_baseUrl := None; apiToken := lit "T" |}.

(** The answer of the example remote to the token lookup. *)
Definition org1Answer : value := VObj [(lit "organization_id", VStr (lit "org1"))].

(** ** Vocabulary for the requests of single items in whole runs *)

(** Item [j] of the batch is reached: the run continues on failure, or
    the [try] blocks of the items before it all return. *)
Definition reached (h : Host) (body : nat -> M trace value) (tr0 : trace) (j : nat) : Prop :=
  continueOnFail h = true \/ allReturn j 0 body tr0.

(** The index at which a node reads the parameters it uses for item [i]:
    the DocRouter node reads them once, at index 0, before its loop. *)
Definition parameterIndex (n : Node) (i : nat) : nat :=
  match n with
  | Upload => 0
  | _ => i
  end.

(** The node a delete operation belongs to, and its name there. *)
Definition nodeOf (d : DeleteOp) : Node :=
  match d with
  | DeleteDocument => Document
  | DeleteTag => Tag
  | DeleteSchema => Schema
  | DeleteKnowledgeBase => KnowledgeBase
  | DeleteLLMResult => LLM
  | DeleteUser | DeleteOrganization => Account
  end.

Definition operationOf (d : DeleteOp) : jsstring :=
  match d with
  | DeleteUser => lit "deleteUser"
  | DeleteOrganization => lit "deleteOrganization"
  | _ => lit "delete"
  end.

(** The path of the resource that is deleted. *)
Definition deleteUrl (d : DeleteOp) (org id : jsstring) : jsstring :=
  match d with
  | DeleteDocument => lit "/v0/orgs/" ++ org ++ lit "/documents/" ++ id
  | DeleteTag => lit "/v0/orgs/" ++ org ++ lit "/tags/" ++ id
  | DeleteSchema => lit "/v0/orgs/" ++ org ++ lit "/schemas/" ++ id
  | DeleteKnowledgeBase => lit "/v0/orgs/" ++ org ++ lit "/knowledge-bases/" ++ id
  | DeleteLLMResult => lit "/v0/orgs/" ++ org ++ lit "/llm/result/" ++ id
  | DeleteUser => lit "/v0/account/users/" ++ id
  | DeleteOrganization => lit "/v0/account/organizations/" ++ id
  end.

(** The opening part of [execute] goes through: the credentials are [c]
    and, in the nodes that resolve it, the token lookup answers with the
    organization [org]. *)
Definition opens (n : Node) (h : Host) (c : Credentials) (org : jsstring) : Prop :=
  getCredentials h (credentialOf n) = inr c /\
  (resolvesOrganization n = true ->
   exists resp,
     remote h [] (lookupRequest (baseUrlOf c) (apiToken c)) = inr resp /\
     truthy (get_prop resp (lit "organization_id")) = true /\
     org = String_of (Number_toString h) (get_prop resp (lit "organization_id"))).

(** The requests of the opening part. *)
Definition openingRequests (n : Node) (c : Credentials) : trace :=
  if resolvesOrganization n then [lookupRequest (baseUrlOf c) (apiToken c)] else [].

(** What a delete operation reads for item [k]: the identifier and, for
    an LLM result, a prompt revision that is not blank. *)
Definition deleteReads (d : DeleteOp) (h : Host) (k : nat) (id : jsstring) : Prop :=
  getString h (idParameter d) k None = inr id /\
  (d = DeleteLLMResult ->
   exists rev, getString h "promptRevid" k (Some (lit "default")) = inr rev /\ trim rev <> []).

(** The parameters that the Knowledge Base [create] reads for item [i]
    beside [tagIds] are there. *)
Definition createReads (h : Host) (i : nat) : Prop :=
  (exists x, getString h "name" i None = inr x) /\
  (exists x, getString h "description" i (Some []) = inr x) /\
  (exists x, getString h "chunkerType" i (Some (lit "recursive")) = inr x) /\
  (exists x, getNumber h "chunkSize" i (Some (num 512)) = inr x) /\
  (exists x, getNumber h "chunkOverlap" i (Some (num 128)) = inr x) /\
  (exists x, getString h "embeddingModel" i (Some (lit "text-embedding-3-small")) = inr x) /\
  (exists x, getNumber h "coalesceNeighbors" i (Some (num 0)) = inr x) /\
  (exists x, getBoolean h "reconcileEnabled" i (Some false) = inr x) /\
  (exists x, getOptNumber h "reconcileIntervalSeconds" i = inr x).

(** ** Example runs of single items *)

(** An upload of two files that continues on failure; the second file has
    no name.  The parameters differ between the two item indices: at
    index 1 the document name is [second] and the tag IDs hold no token. *)
Definition hostUploadTwo : Host :=
  exampleHost [fileItem (Some (lit "invoice.pdf")); fileItem None]
    (fun name i =>
       if String.eqb name "documentName" && Nat.eqb i 1 then Some (VStr (lit "second"))
       else if String.eqb name "tagIds" && Nat.eqb i 1 then Some (VStr (lit " , "))
       else table [("operation"%string, VStr (lit "upload"));
                   ("organizationId"%string, VStr (lit "org9"));
                   ("binaryPropertyName"%string, VStr (lit "data"));
                   ("documentName"%string, VStr (lit "  "));
                   ("tagIds"%string, VStr (lit "a, b ,c"))] name i)
    [] true exampleRemote.

(** The plan of the DocRouter node on [hostUploadTwo]. *)
Definition planUploadTwo : Plan :=
  {| planOnce := None;
     planItem := DocRouter.perItem hostUploadTwo defaultBaseUrl (lit "org9") (lit "data")
                   (lit "  ") (lit "a, b ,c") (VObj []);
     planAnnotates := true |}.

(** The attachment of the second item of [hostUploadTwo]. *)
Definition unnamedFile : IBinaryData := {| data := lit "aGVsbG8="; fileName := None |}.

(** A knowledge base creation with tag IDs. *)
Definition hostCreateTagged : Host :=
  exampleHost (plainItems 1)
    (table [("operation"%string, VStr (lit "create"));
            ("name"%string, VStr (lit "kb"));
            ("tagIds"%string, VStr (lit " x ,, y"))])
    [] false exampleRemote.

(** A document update that renames [X] and sets no other field. *)
Definition hostRename : Host :=
  exampleHost (plainItems 1)
    (table [("operation"%string, VStr (lit "update"));
            ("documentId"%string, VStr (lit "X"));
            ("newDocumentName"%string, VStr (lit "new.pdf"))])
    [] false exampleRemote.

(** A user update that sets the name. *)
Definition hostUpdateUser : Host :=
  exampleHost (plainItems 1)
    (table [("operation"%string, VStr (lit "updateUser"));
            ("userId"%string, VStr (lit " u1 "));
            ("userNameUpdate"%string, VStr (lit " Ann "))])
    [] false exampleRemote.

(** A user update that provides no field. *)
Definition hostUpdateNothing : Host :=
  exampleHost (plainItems 1)
    (table [("operation"%string, VStr (lit "updateUser"));
            ("userId"%string, VStr (lit "u1"))])
    [] false exampleRemote.

(** The plan of the Account node for a user update. *)
Definition planUpdateUser (h : Host) : Plan :=
  {| planOnce := None;
     planItem := DocRouterAccount.perItem h defaultBaseUrl (lit "updateUser");
     planAnnotates := false |}.

(** * Properties *)

(** ** The monad *)

Lemma bind_inr {St A B} (m : M St A) (k : A -> M St B) s b s' :
  bind m k s = (inr b, s') ->
  exists a s1, m s = (inr a, s1) /\ k a s1 = (inr b, s').
Proof.
  unfold bind. destruct (m s) as [[e | a] s1]; intros H.
  - discriminate.
  - now exists a, s1.
Qed.

Lemma bind_ok {St A B} (m : M St A) (k : A -> M St B) s a s1 :
  m s = (inr a, s1) -> bind m k s = k a s1.
Proof. unfold bind. now intros ->. Qed.

Lemma bind_err {St A B} (m : M St A) (k : A -> M St B) s e s1 :
  m s = (inl e, s1) -> bind m k s = (inl e, s1).
Proof. unfold bind. now intros ->. Qed.

Lemma liftReq_run {A} (m : M trace A) s :
  liftReq m s =
  (fst (m (requests s)),
   {| requests := snd (m (requests s)); returnData := returnData s |}).
Proof. unfold liftReq. now destruct (m (requests s)). Qed.

(** ** One turn of the loop *)

Lemma itemStep_ok h a body i s v :
  fst (body i (requests s)) = inr v ->
  itemStep h a body i s =
  (inr tt, {| requests := snd (body i (requests s));
              returnData := returnData s ++ [okEntry v i] |}).
Proof.
  intros Hb. unfold itemStep, try_catch, bind, liftReq.
  destruct (body i (requests s)) as [r tr']. simpl in *. now subst r.
Qed.

Lemma itemStep_continue h a body i s :
  continueOnFail h = true ->
  itemStep h a body i s =
  (inr tt, {| requests := snd (body i (requests s));
              returnData := returnData s ++ [entryOf h (fst (body i (requests s))) i] |}).
Proof.
  intros Hc. destruct (fst (body i (requests s))) as [e | v] eqn:Hb.
  - unfold itemStep, try_catch, bind, liftReq, catchItem, handleError.
    destruct (body i (requests s)) as [r tr']. simpl in *. subst r.
    rewrite Hc. now destruct a.
  - now apply itemStep_ok.
Qed.

Lemma itemStep_abort h a body i s e :
  continueOnFail h = false ->
  fst (body i (requests s)) = inl e ->
  itemStep h a body i s =
  (inl (if a then annotate i e else e),
   {| requests := snd (body i (requests s)); returnData := returnData s |}).
Proof.
  intros Hc Hb. unfold itemStep, try_catch, bind, liftReq, catchItem, handleError.
  destruct (body i (requests s)) as [r tr']. simpl in *. subst r.
  rewrite Hc. now destruct a.
Qed.

Lemma itemStep_returns h a body i s s' :
  itemStep h a body i s = (inr tt, s') ->
  requests s' = snd (body i (requests s)) /\
  exists e, returnData s' = returnData s ++ [e] /\ pairedItem e = Some i.
Proof.
  destruct (fst (body i (requests s))) as [e | v] eqn:Hb.
  - destruct (continueOnFail h) eqn:Hc.
    + rewrite itemStep_continue by assumption. rewrite Hb. intros H.
      inversion H; subst; clear H. simpl. split; [reflexivity|].
      eexists; split; reflexivity.
    + rewrite (itemStep_abort _ _ _ _ _ e) by assumption. discriminate.
  - rewrite (itemStep_ok _ _ _ _ _ v) by assumption. intros H.
    inversion H; subst; clear H. simpl. split; [reflexivity|].
    eexists; split; reflexivity.
Qed.

(** ** The loop *)


Lemma entriesFrom_length h n : forall i body tr, length (entriesFrom h n i body tr) = n.
Proof. induction n; simpl; intros; [reflexivity | now rewrite IHn]. Qed.

Lemma entriesFrom_nth h n : forall i body tr k,
  k < n ->
  nth_error (entriesFrom h n i body tr) k =
  Some (entryOf h (fst (body (i + k) (traceAfter k i body tr))) (i + k)).
Proof.
  induction n; intros i body tr k Hk; [lia|].
  destruct k; simpl.
  - now rewrite Nat.add_0_r.
  - rewrite IHn by lia. now rewrite Nat.add_succ_r.
Qed.

Lemma traceAfter_S n : forall i body tr,
  traceAfter (S n) i body tr = snd (body (i + n) (traceAfter n i body tr)).
Proof.
  induction n; intros i body tr.
  - simpl. now rewrite Nat.add_0_r.
  - change (traceAfter (S (S n)) i body tr)
      with (traceAfter (S n) (S i) body (snd (body i tr))).
    rewrite IHn. simpl. now rewrite Nat.add_succ_r.
Qed.

Lemma loop_continue h a body n : forall i s,
  continueOnFail h = true ->
  for_loop n i (itemStep h a body) s =
  (inr tt, {| requests := traceAfter n i body (requests s);
              returnData := returnData s ++ entriesFrom h n i body (requests s) |}).
Proof.
  induction n; intros i s Hc; simpl.
  - unfold ret. rewrite app_nil_r. now destruct s.
  - erewrite bind_ok by (now apply itemStep_continue).
    rewrite IHn by assumption. simpl. now rewrite <- app_assoc.
Qed.


Lemma allReturn_step j i body tr :
  allReturn (S j) i body tr ->
  (exists v, fst (body i tr) = inr v) /\ allReturn j (S i) body (snd (body i tr)).
Proof.
  intros H. split.
  - destruct (H 0) as [v Hv]; [lia|]. simpl in Hv. rewrite Nat.add_0_r in Hv. eauto.
  - intros k Hk. destruct (H (S k)) as [v Hv]; [lia|].
    simpl in Hv. rewrite Nat.add_succ_r in Hv. eauto.
Qed.

Lemma loop_abort h a body j : forall n i s e,
  continueOnFail h = false ->
  j < n ->
  allReturn j i body (requests s) ->
  fst (body (i + j) (traceAfter j i body (requests s))) = inl e ->
  for_loop n i (itemStep h a body) s =
  (inl (if a then annotate (i + j) e else e),
   {| requests := traceAfter (S j) i body (requests s);
      returnData := returnData s ++ entriesFrom h j i body (requests s) |}).
Proof.
  induction j; intros n i s e Hc Hn Hall He.
  - destruct n; [lia|]. simpl traceAfter in *. rewrite Nat.add_0_r in *.
    simpl for_loop.
    rewrite (bind_err _ _ _ _ _ (itemStep_abort h a body i s e Hc He)).
    simpl. now rewrite app_nil_r.
  - destruct n; [lia|].
    apply allReturn_step in Hall. destruct Hall as [[v Hv] Hall].
    simpl for_loop.
    rewrite (bind_ok _ _ _ _ _ (itemStep_ok h a body i s v Hv)).
    rewrite (IHj n (S i) _ e); try assumption; try lia.
    + simpl requests. simpl returnData.
      rewrite Nat.add_succ_r. simpl. rewrite Hv. now rewrite <- app_assoc.
    + simpl. now rewrite Nat.add_succ_r in He.
Qed.

Lemma loop_returns h a body n : forall i s s',
  for_loop n i (itemStep h a body) s = (inr tt, s') ->
  requests s' = traceAfter n i body (requests s) /\
  exists l, returnData s' = returnData s ++ l /\ length l = n /\
    forall k e, nth_error l k = Some e -> pairedItem e = Some (i + k).
Proof.
  induction n; intros i s s' H; simpl in H.
  - inversion H; subst. split; [reflexivity|]. exists []. rewrite app_nil_r.
    repeat split. intros [|k] e; discriminate.
  - apply bind_inr in H. destruct H as ([] & s1 & H1 & H2).
    apply itemStep_returns in H1. destruct H1 as (Hr & e0 & Hd & Hp).
    apply IHn in H2. destruct H2 as (Hr2 & l & Hl & Hlen & Hnth).
    split.
    + rewrite Hr2, Hr. reflexivity.
    + exists (e0 :: l). rewrite Hl, Hd, <- app_assoc. simpl.
      repeat split; [now rewrite Hlen|].
      intros [|k] e; simpl; intros Hk.
      * inversion Hk; subst. now rewrite Nat.add_0_r.
      * rewrite Nat.add_succ_r. now apply Hnth.
Qed.

(** ** The nodes follow their plan *)

Ltac run_host :=
  repeat match goal with
         | |- context [getString ?h ?n ?i ?d] =>
             destruct (getString h n i d) as [?e | ?x]; simpl; try reflexivity
         | |- context [getJson ?h ?n ?i ?d] =>
             destruct (getJson h n i d) as [?e | ?x]; simpl; try reflexivity
         | |- context [getCredentials ?h ?c] =>
             destruct (getCredentials h c) as [?e | ?x]; simpl; try reflexivity
         end.

(** [execute] is its opening part followed by its plan. *)
Lemma execute_shape (n : Node) (h : Host) (s : ExecState) :
  executeOf n h s = bind (liftReq (preludeOf n h)) (runPlan h) s.
Proof.
  destruct s as [tr rd].
  destruct n; simpl executeOf; simpl preludeOf;
    unfold DocRouterDocument.execute, DocRouterTag.execute, DocRouterAccount.execute,
      DocRouterSchema.execute, DocRouterLLM.execute, DocRouterKnowledgeBase.execute,
      DocRouter.execute;
    unfold bind at 1; unfold lift at 1; unfold bind, lift, liftReq, ret, throw; simpl;
    (destruct (getString h "operation" 0 None) as [e | operation]; simpl; [reflexivity|]).
  1-6: run_host.
  - destruct (lookupOrganization _ _ _ _ tr) as [[e | org] tr1]; simpl; [reflexivity|].
    unfold runPlan. simpl. now destruct (_ === _).
  - destruct (lookupOrganization _ _ _ _ tr) as [[e | org] tr1]; simpl; [reflexivity|].
    unfold runPlan. simpl. now destruct (_ === _).
  - unfold runPlan. simpl. now destruct (DocRouterAccount.runOnce _).
  - destruct (lookupOrganization _ _ _ _ tr) as [[e | org] tr1]; simpl; [reflexivity|].
    unfold runPlan. simpl.
    destruct (_ === lit "list"); [reflexivity|].
    destruct (_ === lit "listVersions"); [reflexivity|].
    now destruct (_ === lit "validate").
  - destruct (lookupOrganization _ _ _ _ tr) as [[e | org] tr1]; simpl; reflexivity.
  - destruct (lookupOrganization _ _ _ _ tr) as [[e | org] tr1]; simpl; [reflexivity|].
    unfold runPlan. simpl. now destruct (DocRouterKnowledgeBase.runOnce _).
  - destruct (negb _); simpl; [reflexivity|]. run_host; reflexivity.
Qed.

(** ** What the opening part leaves to do *)

Lemma prelude_inv (n : Node) (h : Host) (tr tr' : trace) (p : Plan) :
  preludeOf n h tr = (inr p, tr') ->
  exists operation,
    getString h "operation" 0 None = inr operation /\
    (match planOnce p with Some _ => true | None => false end) = isRunOnce n operation /\
    planAnnotates p = annotatesOf n.
Proof.
  destruct n; simpl preludeOf; unfold bind, lift, ret, throw;
    (destruct (getString h "operation" 0 None) as [e | operation];
     [discriminate|]); intros H; exists operation; (split; [reflexivity|]).
  1-2,4-6:
    destruct (getCredentials h orgApi) as [e | c]; [discriminate|];
    destruct (lookupOrganization _ _ _ _ tr) as [[e | org] tr1]; [discriminate|];
    inversion H; subst; clear H; simpl.
  - now destruct (operation === lit "list").
  - now destruct (operation === lit "list").
  - destruct (operation === lit "list"); [easy|].
    destruct (operation === lit "listVersions"); [easy|].
    now destruct (operation === lit "validate").
  - easy.
  - now destruct (DocRouterKnowledgeBase.runOnce operation).
  - destruct (getCredentials h DocRouterAccount.accountApi) as [e | c]; [discriminate|].
    inversion H; subst; clear H; simpl.
    now destruct (DocRouterAccount.runOnce operation).
  - destruct (negb _); [discriminate|].
    repeat match type of H with
           | context [getString ?h ?n ?i ?d] =>
               destruct (getString h n i d); [discriminate|]
           | context [getJson ?h ?n ?i ?d] =>
               destruct (getJson h n i d); [discriminate|]
           | context [getCredentials ?h ?c] =>
               destruct (getCredentials h c); [discriminate|]
           end.
    inversion H; subst; clear H. easy.
Qed.

(** ** Which requests a block issues *)

Lemma issues_ret P {A} (a : A) : issues P (ret a).
Proof. intros tr. exists []. simpl. now rewrite app_nil_r. Qed.

Lemma issues_throw P {A} e : issues P (@throw trace A e).
Proof. intros tr. exists []. simpl. now rewrite app_nil_r. Qed.

Lemma issues_lift P {A} (r : result A) : issues P (lift r).
Proof. intros tr. exists []. simpl. now rewrite app_nil_r. Qed.

Lemma issues_http (P : Request -> Prop) h r :
  P r -> issues P (httpRequestWithAuthentication h r).
Proof. intros Hr tr. exists [r]. simpl. auto. Qed.

Lemma issues_bind P {A B} (m : M trace A) (k : A -> M trace B) :
  issues P m -> (forall a, issues P (k a)) -> issues P (bind m k).
Proof.
  intros Hm Hk tr. unfold bind. destruct (Hm tr) as (n1 & E1 & F1).
  destruct (m tr) as [[e | a] tr1]; simpl in *.
  - eauto.
  - destruct (Hk a tr1) as (n2 & E2 & F2). exists (n1 ++ n2).
    rewrite E2, E1, <- app_assoc. split; [reflexivity|].
    apply Forall_app. auto.
Qed.

Ltac issues_tac :=
  repeat first
    [ apply issues_ret
    | apply issues_throw
    | apply issues_lift
    | apply issues_http; reflexivity
    | apply issues_bind; [ | intros ]
    | match goal with
      | |- issues _ (if ?c then _ else _) => destruct c
      | |- issues _ (match ?x with _ => _ end) => destruct x
      end ].

Lemma orgPlan_issues n h baseUrl org operation :
  resolvesOrganization n = true ->
  (forall m, planOnce (orgPlan n h baseUrl org operation) = Some m -> issues orgOnly m) /\
  (forall i, issues orgOnly (planItem (orgPlan n h baseUrl org operation) i)).
Proof.
  intros Hn. destruct n; try discriminate; simpl; split; intros.
  - destruct (operation === lit "list"); [|discriminate].
    inversion H; subst. unfold DocRouterDocument.listOnce. issues_tac.
  - unfold DocRouterDocument.perItem, DocRouterDocument.upload, DocRouterDocument.get,
      DocRouterDocument.update, DocRouterDocument.delete, uploadBody. issues_tac.
  - destruct (operation === lit "list"); [|discriminate].
    inversion H; subst. unfold DocRouterTag.listOnce. issues_tac.
  - unfold DocRouterTag.perItem, DocRouterTag.get, DocRouterTag.create,
      DocRouterTag.update, DocRouterTag.delete. issues_tac.
  - unfold DocRouterSchema.listOnce, DocRouterSchema.listVersionsOnce,
      DocRouterSchema.validateOnce in H.
    destruct (operation === lit "list"); [inversion H; subst; issues_tac|].
    destruct (operation === lit "listVersions"); [inversion H; subst; issues_tac|].
    destruct (operation === lit "validate"); [inversion H; subst; issues_tac|].
    discriminate.
  - unfold DocRouterSchema.perItem, DocRouterSchema.get, DocRouterSchema.create,
      DocRouterSchema.update, DocRouterSchema.delete. issues_tac.
  - discriminate.
  - unfold DocRouterLLM.perItem, DocRouterLLM.run, DocRouterLLM.get,
      DocRouterLLM.update, DocRouterLLM.delete. issues_tac.
  - destruct (DocRouterKnowledgeBase.runOnce operation); [|discriminate].
    inversion H; subst.
    unfold DocRouterKnowledgeBase.once, DocRouterKnowledgeBase.search,
      DocRouterKnowledgeBase.chat. issues_tac.
  - unfold DocRouterKnowledgeBase.perItem, DocRouterKnowledgeBase.get,
      DocRouterKnowledgeBase.create, DocRouterKnowledgeBase.update,
      DocRouterKnowledgeBase.delete. issues_tac.
Qed.

Lemma itemStep_requests h a body i s :
  requests (snd (itemStep h a body i s)) = snd (body i (requests s)).
Proof.
  unfold itemStep, try_catch, bind, liftReq, catchItem, handleError, push, throw.
  destruct (body i (requests s)) as [[e | v] tr']; simpl.
  - destruct a; now destruct (continueOnFail h).
  - reflexivity.
Qed.

Lemma loop_issues P h a body :
  (forall i, issues P (body i)) ->
  forall n i s, exists new,
    requests (snd (for_loop n i (itemStep h a body) s)) = requests s ++ new /\ Forall P new.
Proof.
  intros Hb. induction n; intros i s; simpl.
  - exists []. now rewrite app_nil_r.
  - unfold bind. pose proof (itemStep_requests h a body i s) as Hr.
    destruct (Hb i (requests s)) as (n1 & E1 & F1).
    destruct (itemStep h a body i s) as [[e | []] s1]; simpl in *.
    + exists n1. now rewrite Hr, E1.
    + destruct (IHn (S i) s1) as (n2 & E2 & F2). exists (n1 ++ n2).
      rewrite E2, Hr, E1, <- app_assoc. split; [reflexivity|].
      apply Forall_app; auto.
Qed.

Lemma runOnceBlock_requests h m s :
  requests (snd (runOnceBlock h m s)) = snd (m (requests s)).
Proof.
  unfold runOnceBlock, return_returnData, try_catch, bind, liftReq, handleError, push, throw.
  destruct (m (requests s)) as [[e | v] tr']; simpl.
  - now destruct (continueOnFail h).
  - reflexivity.
Qed.

Lemma runPlan_issues P h p s :
  (forall m, planOnce p = Some m -> issues P m) ->
  (forall i, issues P (planItem p i)) ->
  exists new, requests (snd (runPlan h p s)) = requests s ++ new /\ Forall P new.
Proof.
  intros Ho Hi. unfold runPlan. destruct (planOnce p) as [m|].
  - rewrite runOnceBlock_requests. apply (Ho m eq_refl).
  - destruct (loop_issues P h (planAnnotates p) (planItem p) Hi
                (length (getInputData h)) 0 s) as (new & E & F).
    exists new. split; [|assumption].
    unfold bind, return_returnData.
    destruct (for_loop _ _ _ s) as [[e | []] s1]; simpl in *; assumption.
Qed.

(** ** Strings and objects *)

Lemma jseqb_refl (a : jsstring) : (a === a) = true.
Proof. induction a; simpl; [reflexivity|]. now rewrite N.eqb_refl. Qed.

Lemma jseqb_eq (a b : jsstring) : (a === b) = true <-> a = b.
Proof.
  split.
  - revert b. induction a; destruct b; simpl; try discriminate; [reflexivity|].
    intros H. apply andb_true_iff in H. destruct H as [H1 H2].
    apply N.eqb_eq in H1. subst. f_equal. now apply IHa.
  - intros ->. apply jseqb_refl.
Qed.

Lemma obj_get_set_same (o : IDataObject) k v : obj_get (obj_set o k v) k = Some v.
Proof.
  induction o as [|[k' v'] o IH]; simpl.
  - now rewrite jseqb_refl.
  - destruct (k' === k) eqn:E; simpl; rewrite E; [reflexivity | assumption].
Qed.

Lemma annotate_annotated i e c : context e = Some c -> annotatedWith i (annotate i e).
Proof.
  intros H. unfold annotate. rewrite H. eexists. split; [reflexivity|].
  apply obj_get_set_same.
Qed.

Lemma annotate_message i e : message (annotate i e) = message e.
Proof. unfold annotate. now destruct (context e). Qed.

Lemma orgResource_not_lookup r : isOrgResource r = true -> isLookup r = false.
Proof.
  unfold isOrgResource, isLookup. intros H.
  destruct (url r === tokenLookupUrl) eqn:E; [|reflexivity].
  apply jseqb_eq in E. rewrite E in H. discriminate.
Qed.

Lemma jseqb_sym (a b : jsstring) : (a === b) = (b === a).
Proof.
  revert b. induction a; destruct b; simpl; try reflexivity.
  now rewrite N.eqb_sym, IHa.
Qed.

(** ** C1: how many entries a run produces *)

Lemma runOnceBlock_returns h m s out s' :
  runOnceBlock h m s = (inr out, s') ->
  exists e, out = returnData s ++ [e] /\ pairedItem e = Some 0.
Proof.
  unfold runOnceBlock, return_returnData, try_catch, bind, liftReq, handleError, push, throw.
  destruct (m (requests s)) as [[e | v] tr']; simpl.
  - destruct (continueOnFail h); simpl; intros H; inversion H; subst; clear H.
    eexists; split; reflexivity.
  - intros H; inversion H; subst; clear H. eexists; split; reflexivity.
Qed.

(** C1, amended.  Whenever [execute] returns: an operation that the node
    runs once (list, search, chat, reconcile and the other listings, but
    also [validate] of the Schema node and [getUser]/[getOrganization] of
    the Account node) yields exactly one entry, paired with item 0; every
    other operation yields exactly one entry per input item, the entry at
    position [i] paired with item [i]. *)
Theorem C1_entries_per_run (n : Node) (h : Host) (operation : jsstring)
    (out : list INodeExecutionData) (s' : ExecState) :
  getString h "operation" 0 None = inr operation ->
  executeOf n h start = (inr out, s') ->
  (isRunOnce n operation = true ->
     exists e, out = [e] /\ pairedItem e = Some 0) /\
  (isRunOnce n operation = false ->
     length out = length (getInputData h) /\
     forall i e, nth_error out i = Some e -> pairedItem e = Some i).
Proof.
  intros Hop Hex. rewrite execute_shape in Hex.
  apply bind_inr in Hex. destruct Hex as (p & s1 & Hpre & Hrun).
  rewrite liftReq_run in Hpre. simpl in Hpre.
  destruct (preludeOf n h []) as [rp tr0] eqn:Hp. simpl in Hpre.
  inversion Hpre; subst; clear Hpre.
  destruct (prelude_inv _ _ _ _ _ Hp) as (op' & Hop' & Honce & _).
  rewrite Hop in Hop'. inversion Hop'; subst op'; clear Hop'.
  unfold runPlan in Hrun. destruct (planOnce p) as [m|].
  - split; intros Hr; [|rewrite Hr in Honce; discriminate].
    apply runOnceBlock_returns in Hrun. exact Hrun.
  - split; intros Hr; [rewrite Hr in Honce; discriminate|].
    apply bind_inr in Hrun. destruct Hrun as ([] & s2 & Hloop & Hret).
    apply loop_returns in Hloop. destruct Hloop as (_ & l & Hl & Hlen & Hnth).
    unfold return_returnData in Hret. inversion Hret; subst; clear Hret.
    rewrite Hl. simpl. split; [assumption|]. exact Hnth.
Qed.

(** ** C5: continue on failure *)

(** C5.  With continue-on-failure enabled, once the opening part of
    [execute] has returned and the operation is a per-item one, the run
    returns one entry per input item; the entry at position [i] is the
    outcome of item [i]'s [try] block, run after the blocks of the items
    before it whether they failed or not: an error entry
    [{ error: message }] paired with [i] when the block threw, the normal
    entry when it returned. *)
Theorem C5_continue_on_fail (n : Node) (h : Host) (p : Plan) (tr0 : trace) :
  continueOnFail h = true ->
  preludeOf n h [] = (inr p, tr0) ->
  planOnce p = None ->
  exists out s',
    executeOf n h start = (inr out, s') /\
    length out = length (getInputData h) /\
    forall i, i < length (getInputData h) ->
      (forall e, fst (planItem p i (traceAfter i 0 (planItem p) tr0)) = inl e ->
         nth_error out i =
         Some {| json := VObj [(lit "error", VStr (message e))];
                 binary := None;
                 pairedItem := Some i;
                 error := Some (if isNodeOperationError e then e else wrapError h e) |}) /\
      (forall v, fst (planItem p i (traceAfter i 0 (planItem p) tr0)) = inr v ->
         nth_error out i = Some (okEntry v i)).
Proof.
  intros Hc Hp Ho.
  eexists. eexists. split.
  - rewrite execute_shape. unfold bind at 1. rewrite liftReq_run. simpl.
    rewrite Hp. simpl. unfold runPlan. rewrite Ho.
    unfold bind. rewrite loop_continue by assumption. simpl. reflexivity.
  - simpl. split; [apply entriesFrom_length|].
    intros i Hi. rewrite entriesFrom_nth by assumption. simpl.
    split; intros x Hx; rewrite Hx; reflexivity.
Qed.

(** ** C7: abort on the first failure *)

(** C7, amended.  With continue-on-failure disabled, the first item whose
    [try] block throws ends the run: [execute] throws, no request of a
    later item is issued, and the error thrown has the message of the
    item's error.  In every node but Account, an error that has a
    [context] property (as every [NodeOperationError] has) is re-thrown
    with the item's index in it. *)
Theorem C7_first_error_aborts (n : Node) (h : Host) (p : Plan) (tr0 : trace)
    (j : nat) (e : JsError) :
  continueOnFail h = false ->
  preludeOf n h [] = (inr p, tr0) ->
  planOnce p = None ->
  j < length (getInputData h) ->
  allReturn j 0 (planItem p) tr0 ->
  fst (planItem p j (traceAfter j 0 (planItem p) tr0)) = inl e ->
  exists err s',
    executeOf n h start = (inl err, s') /\
    requests s' = traceAfter (S j) 0 (planItem p) tr0 /\
    message err = message e /\
    (n <> Account -> forall c, context e = Some c -> annotatedWith j err).
Proof.
  intros Hc Hp Ho Hj Hall He.
  destruct (prelude_inv _ _ _ _ _ Hp) as (op & _ & _ & Hann).
  eexists. eexists. split; [|split; [|split]].
  - rewrite execute_shape. unfold bind at 1. rewrite liftReq_run. simpl.
    rewrite Hp. simpl. unfold runPlan. rewrite Ho.
    unfold bind.
    rewrite (loop_abort h (planAnnotates p) (planItem p) j _ 0
               {| requests := tr0; returnData := [] |} e Hc Hj Hall He).
    reflexivity.
  - reflexivity.
  - simpl. destruct (planAnnotates p); [apply annotate_message | reflexivity].
  - intros Hn c Hctx. rewrite Hann. simpl.
    destruct n; simpl; try (now apply (annotate_annotated j e c)).
    now elim Hn.
Qed.

(** ** C3: the organization lookup *)

Lemma filter_lookup_org (new : list Request) :
  Forall orgOnly new -> filter isLookup new = [].
Proof.
  induction 1 as [|r l Hr _ IH]; simpl; [reflexivity|].
  now rewrite (orgResource_not_lookup r Hr).
Qed.

Lemma org_prelude (n : Node) (h : Host) operation c :
  resolvesOrganization n = true ->
  getString h "operation" 0 None = inr operation ->
  getCredentials h orgApi = inr c ->
  preludeOf n h [] =
  let q := lookupRequest (baseUrlOf c) (apiToken c) in
  match remote h [] q with
  | inl e => (inl e, [q])
  | inr resp =>
      let organizationId := get_prop resp (lit "organization_id") in
      if truthy organizationId
      then (inr (orgPlan n h (baseUrlOf c)
                   (String_of (Number_toString h) organizationId) operation), [q])
      else (inl (NodeOperationError (orgMessageOf n) None), [q])
  end.
Proof.
  intros Hn Hop Hc.
  destruct n; try discriminate; simpl preludeOf;
    unfold bind, lift; rewrite Hop, Hc; simpl;
    unfold lookupOrganization, bind, httpRequestWithAuthentication; simpl;
    (destruct (remote h [] _) as [e | resp]; [reflexivity|]);
    now destruct (truthy _).
Qed.

(** C3, amended.  In the Document, Tag, Schema, LLM and Knowledge Base
    nodes, once the operation and the credentials are read, the token
    lookup is the first request of the run and the only lookup in it,
    whatever the number of items; when its answer carries no
    organization ID the run throws the "Could not determine organization
    ID" error and the lookup stays the only request issued. *)
Theorem C3_lookup_once (n : Node) (h : Host) (operation : jsstring) (c : Credentials)
    (r : result (list INodeExecutionData)) (s' : ExecState) :
  resolvesOrganization n = true ->
  getString h "operation" 0 None = inr operation ->
  getCredentials h orgApi = inr c ->
  executeOf n h start = (r, s') ->
  let q := lookupRequest (baseUrlOf c) (apiToken c) in
  hd_error (requests s') = Some q /\
  filter isLookup (requests s') = [q] /\
  (forall resp,
     remote h [] q = inr resp ->
     truthy (get_prop resp (lit "organization_id")) = false ->
     r = inl (NodeOperationError (orgMessageOf n) None) /\ requests s' = [q]).
Proof.
  intros Hn Hop Hc Hex q.
  rewrite execute_shape in Hex. unfold bind in Hex. rewrite liftReq_run in Hex.
  simpl in Hex. rewrite (org_prelude n h operation c Hn Hop Hc) in Hex.
  fold q in Hex. cbv zeta in Hex.
  destruct (remote h [] q) as [e | resp] eqn:Hresp.
  - simpl in Hex. inversion Hex; subst; clear Hex. simpl.
    repeat split; intros; discriminate.
  - destruct (truthy (get_prop resp (lit "organization_id"))) eqn:Ht.
    + simpl in Hex.
      set (p := orgPlan n h (baseUrlOf c) _ operation) in Hex.
      destruct (orgPlan_issues n h (baseUrlOf c)
                  (String_of (Number_toString h) (get_prop resp (lit "organization_id")))
                  operation Hn) as [Ho Hi].
      destruct (runPlan_issues orgOnly h p {| requests := [q]; returnData := [] |} Ho Hi)
        as (new & E & F).
      rewrite Hex in E. simpl in E. rewrite E.
      split; [reflexivity|]. split.
      * change (filter isLookup (q :: new)) with (q :: filter isLookup new).
        now rewrite (filter_lookup_org new F).
      * intros resp' Hr' Hf. inversion Hr'; subst. congruence.
    + simpl in Hex. inversion Hex; subst; clear Hex. simpl.
      repeat split; reflexivity.
Qed.

(** ** Trimming and splitting *)

Lemma trimStart_suffix (s : jsstring) : exists pre, s = pre ++ trimStart s.
Proof.
  induction s as [|c r [pre IH]]; simpl.
  - now exists [].
  - destruct (is_js_space c).
    + exists (c :: pre). simpl. now rewrite <- IH.
    + now exists [].
Qed.

Lemma trimStart_incl (s : jsstring) : incl (trimStart s) s.
Proof.
  destruct (trimStart_suffix s) as [pre E]. intros x Hx.
  rewrite E. apply in_or_app. now right.
Qed.

Lemma trimStart_head (s : jsstring) c r : trimStart s = c :: r -> is_js_space c = false.
Proof.
  induction s as [|d s IH]; simpl; [discriminate|].
  destruct (is_js_space d) eqn:E; [assumption|].
  intros H. inversion H; subst. assumption.
Qed.

Lemma trimStart_fixed c r :
  is_js_space c = false -> trimStart (c :: r) = c :: r.
Proof. simpl. now intros ->. Qed.

Lemma trimStart_snoc (l : jsstring) c :
  is_js_space c = false -> trimStart (l ++ [c]) = trimStart l ++ [c].
Proof.
  intros Hc. induction l as [|d l IH]; simpl.
  - now rewrite Hc.
  - now destruct (is_js_space d).
Qed.

Lemma trimEnd_cons c r : is_js_space c = false -> trimEnd (c :: r) = c :: trimEnd r.
Proof.
  intros Hc. unfold trimEnd. simpl rev.
  rewrite trimStart_snoc by assumption. now rewrite rev_app_distr.
Qed.

Lemma trimEnd_incl (s : jsstring) : incl (trimEnd s) s.
Proof.
  intros x Hx. unfold trimEnd in Hx. apply in_rev in Hx.
  apply trimStart_incl in Hx. now apply in_rev.
Qed.

Lemma trimEnd_idem (s : jsstring) : trimEnd (trimEnd s) = trimEnd s.
Proof.
  unfold trimEnd. rewrite rev_involutive.
  destruct (trimStart (rev s)) as [|c r] eqn:E; [reflexivity|].
  now rewrite (trimStart_fixed c r (trimStart_head _ _ _ E)).
Qed.

Lemma trim_incl (s : jsstring) : incl (trim s) s.
Proof.
  intros x Hx. apply trimStart_incl. now apply trimEnd_incl.
Qed.

(** A trimmed string is left alone by [trim]. *)
Lemma trim_idem (s : jsstring) : trim (trim s) = trim s.
Proof.
  unfold trim. destruct (trimStart s) as [|c r] eqn:E; [reflexivity|].
  pose proof (trimStart_head _ _ _ E) as Hc.
  rewrite (trimEnd_cons c r Hc).
  rewrite (trimStart_fixed c (trimEnd r) Hc).
  rewrite <- (trimEnd_cons c r Hc). apply trimEnd_idem.
Qed.

Lemma split_comma_nonnil (s : jsstring) : split_comma s <> [].
Proof.
  induction s as [|c r IH]; simpl; [discriminate|].
  destruct (N.eqb c comma); [discriminate|].
  destruct (split_comma r); [contradiction | discriminate].
Qed.

Lemma split_comma_no_comma (s : jsstring) :
  Forall (fun p => ~ In comma p) (split_comma s).
Proof.
  induction s as [|c r IH]; simpl.
  - constructor; [intros [] | constructor].
  - destruct (N.eqb c comma) eqn:E.
    + constructor; [intros [] | assumption].
    + destruct (split_comma r) as [|p ps]; [constructor; [|constructor]|].
      * intros [H | []]. subst. now rewrite N.eqb_refl in E.
      * inversion IH; subst. constructor; [|assumption].
        intros [H | H]; [|contradiction]. subst. now rewrite N.eqb_refl in E.
Qed.

(** Joining the pieces with commas gives the string back. *)
Lemma join_split_comma (s : jsstring) : join_comma (split_comma s) = s.
Proof.
  induction s as [|c r IH]; simpl; [reflexivity|].
  destruct (N.eqb c comma) eqn:E.
  - apply N.eqb_eq in E. subst c.
    destruct (split_comma r) as [|p ps] eqn:Er.
    + now elim (split_comma_nonnil r).
    + simpl in *. now rewrite IH.
  - destruct (split_comma r) as [|p ps] eqn:Er.
    + now elim (split_comma_nonnil r).
    + destruct ps; simpl in *; now rewrite <- IH.
Qed.

Lemma nonempty_true (s : jsstring) : nonempty s = true <-> s <> [].
Proof. destruct s; simpl; split; congruence. Qed.

(** The tokens of a tag-ID string: the trimmed pieces that are not empty,
    in order; each is free of commas and already trimmed. *)
Lemma split_trim_filter_tokens (s : jsstring) (t : jsstring) :
  In t (split_trim_filter s) <->
  exists piece, In piece (split_comma s) /\ t = trim piece /\ t <> [].
Proof.
  unfold split_trim_filter. rewrite filter_In, in_map_iff, nonempty_true.
  split.
  - intros [(p & Hp & Hin) Hne]. exists p. auto.
  - intros (p & Hin & Hp & Hne). split; [exists p|]; auto.
Qed.

Lemma split_trim_filter_clean (s : jsstring) :
  Forall (fun t => t <> [] /\ ~ In comma t /\ trim t = t) (split_trim_filter s).
Proof.
  apply Forall_forall. intros t Ht.
  apply split_trim_filter_tokens in Ht. destruct Ht as (p & Hin & -> & Hne).
  split; [assumption|]. split.
  - intros Hc. apply trim_incl in Hc.
    pose proof (split_comma_no_comma s) as F.
    rewrite Forall_forall in F. exact (F p Hin Hc).
  - apply trim_idem.
Qed.

Lemma split_trim_filter_empty : split_trim_filter [] = [].
Proof. reflexivity. Qed.

(** ** Uploads: the document name and the tag IDs *)

Lemma wire_strings (l : list jsstring) : wire (strings l) = strings l.
Proof.
  unfold strings. simpl. f_equal. rewrite map_map. now apply map_ext.
Qed.

Lemma app_one_neq {A} (tr : list A) q : tr <> tr ++ [q].
Proof.
  intros H. apply (f_equal (@length A)) in H. rewrite length_app in H.
  simpl in H. lia.
Qed.

Lemma app_one_inv {A} (tr : list A) a b : tr ++ [a] = tr ++ [b] -> a = b.
Proof. intros H. apply app_inv_head in H. now inversion H. Qed.

Lemma uploadBody_inv h i bp dn tags meta bd tr b tr' :
  uploadBody h i bp dn tags meta bd tr = (inr b, tr') ->
  tr' = tr /\
  uploadField b (lit "name") = Some (VStr (documentNameOf dn bd)) /\
  uploadField b (lit "tag_ids") =
    match split_trim_filter tags with
    | [] => None
    | l => Some (strings l)
    end.
Proof.
  unfold uploadBody, bind, lift, ret.
  destruct (getBinaryDataBuffer h i bp) as [e | content]; [discriminate|].
  destruct (parseIfString h meta (lit "{}")) as [e | metadata]; [discriminate|].
  destruct (Object_keys_length _) as [e | nkeys] eqn:K; [discriminate|].
  intros H. inversion H; subst; clear H.
  split; [reflexivity|]. split; [reflexivity|].
  assert (Ht : (if nonempty tags then split_trim_filter tags else [])
               = split_trim_filter tags) by now destruct tags.
  rewrite Ht. clear Ht.
  destruct (split_trim_filter tags) as [|t l] eqn:E.
  - destruct nkeys; [reflexivity|]. destruct metadata; reflexivity.
  - pose proof (wire_strings (t :: l)) as W.
    unfold uploadField. simpl. unfold strings in *. simpl in *.
    inversion W as [W']. now rewrite !W'.
Qed.

Lemma or_str_nonempty (a b : jsstring) : b <> [] -> or_str a b <> [].
Proof. unfold or_str. destruct a; simpl; [auto | discriminate]. Qed.


(** ** C8: tag IDs *)

Lemma trimStart_nil_spaces (s : jsstring) :
  trimStart s = [] -> Forall (fun c => is_js_space c = true) s.
Proof.
  induction s as [|c r IH]; simpl; [constructor|].
  destruct (is_js_space c) eqn:E; [|discriminate]. auto.
Qed.

Lemma trim_nil_spaces (s : jsstring) :
  trim s = [] -> Forall (fun c => is_js_space c = true) s.
Proof.
  unfold trim. intros H. apply trimStart_nil_spaces.
  destruct (trimStart s) as [|c r] eqn:E; [reflexivity|].
  rewrite (trimEnd_cons c r (trimStart_head _ _ _ E)) in H. discriminate.
Qed.

Lemma split_comma_single (s : jsstring) : ~ In comma s -> split_comma s = [s].
Proof.
  induction s as [|c r IH]; simpl; intros H; [reflexivity|].
  destruct (N.eqb c comma) eqn:E.
  - apply N.eqb_eq in E. elim H. now left.
  - rewrite IH; [reflexivity|]. intros Hr. apply H. now right.
Qed.

(** The guard [tagIdsStr?.trim() ? ... : []] of the Knowledge Base node
    changes nothing: a blank string has no token. *)
Lemma tagIdsOf_tokens (s : jsstring) :
  DocRouterKnowledgeBase.tagIdsOf s = split_trim_filter s.
Proof.
  unfold DocRouterKnowledgeBase.tagIdsOf.
  destruct (trim s) as [|c r] eqn:E; [|reflexivity]. simpl.
  pose proof (trim_nil_spaces s E) as F.
  assert (Hc : ~ In comma s).
  { intros Hc. rewrite Forall_forall in F. specialize (F _ Hc). discriminate. }
  unfold split_trim_filter. rewrite (split_comma_single s Hc). simpl. now rewrite E.
Qed.

Ltac host_cases tr q :=
  repeat (unfold bind at 1, lift at 1;
          match goal with
          | |- context [match ?x with inl _ => _ | inr _ => _ end] =>
              match x with
              | getString _ _ _ _ => idtac
              | getNumber _ _ _ _ => idtac
              | getOptNumber _ _ _ => idtac
              | getBoolean _ _ _ _ => idtac
              | getJson _ _ _ _ => idtac
              end;
              destruct x; [simpl; intros H; now elim (app_one_neq tr q)|]
          end).

Lemma kb_create_issue h baseUrl org i tags tr q :
  getString h "tagIds" i (Some []) = inr tags ->
  snd (DocRouterKnowledgeBase.create h baseUrl org i tr) = tr ++ [q] ->
  bodyField (body q) (lit "tag_ids") = Some (strings (split_trim_filter tags)).
Proof.
  intros Htags. unfold DocRouterKnowledgeBase.create.
  unfold bind at 1, lift at 1.
  destruct (getString h "name" i None) as [e | name];
    [simpl; intros H; now elim (app_one_neq tr q)|].
  unfold bind at 1, lift at 1.
  destruct (getString h "description" i (Some [])) as [e | description];
    [simpl; intros H; now elim (app_one_neq tr q)|].
  unfold bind at 1, lift at 1. rewrite Htags.
  host_cases tr q.
  unfold httpRequestWithAuthentication. simpl. intros H.
  apply app_one_inv in H. subst q. simpl body.
  rewrite tagIdsOf_tokens.
  pose proof (wire_strings (split_trim_filter tags)) as W.
  unfold DocRouterKnowledgeBase.withInterval.
  match goal with
  | |- context [match ?o with Some _ => _ | None => _ end] => destruct o as [secs|]
  end;
  [ match goal with |- context [if ?c then _ else _] => destruct c end | ];
  unfold bodyField; simpl; unfold strings in *; simpl in W; now rewrite W.
Qed.


(** ** C6: the custom-API-call sentinel *)

(** C6, at the failing input.  The Document, Tag and DocRouter nodes have
    no branch for [__CUSTOM_API_CALL__]: they reject it like any unknown
    name, with the message "Unknown operation: __CUSTOM_API_CALL__". *)
Theorem C6_document_custom_api_call (h : Host) (baseUrl org : jsstring) (i : nat)
    (tr : trace) :
  DocRouterDocument.perItem h baseUrl org customApiCall i tr =
    (inl (NodeOperationError (lit "Unknown operation: __CUSTOM_API_CALL__") None), tr) /\
  DocRouterTag.perItem h baseUrl org customApiCall i tr =
    (inl (NodeOperationError (lit "Unknown operation: __CUSTOM_API_CALL__") None), tr).
Proof. split; reflexivity. Qed.

(** The sibling nodes answer the sentinel with their own message. *)
Lemma siblings_custom_api_call (h : Host) (baseUrl org : jsstring) (i : nat) (tr : trace) :
  DocRouterAccount.perItem h baseUrl customApiCall i tr =
    (inl (NodeOperationError DocRouterAccount.customMessage None), tr) /\
  DocRouterSchema.perItem h baseUrl org customApiCall i tr =
    (inl (NodeOperationError DocRouterSchema.customMessage None), tr) /\
  DocRouterKnowledgeBase.perItem h baseUrl org customApiCall i tr =
    (inl (NodeOperationError DocRouterKnowledgeBase.customMessage None), tr) /\
  (forall documentId promptRevid,
     getString h "documentId" i None = inr documentId ->
     getString h "promptRevid" i (Some (lit "default")) = inr promptRevid ->
     DocRouterLLM.perItem h baseUrl org customApiCall i tr =
       (inl (NodeOperationError DocRouterLLM.customMessage None), tr)).
Proof.
  repeat split; try reflexivity.
  intros documentId promptRevid H1 H2.
  unfold DocRouterLLM.perItem, bind, lift. now rewrite H1, H2.
Qed.

Ltac split_orb H :=
  repeat match type of H with
         | (_ || _) = false =>
             let H1 := fresh "Hop" in
             apply orb_false_iff in H; destruct H as [H1 H]
         end.

(** An operation name that a node does not declare is run per item and
    rejected there with a [NodeOperationError] (in the DocRouter node,
    before the loop). *)
Lemma unknown_operation_rejected (n : Node) (h : Host) (baseUrl org operation : jsstring)
    (i : nat) (tr : trace) :
  existsb (jseqb operation) (declaredOperations n) = false ->
  isRunOnce n operation = false /\
  match n with
  | Document =>
      DocRouterDocument.perItem h baseUrl org operation i tr
      = (inl (rejection None operation), tr)
  | Tag =>
      DocRouterTag.perItem h baseUrl org operation i tr
      = (inl (rejection None operation), tr)
  | Account =>
      DocRouterAccount.perItem h baseUrl operation i tr
      = (inl (rejection (Some DocRouterAccount.customMessage) operation), tr)
  | Schema =>
      DocRouterSchema.perItem h baseUrl org operation i tr
      = (inl (rejection (Some DocRouterSchema.customMessage) operation), tr)
  | KnowledgeBase =>
      DocRouterKnowledgeBase.perItem h baseUrl org operation i tr
      = (inl (rejection (Some DocRouterKnowledgeBase.customMessage) operation), tr)
  | LLM =>
      forall documentId promptRevid,
        getString h "documentId" i None = inr documentId ->
        getString h "promptRevid" i (Some (lit "default")) = inr promptRevid ->
        DocRouterLLM.perItem h baseUrl org operation i tr
        = (inl (rejection (Some DocRouterLLM.customMessage) operation), tr)
  | Upload =>
      forall s,
        getString h "operation" 0 None = inr operation ->
        DocRouter.execute h s = (inl (rejection None operation), s)
  end.
Proof.
  intros H. destruct n; simpl in H; split_orb H.
  - split; [assumption|].
    unfold DocRouterDocument.perItem. now rewrite Hop, Hop1, Hop2, Hop3.
  - split; [assumption|].
    unfold DocRouterTag.perItem. now rewrite Hop0, Hop1, Hop2, Hop3.
  - split.
    + unfold isRunOnce, DocRouterAccount.runOnce. cbn [existsb].
      rewrite (jseqb_sym _ operation), Hop.
      rewrite (jseqb_sym _ operation), Hop4.
      rewrite (jseqb_sym _ operation), Hop0.
      now rewrite (jseqb_sym _ operation), Hop5.
    + unfold DocRouterAccount.perItem, rejection.
      rewrite Hop1, Hop2, Hop3, Hop6, Hop7, Hop8.
      now destruct (operation === customApiCall).
  - split.
    + unfold isRunOnce. now rewrite Hop, Hop4, Hop5.
    + unfold DocRouterSchema.perItem, rejection.
      rewrite Hop0, Hop1, Hop2, Hop3.
      now destruct (operation === customApiCall).
  - split; [reflexivity|]. intros documentId promptRevid H1 H2.
    unfold DocRouterLLM.perItem, bind, lift, rejection.
    rewrite H1, H2, Hop, Hop0, Hop1, Hop2.
    now destruct (operation === customApiCall).
  - split.
    + unfold isRunOnce, DocRouterKnowledgeBase.runOnce. cbn [existsb].
      rewrite (jseqb_sym _ operation), Hop.
      rewrite (jseqb_sym _ operation), Hop4.
      rewrite (jseqb_sym _ operation), Hop5.
      rewrite (jseqb_sym _ operation), Hop6.
      rewrite (jseqb_sym _ operation), Hop7.
      rewrite (jseqb_sym _ operation), Hop8.
      now rewrite (jseqb_sym _ operation), Hop9.
    + unfold DocRouterKnowledgeBase.perItem, rejection.
      rewrite Hop0, Hop1, Hop2, Hop3.
      now destruct (operation === customApiCall).
  - split; [reflexivity|]. intros s Hs.
    unfold DocRouter.execute, bind, lift. rewrite Hs, Hop. reflexivity.
Qed.

(** ** C4: malformed JSON text *)

Lemma or_str_left (s fb : jsstring) : s <> [] -> or_str s fb = s.
Proof. destruct s; [contradiction | reflexivity]. Qed.

Lemma parse_malformed (h : Host) (s fb : jsstring) :
  malformed h s -> exists e, parseIfString h (VStr s) fb = inl e.
Proof.
  intros [Hne [e He]]. exists e. simpl. now rewrite or_str_left.
Qed.

(** Peel the host call at the head of a block that must fail silently. *)
Ltac is_host_call x :=
  match x with
  | getString _ _ _ _ => idtac
  | getNumber _ _ _ _ => idtac
  | getOptNumber _ _ _ => idtac
  | getBoolean _ _ _ _ => idtac
  | getJson _ _ _ _ => idtac
  | getBinaryDataBuffer _ _ _ => idtac
  | itemBinary _ _ _ => idtac
  end.

Ltac host_step :=
  cbv beta iota;
  match goal with
  | |- exists _, match ?x with inl _ => _ | inr _ => _ end = _ =>
      is_host_call x; destruct x; [eexists; reflexivity|]
  | |- exists _, match ?x with Some _ => _ | None => _ end _ = _ =>
      destruct x; [|eexists; reflexivity]
  end.

Ltac fails_with He := cbv beta iota; rewrite He; eexists; reflexivity.

Lemma uploadBody_malformed h i bp dn tags s bd :
  malformed h s -> failsSilently (uploadBody h i bp dn tags (VStr s) bd).
Proof.
  intros Hm tr. destruct (parse_malformed h s (lit "{}") Hm) as [e He].
  unfold uploadBody, bind, lift. host_step. fails_with He.
Qed.

Lemma failsSilently_bind {A B} (m : M trace A) (k : A -> M trace B) :
  failsSilently m -> failsSilently (bind m k).
Proof. intros H tr. destruct (H tr) as [e He]. exists e. unfold bind. now rewrite He. Qed.

(** C4, amended.  A JSON text parameter that is supplied (not the empty
    string) and that [JSON.parse] rejects makes the block that reads it
    throw before it issues any request: the metadata of the uploads and of
    the document update, the data and the schema of the Schema node, the
    updated LLM result, the metadata filters and the messages of the
    Knowledge Base node.  The members of an organization update are
    parsed after trimming, and only when something is left: there the
    same holds for a text that is not blank and whose trimmed form is
    rejected. *)
Theorem C4_malformed_json (h : Host) (baseUrl org : jsstring) (i : nat) (s : jsstring) :
  malformed h s ->
  (getJson h "metadata" i (Some (VObj [])) = inr (VStr s) ->
     failsSilently (DocRouterDocument.upload h baseUrl org i) /\
     failsSilently (DocRouterDocument.update h baseUrl org i)) /\
  (forall bp dn tags,
     failsSilently (DocRouter.perItem h baseUrl org bp dn tags (VStr s) i)) /\
  (getJson h "validateData" 0 None = inr (VStr s) ->
     failsSilently (DocRouterSchema.validateOnce h baseUrl org)) /\
  (getJson h "jsonSchema" i None = inr (VStr s) ->
     failsSilently (DocRouterSchema.create h baseUrl org i) /\
     failsSilently (DocRouterSchema.update h baseUrl org i)) /\
  (getJson h "updatedLlmResult" i None = inr (VStr s) ->
     failsSilently (DocRouterLLM.perItem h baseUrl org (lit "update") i)) /\
  (getJson h "metadataFilter" 0 (Some (VStr (lit "{}"))) = inr (VStr s) ->
     failsSilently (DocRouterKnowledgeBase.search h baseUrl org)) /\
  (getJson h "messages" 0 None = inr (VStr s) ->
     failsSilently (DocRouterKnowledgeBase.chat h baseUrl org)) /\
  (getJson h "chatMetadataFilter" 0 (Some (VStr (lit "{}"))) = inr (VStr s) ->
     failsSilently (DocRouterKnowledgeBase.chat h baseUrl org)) /\
  (forall members,
     getString h "members" i (Some []) = inr members ->
     trim members = s ->
     failsSilently (DocRouterAccount.updateOrganization h baseUrl i)).
Proof.
  intros Hm. pose proof Hm as [Hne [e0 He0]].
  destruct (parse_malformed h s (lit "{}") Hm) as [e He].
  destruct (parse_malformed h s (lit "[]") Hm) as [e' He'].
  assert (Hs : nonempty s = true) by now apply nonempty_true.
  repeat split.
  - intros tr. unfold DocRouterDocument.upload, bind at 1 2 3 4 5, lift.
    rewrite H. repeat host_step.
    apply failsSilently_bind. now apply uploadBody_malformed.
  - intros tr. unfold DocRouterDocument.update, bind, lift.
    rewrite H. repeat host_step.
    unfold DocRouterDocument.updateBody. cbn [truthy]. rewrite Hs, He.
    eexists; reflexivity.
  - intros bp dn tags tr. unfold DocRouter.perItem, bind at 1, lift.
    host_step. host_step.
    apply failsSilently_bind. now apply uploadBody_malformed.
  - intros H tr. unfold DocRouterSchema.validateOnce, bind, lift.
    rewrite H. repeat host_step. fails_with He.
  - intros tr. unfold DocRouterSchema.create, bind, lift.
    rewrite H. repeat host_step. fails_with He.
  - intros tr. unfold DocRouterSchema.update, bind, lift.
    rewrite H. repeat host_step. fails_with He.
  - intros H tr. unfold DocRouterLLM.perItem, bind at 1 2, lift.
    host_step. host_step. simpl (_ === _). cbv iota.
    unfold DocRouterLLM.update, bind, lift. rewrite H.
    repeat host_step. fails_with He.
  - intros H tr. unfold DocRouterKnowledgeBase.search, bind, lift.
    rewrite H. repeat host_step. fails_with He.
  - intros H tr. unfold DocRouterKnowledgeBase.chat, bind, lift.
    rewrite H. repeat host_step. fails_with He'.
  - intros H tr. unfold DocRouterKnowledgeBase.chat, bind, lift.
    rewrite H. repeat host_step.
    cbv beta iota.
    match goal with
    | |- exists _, match ?x with inl _ => _ | inr _ => _ end = _ =>
        destruct x; [eexists; reflexivity|]
    end.
    fails_with He.
  - intros members H H0 tr. unfold DocRouterAccount.updateOrganization, bind, lift.
    rewrite H. repeat host_step.
    unfold DocRouterAccount.updateOrganizationBody.
    assert (Hm' : nonempty members = true).
    { destruct members; [|reflexivity]. subst s. discriminate. }
    rewrite Hm', H0, Hs, He0. eexists; reflexivity.
Qed.

(** ** Updates: the body of a user update *)

Lemma updateUser_run h baseUrl i userId u p r tr :
  getString h "userId" i None = inr userId ->
  getString h "userNameUpdate" i (Some []) = inr u ->
  getString h "passwordUpdate" i (Some []) = inr p ->
  getString h "role" i (Some []) = inr r ->
  DocRouterAccount.updateUser h baseUrl i tr =
  match DocRouterAccount.updateUserBody (nodeParameters h) u p r with
  | [] => (inl (NodeOperationError DocRouterAccount.updateUserMessage None), tr)
  | b =>
      httpRequestWithAuthentication h
        (mkRequest DocRouterAccount.accountApi PUT baseUrl
           (lit "/v0/account/users/" ++ trim userId) None (Some (VObj b))) tr
  end.
Proof.
  intros H1 H2 H3 H4. unfold DocRouterAccount.updateUser, bind, lift.
  rewrite H1, H2, H3, H4.
  now destruct (DocRouterAccount.updateUserBody (nodeParameters h) u p r).
Qed.

Lemma updateUserBody_sparse (np : IDataObject) (u p r : jsstring) :
  let b := DocRouterAccount.updateUserBody np u p r in
  obj_get b (lit "name") = (if nonempty u then Some (VStr (trim u)) else None) /\
  obj_get b (lit "password") = (if nonempty p then Some (VStr p) else None) /\
  (obj_has b (lit "role") = DocRouterAccount.present np (lit "role")) /\
  (obj_has b (lit "email_verified") = DocRouterAccount.present np (lit "emailVerified")) /\
  (obj_has b (lit "has_seen_tour") = DocRouterAccount.present np (lit "hasSeenTour")) /\
  (forall k v, In (k, v) b ->
     k = lit "name" \/ k = lit "password" \/ k = lit "role" \/
     k = lit "email_verified" \/ k = lit "has_seen_tour").
Proof.
  unfold DocRouterAccount.updateUserBody.
  destruct (nonempty u); destruct (nonempty p);
    destruct (DocRouterAccount.present np (lit "role"));
    destruct (DocRouterAccount.present np (lit "emailVerified"));
    destruct (DocRouterAccount.present np (lit "hasSeenTour"));
    simpl; (do 5 (split; [reflexivity|]));
    intros k v Hin; simpl in Hin;
    intuition (match goal with H : (_, _) = (_, _) |- _ => inversion H end; auto 6).
Qed.


(** ** Example runs *)

(** C1 as stated fails: [validate] on the Schema node is run once, so a
    batch of two items yields a single entry. *)
Lemma C1_validate_runs_once :
  exists out s',
    executeOf Schema hostValidate start = (inr out, s') /\
    length (getInputData hostValidate) = 2 /\
    length out = 1.
Proof. eexists. eexists. split; [vm_compute; reflexivity|]. split; reflexivity. Qed.

Lemma C1_witness :
  getString hostValidate "operation" 0 None = inr (lit "validate") /\
  exists out s',
    executeOf Schema hostValidate start = (inr out, s') /\
    (isRunOnce Schema (lit "validate") = true ->
       exists e, out = [e] /\ pairedItem e = Some 0) /\
    (isRunOnce Schema (lit "validate") = false ->
       length out = length (getInputData hostValidate) /\
       forall i e, nth_error out i = Some e -> pairedItem e = Some i).
Proof.
  split; [reflexivity|]. eexists. eexists. split; [vm_compute; reflexivity|].
  apply (C1_entries_per_run Schema hostValidate (lit "validate") _ _ eq_refl eq_refl).
Defined.

(** C2 as stated fails: the Tag update sends an empty [name], and the
    Document update that provides no field still issues its request. *)
Lemma C2_empty_fields_sent :
  (exists out s' q,
     executeOf Tag hostEmptyTagName start = (inr out, s') /\
     nth_error (requests s') 1 = Some q /\
     method q = PUT /\
     bodyField (body q) (lit "name") = Some (VStr [])) /\
  (exists out s' q,
     executeOf Document hostEmptyUpdate start = (inr out, s') /\
     nth_error (requests s') 1 = Some q /\
     method q = PUT /\
     body q = Some (VObj [])).
Proof.
  split; eexists; eexists; eexists; (split; [vm_compute; reflexivity|]);
    (split; [reflexivity|]); split; reflexivity.
Qed.

(** C3 as stated fails: the upload-only DocRouter node takes the
    organization ID as a parameter and never looks it up. *)
Lemma C3_upload_without_lookup :
  exists out s',
    executeOf Upload hostUpload start = (inr out, s') /\
    filter isLookup (requests s') = [] /\
    existsb isOrgResource (requests s') = true.
Proof. eexists. eexists. split; [vm_compute; reflexivity|]. split; reflexivity. Qed.

Lemma C3_witness :
  resolvesOrganization Document = true /\
  getString hostNoOrganization "operation" 0 None = inr (lit "delete") /\
  getCredentials hostNoOrganization orgApi
    = inr {| cred_baseUrl := None; apiToken := lit "T" |} /\
  exists r s',
    executeOf Document hostNoOrganization start = (r, s') /\
    r = inl (NodeOperationError DocRouterDocument.orgMessage None) /\
    requests s' = [lookupRequest defaultBaseUrl (lit "T")].
Proof.
  repeat (split; [reflexivity|]).
  eexists. eexists. split; [vm_compute; reflexivity|].
  destruct (C3_lookup_once Document hostNoOrganization (lit "delete")
              {| cred_baseUrl := None; apiToken := lit "T" |} _ _
              eq_refl eq_refl eq_refl eq_refl) as (_ & _ & H).
  exact (H (VObj []) eq_refl eq_refl).
Defined.

(** C4 as stated fails: a members text of one space is not JSON, yet the
    organization update treats it as not supplied and issues its request. *)
Lemma C4_blank_members_accepted :
  malformed hostBlankMembers (lit " ") /\
  getString hostBlankMembers "members" 0 (Some []) = inr (lit " ") /\
  exists out s',
    executeOf Account hostBlankMembers start = (inr out, s') /\
    map method (requests s') = [PUT] /\
    map error out = [None].
Proof.
  split; [split; [discriminate | eexists; reflexivity]|].
  split; [reflexivity|].
  eexists. eexists. split; [vm_compute; reflexivity|]. split; reflexivity.
Qed.

Lemma C4_witness :
  malformed hostBadMetadata (lit "{bad") /\
  failsSilently (DocRouterDocument.upload hostBadMetadata defaultBaseUrl (lit "org1") 0).
Proof.
  assert (Hm : malformed hostBadMetadata (lit "{bad")).
  { split; [discriminate | eexists; reflexivity]. }
  split; [exact Hm|].
  destruct (C4_malformed_json hostBadMetadata defaultBaseUrl (lit "org1") 0 (lit "{bad") Hm)
    as [H _].
  exact (proj1 (H eq_refl)).
Defined.

(** The plan of the LLM node on the three-item example. *)
Lemma C5_witness :
  continueOnFail hostBlankRevision = true /\
  preludeOf LLM hostBlankRevision [] =
    (inr (orgPlan LLM hostBlankRevision defaultBaseUrl (lit "org1") (lit "update")),
     [lookupRequest defaultBaseUrl (lit "T")]) /\
  exists out s',
    executeOf LLM hostBlankRevision start = (inr out, s') /\
    length out = 3 /\
    nth_error out 1 =
      Some (errorEntry hostBlankRevision
              (NodeOperationError (lit "Prompt Revision ID is required for Update.") (Some 1))
              1).
Proof.
  split; [reflexivity|]. split; [reflexivity|].
  destruct (C5_continue_on_fail LLM hostBlankRevision
              (orgPlan LLM hostBlankRevision defaultBaseUrl (lit "org1") (lit "update"))
              [lookupRequest defaultBaseUrl (lit "T")] eq_refl eq_refl eq_refl)
    as (out & s' & Hex & Hlen & Hnth).
  exists out, s'. split; [exact Hex|]. split; [exact Hlen|].
  destruct (Hnth 1 (le_S 2 2 (le_n 2))) as [He _].
  exact (He _ eq_refl).
Defined.

(** C7 as stated fails: the [SyntaxError] of [JSON.parse] has no context,
    and is re-thrown without the item index. *)
Lemma C7_syntax_error_not_annotated :
  continueOnFail hostBadMetadata = false /\
  exists err s',
    executeOf Document hostBadMetadata start = (inl err, s') /\
    ~ annotatedWith 0 err.
Proof.
  split; [reflexivity|]. eexists. eexists. split; [vm_compute; reflexivity|].
  intros (c & Hc & _). discriminate.
Qed.

Lemma C7_witness :
  continueOnFail hostMissingFile = false /\
  preludeOf Document hostMissingFile [] =
    (inr (orgPlan Document hostMissingFile defaultBaseUrl (lit "org1") (lit "upload")),
     [lookupRequest defaultBaseUrl (lit "T")]) /\
  1 < length (getInputData hostMissingFile) /\
  exists err s',
    executeOf Document hostMissingFile start = (inl err, s') /\
    length (requests s') = 2 /\
    message err = noBinaryMessage (lit "data") /\
    annotatedWith 1 err.
Proof.
  split; [reflexivity|]. split; [reflexivity|]. split; [apply le_n|].
  assert (Hall : allReturn 1 0
            (planItem (orgPlan Document hostMissingFile defaultBaseUrl (lit "org1")
                         (lit "upload")))
            [lookupRequest defaultBaseUrl (lit "T")]).
  { intros k Hk. destruct k as [|k]; [eexists; reflexivity|].
    exfalso. exact (Nat.nle_succ_0 _ (le_S_n _ _ Hk)). }
  destruct (C7_first_error_aborts Document hostMissingFile
              (orgPlan Document hostMissingFile defaultBaseUrl (lit "org1") (lit "upload"))
              [lookupRequest defaultBaseUrl (lit "T")] 1
              (NodeOperationError (noBinaryMessage (lit "data")) (Some 1))
              eq_refl eq_refl eq_refl (le_n 2) Hall eq_refl)
    as (err & s' & Hex & Hreq & Hmsg & Hann).
  exists err, s'. split; [exact Hex|]. split; [now rewrite Hreq|].
  split; [exact Hmsg|].
  apply (Hann ltac:(discriminate) _ eq_refl).
Defined.

(** C8 as stated fails: the Knowledge Base create sends [tag_ids: []]
    when no tag ID is given. *)
Lemma C8_empty_tag_ids_sent :
  getString hostCreateKnowledgeBase "tagIds" 0 (Some []) = inr [] /\
  exists out s' q,
    executeOf KnowledgeBase hostCreateKnowledgeBase start = (inr out, s') /\
    nth_error (requests s') 1 = Some q /\
    method q = POST /\
    bodyField (body q) (lit "tag_ids") = Some (VArr []).
Proof.
  split; [reflexivity|]. eexists. eexists. eexists. split; [vm_compute; reflexivity|].
  split; [reflexivity|]. split; reflexivity.
Qed.

(** The run of the Document node on the sentinel: the generic message. *)
Lemma document_custom_api_call_run :
  exists err s',
    executeOf Document hostCustomApiCall start = (inl err, s') /\
    message err = lit "Unknown operation: __CUSTOM_API_CALL__".
Proof. eexists. eexists. split; [vm_compute; reflexivity | reflexivity]. Qed.

(** * Further properties of the nodes *)

(** ** Counting and addressing requests *)

Lemma emits_ret P n {A} (a : A) : emits P n (ret a).
Proof. intros tr. exists []. simpl. rewrite app_nil_r. repeat split; [lia | constructor]. Qed.

Lemma emits_throw P n {A} e : emits P n (@throw trace A e).
Proof. intros tr. exists []. simpl. rewrite app_nil_r. repeat split; [lia | constructor]. Qed.

Lemma emits_lift P n {A} (r : result A) : emits P n (lift r).
Proof. intros tr. exists []. simpl. rewrite app_nil_r. repeat split; [lia | constructor]. Qed.

Lemma emits_http (P : Request -> Prop) n h r :
  P r -> emits P (S n) (httpRequestWithAuthentication h r).
Proof.
  intros Hr tr. exists [r]. simpl. repeat split; [lia | auto].
Qed.

Lemma emits_bind P a b {A B} (m : M trace A) (k : A -> M trace B) :
  emits P a m -> (forall x, emits P b (k x)) -> emits P (a + b) (bind m k).
Proof.
  intros Hm Hk tr. unfold bind. destruct (Hm tr) as (n1 & E1 & L1 & F1).
  destruct (m tr) as [[e | x] tr1]; simpl in *.
  - exists n1. repeat split; [assumption | lia | assumption].
  - destruct (Hk x tr1) as (n2 & E2 & L2 & F2). exists (n1 ++ n2).
    rewrite E2, E1, <- app_assoc, length_app. repeat split; [lia|].
    apply Forall_app; auto.
Qed.

Ltac emits_tac solveP :=
  repeat first
    [ apply emits_ret
    | apply emits_throw
    | apply emits_lift
    | apply emits_http; solveP
    | match goal with
      | |- emits ?P ?n (bind (lift _) _) =>
          apply (emits_bind P 0 n); [apply emits_lift | intros]
      | |- emits ?P (S ?n) (bind (httpRequestWithAuthentication _ _) _) =>
          apply (emits_bind P 1 n); [apply emits_http; solveP | intros]
      | |- emits ?P ?n (bind (uploadBody _ _ _ _ _ _ _) _) =>
          apply (emits_bind P 0 n); [unfold uploadBody | intros]
      | |- emits _ _ (if ?c then _ else _) => destruct c
      | |- emits _ _ (match ?x with _ => _ end) => destruct x
      end ].

Lemma under_org (org tail : jsstring) :
  exists rest, lit "/v0/orgs/" ++ org ++ 47%N :: tail = orgPrefix org ++ rest.
Proof. exists tail. unfold orgPrefix. now rewrite <- !app_assoc. Qed.

Lemma under_org_app (org tail more : jsstring) :
  exists rest, (lit "/v0/orgs/" ++ org ++ 47%N :: tail) ++ more = orgPrefix org ++ rest.
Proof. exists (tail ++ more). unfold orgPrefix. now rewrite <- !app_assoc. Qed.

Ltac solve_addressed :=
  unfold addressed, DocRouterKnowledgeBase.kbUrl;
  cbn [credentialsType baseURL jsonFlag url mkRequest];
  (split; [reflexivity|]); (split; [reflexivity|]); (split; [reflexivity|]);
  first [apply under_org | apply under_org_app].

Lemma orgPlan_emits n h baseUrl org operation :
  resolvesOrganization n = true ->
  (forall m, planOnce (orgPlan n h baseUrl org operation) = Some m ->
     emits (addressed orgApi baseUrl (orgPrefix org)) 1 m) /\
  (forall i, emits (addressed orgApi baseUrl (orgPrefix org)) 1
               (planItem (orgPlan n h baseUrl org operation) i)).
Proof.
  intros Hn. destruct n; try discriminate; simpl; split; intros.
  - destruct (operation === lit "list"); [|discriminate].
    inversion H; subst. unfold DocRouterDocument.listOnce. emits_tac solve_addressed.
  - unfold DocRouterDocument.perItem, DocRouterDocument.upload, DocRouterDocument.get,
      DocRouterDocument.update, DocRouterDocument.delete. emits_tac solve_addressed.
  - destruct (operation === lit "list"); [|discriminate].
    inversion H; subst. unfold DocRouterTag.listOnce. emits_tac solve_addressed.
  - unfold DocRouterTag.perItem, DocRouterTag.get, DocRouterTag.create,
      DocRouterTag.update, DocRouterTag.delete. emits_tac solve_addressed.
  - unfold DocRouterSchema.listOnce, DocRouterSchema.listVersionsOnce,
      DocRouterSchema.validateOnce in H.
    destruct (operation === lit "list"); [inversion H; subst; emits_tac solve_addressed|].
    destruct (operation === lit "listVersions");
      [inversion H; subst; emits_tac solve_addressed|].
    destruct (operation === lit "validate"); [inversion H; subst; emits_tac solve_addressed|].
    discriminate.
  - unfold DocRouterSchema.perItem, DocRouterSchema.get, DocRouterSchema.create,
      DocRouterSchema.update, DocRouterSchema.delete. emits_tac solve_addressed.
  - discriminate.
  - unfold DocRouterLLM.perItem, DocRouterLLM.run, DocRouterLLM.get,
      DocRouterLLM.update, DocRouterLLM.delete. emits_tac solve_addressed.
  - destruct (DocRouterKnowledgeBase.runOnce operation); [|discriminate].
    inversion H; subst.
    unfold DocRouterKnowledgeBase.once, DocRouterKnowledgeBase.search,
      DocRouterKnowledgeBase.chat. emits_tac solve_addressed.
  - unfold DocRouterKnowledgeBase.perItem, DocRouterKnowledgeBase.get,
      DocRouterKnowledgeBase.create, DocRouterKnowledgeBase.update,
      DocRouterKnowledgeBase.delete. emits_tac solve_addressed.
Qed.

Ltac solve_account :=
  unfold accountRequest; cbn [credentialsType baseURL jsonFlag url mkRequest];
  (split; [reflexivity|]); (split; [reflexivity|]); (split; [reflexivity|]);
  eexists; first [left; reflexivity | right; reflexivity].

Lemma account_emits h baseUrl operation :
  emits (accountRequest baseUrl) 1 (DocRouterAccount.once h baseUrl operation) /\
  (forall i, emits (accountRequest baseUrl) 1
               (DocRouterAccount.perItem h baseUrl operation i)).
Proof.
  split; intros.
  - unfold DocRouterAccount.once. emits_tac solve_account.
  - unfold DocRouterAccount.perItem, DocRouterAccount.createUser, DocRouterAccount.updateUser,
      DocRouterAccount.deleteUser, DocRouterAccount.createOrganization,
      DocRouterAccount.updateOrganization, DocRouterAccount.deleteOrganization.
    emits_tac solve_account.
Qed.

Lemma upload_emits h baseUrl org bp dn tags meta i :
  emits (uploadRequest baseUrl org) 1
    (DocRouter.perItem h baseUrl org bp dn tags meta i).
Proof.
  unfold DocRouter.perItem.
  emits_tac ltac:(unfold uploadRequest; repeat split).
Qed.

Lemma emits_weaken (P Q : Request -> Prop) n {A} (m : M trace A) :
  (forall r, P r -> Q r) -> emits P n m -> emits Q n m.
Proof.
  intros HPQ Hm tr. destruct (Hm tr) as (new & E & L & F).
  exists new. repeat split; try assumption.
  eapply Forall_impl; [exact HPQ | exact F].
Qed.

Lemma loop_emits P h a body :
  (forall i, emits P 1 (body i)) ->
  forall n i s, exists new,
    requests (snd (for_loop n i (itemStep h a body) s)) = requests s ++ new /\
    length new <= n /\ Forall P new.
Proof.
  intros Hb. induction n; intros i s; simpl.
  - exists []. rewrite app_nil_r. split; [reflexivity|]. split; [simpl; lia | constructor].
  - unfold bind. pose proof (itemStep_requests h a body i s) as Hr.
    destruct (Hb i (requests s)) as (n1 & E1 & L1 & F1).
    destruct (itemStep h a body i s) as [[e | []] s1]; simpl in *.
    + exists n1. rewrite Hr, E1. split; [reflexivity|]. split; [lia | assumption].
    + destruct (IHn (S i) s1) as (n2 & E2 & L2 & F2). exists (n1 ++ n2).
      rewrite E2, Hr, E1, <- app_assoc, length_app. split; [reflexivity|].
      split; [lia|]. apply Forall_app; auto.
Qed.

Lemma runPlan_emits P h p s :
  (forall m, planOnce p = Some m -> emits P 1 m) ->
  (forall i, emits P 1 (planItem p i)) ->
  exists new,
    requests (snd (runPlan h p s)) = requests s ++ new /\
    length new <= match planOnce p with
                  | Some _ => 1
                  | None => length (getInputData h)
                  end /\
    Forall P new.
Proof.
  intros Ho Hi. unfold runPlan. destruct (planOnce p) as [m|].
  - rewrite runOnceBlock_requests. apply (Ho m eq_refl).
  - destruct (loop_emits P h (planAnnotates p) (planItem p) Hi
                (length (getInputData h)) 0 s) as (new & E & L & F).
    exists new. split; [|split; assumption].
    unfold bind, return_returnData.
    destruct (for_loop _ _ _ s) as [[e | []] s1]; simpl in *; assumption.
Qed.

(** What the run does after its opening part, in terms of the plan. *)
Lemma execute_requests (n : Node) (h : Host) :
  requests (snd (executeOf n h start)) =
  match preludeOf n h [] with
  | (inl _, tr0) => tr0
  | (inr p, tr0) => requests (snd (runPlan h p {| requests := tr0; returnData := [] |}))
  end.
Proof.
  rewrite execute_shape. unfold bind. rewrite liftReq_run. simpl.
  now destruct (preludeOf n h []) as [[e | p] tr0].
Qed.

Lemma org_prelude_eq (n : Node) (h : Host) :
  resolvesOrganization n = true ->
  preludeOf n h =
  (operation <- lift (getString h "operation" 0 None) ;;
   credentials <- lift (getCredentials h orgApi) ;;
   organizationId <- lookupOrganization h (baseUrlOf credentials) (apiToken credentials)
                       (orgMessageOf n) ;;
   ret (orgPlan n h (baseUrlOf credentials) organizationId operation)).
Proof. destruct n; try discriminate; reflexivity. Qed.

Lemma prelude_emits (n : Node) (h : Host) (r : result Plan) (tr0 : trace) :
  preludeOf n h [] = (r, tr0) ->
  length tr0 <= (if resolvesOrganization n then 1 else 0) /\
  forall p, r = inr p ->
    (forall m, planOnce p = Some m -> emits (fun _ => True) 1 m) /\
    (forall i, emits (fun _ => True) 1 (planItem p i)).
Proof.
  assert (W : forall P n0 A (m : M trace A), emits P n0 m -> emits (fun _ => True) n0 m).
  { intros P n0 A m. apply emits_weaken. auto. }
  destruct (resolvesOrganization n) eqn:Hn.
  - rewrite (org_prelude_eq n h Hn). unfold bind, lift, ret, throw.
    destruct (getString h "operation" 0 None) as [e | operation];
      [intros H; inversion H; subst; split; [simpl; lia | intros; discriminate]|].
    destruct (getCredentials h orgApi) as [e | c];
      [intros H; inversion H; subst; split; [simpl; lia | intros; discriminate]|].
    unfold lookupOrganization, bind, httpRequestWithAuthentication, throw, ret.
    destruct (remote h [] _) as [e | resp];
      [intros H; inversion H; subst; split; [simpl; lia | intros; discriminate]|].
    destruct (negb _);
      [intros H; inversion H; subst; split; [simpl; lia | intros; discriminate]|].
    intros H; inversion H; subst; clear H. split; [simpl; lia|].
    intros p Hp; inversion Hp; subst; clear Hp.
    match goal with
    | |- context [orgPlan n h ?b ?o ?op] =>
        destruct (orgPlan_emits n h b o op Hn) as [Ho Hi]
    end.
    split; [intros m Hm; apply (W _ _ _ _ (Ho m Hm)) | intros i; apply (W _ _ _ _ (Hi i))].
  - destruct n; try discriminate; simpl preludeOf; unfold bind, lift, ret, throw;
      (destruct (getString h "operation" 0 None) as [e | operation];
       [intros H; inversion H; subst; split; [simpl; lia | intros; discriminate]|]).
    + destruct (getCredentials h DocRouterAccount.accountApi) as [e | c];
        [intros H; inversion H; subst; split; [simpl; lia | intros; discriminate]|].
      intros H; inversion H; subst; clear H. split; [simpl; lia|].
      intros p Hp; inversion Hp; subst; clear Hp. simpl.
      destruct (account_emits h (baseUrlOf c) operation) as [Ho Hi].
      split.
      * intros m Hm. destruct (DocRouterAccount.runOnce operation); [|discriminate].
        inversion Hm; subst. apply (W _ _ _ _ Ho).
      * intros i. apply (W _ _ _ _ (Hi i)).
    + destruct (negb _);
        [intros H; inversion H; subst; split; [simpl; lia | intros; discriminate]|].
      repeat match goal with
             | |- context [getString ?h ?n ?i ?d] =>
                 destruct (getString h n i d);
                 [intros H; inversion H; subst; split; [simpl; lia | intros; discriminate]|]
             | |- context [getJson ?h ?n ?i ?d] =>
                 destruct (getJson h n i d);
                 [intros H; inversion H; subst; split; [simpl; lia | intros; discriminate]|]
             | |- context [getCredentials ?h ?c] =>
                 destruct (getCredentials h c);
                 [intros H; inversion H; subst; split; [simpl; lia | intros; discriminate]|]
             end.
      intros H; inversion H; subst; clear H. split; [simpl; lia|].
      intros p Hp; inversion Hp; subst; clear Hp. simpl.
      split; [intros m Hm; discriminate|].
      intros i. eapply W. apply upload_emits.
Qed.

(** X1.  A run issues at most one request per input item, or one in
    total when the operation is run once, on top of the token lookup of
    the nodes that resolve the organization. *)
Theorem X1_request_bound (n : Node) (h : Host) (operation : jsstring)
    (r : result (list INodeExecutionData)) (s' : ExecState) :
  getString h "operation" 0 None = inr operation ->
  executeOf n h start = (r, s') ->
  length (requests s') <=
    (if resolvesOrganization n then 1 else 0) + requestBound n h operation.
Proof.
  intros Hop Hex.
  pose proof (execute_requests n h) as Hreq. rewrite Hex in Hreq. simpl in Hreq.
  destruct (preludeOf n h []) as [[e | p] tr0] eqn:Hp.
  - destruct (prelude_emits n h _ _ Hp) as [Hl _]. rewrite Hreq. lia.
  - destruct (prelude_emits n h _ _ Hp) as [Hl Hb].
    destruct (Hb p eq_refl) as [Ho Hi].
    destruct (runPlan_emits (fun _ => True) h p {| requests := tr0; returnData := [] |} Ho Hi)
      as (new & E & L & _).
    destruct (prelude_inv _ _ _ _ _ Hp) as (op' & Hop' & Honce & _).
    rewrite Hop in Hop'. inversion Hop'; subst op'.
    rewrite Hreq, E. simpl. rewrite length_app. unfold requestBound.
    rewrite <- Honce. destruct (planOnce p); lia.
Qed.

(** X2.  In the nodes that resolve the organization, every request after
    the token lookup goes through the organization credential to the base
    URL of the credentials, is sent as JSON, and addresses a path under
    [/v0/orgs/<organization>/] for the organization the lookup returned. *)
Theorem X2_requests_under_organization (n : Node) (h : Host) (operation : jsstring)
    (c : Credentials) (resp : value) (r : result (list INodeExecutionData))
    (s' : ExecState) :
  resolvesOrganization n = true ->
  getString h "operation" 0 None = inr operation ->
  getCredentials h orgApi = inr c ->
  remote h [] (lookupRequest (baseUrlOf c) (apiToken c)) = inr resp ->
  truthy (get_prop resp (lit "organization_id")) = true ->
  executeOf n h start = (r, s') ->
  exists new,
    requests s' = lookupRequest (baseUrlOf c) (apiToken c) :: new /\
    Forall (addressed orgApi (baseUrlOf c)
              (orgPrefix (String_of (Number_toString h)
                            (get_prop resp (lit "organization_id"))))) new.
Proof.
  intros Hn Hop Hc Hresp Ht Hex.
  pose proof (execute_requests n h) as Hreq. rewrite Hex in Hreq. simpl in Hreq.
  rewrite (org_prelude n h operation c Hn Hop Hc) in Hreq. cbv zeta in Hreq.
  rewrite Hresp, Ht in Hreq.
  match type of Hreq with
  | context [orgPlan n h ?b ?o ?op] =>
      destruct (orgPlan_emits n h b o op Hn) as [Ho Hi];
      destruct (runPlan_emits _ h (orgPlan n h b o op)
                  {| requests := [lookupRequest (baseUrlOf c) (apiToken c)];
                     returnData := [] |} Ho Hi) as (new & E & _ & F)
  end.
  exists new. rewrite Hreq, E. split; [reflexivity | exact F].
Qed.

(** X3.  The Account node sends every request through the account
    credential to the base URL of the credentials, on the users or the
    organizations collection; it never looks up an organization. *)
Theorem X3_account_requests (h : Host) (operation : jsstring) (c : Credentials)
    (r : result (list INodeExecutionData)) (s' : ExecState) :
  getString h "operation" 0 None = inr operation ->
  getCredentials h DocRouterAccount.accountApi = inr c ->
  executeOf Account h start = (r, s') ->
  Forall (accountRequest (baseUrlOf c)) (requests s') /\
  Forall (fun q => isLookup q = false) (requests s').
Proof.
  intros Hop Hc Hex.
  pose proof (execute_requests Account h) as Hreq. rewrite Hex in Hreq. simpl in Hreq.
  unfold bind, lift, ret in Hreq. rewrite Hop, Hc in Hreq.
  destruct (account_emits h (baseUrlOf c) operation) as [Ho Hi].
  match type of Hreq with
  | context [runPlan h ?p ?s] =>
      destruct (runPlan_emits (accountRequest (baseUrlOf c)) h p s) as (new & E & _ & F)
  end.
  - simpl. intros m Hm. destruct (DocRouterAccount.runOnce operation); [|discriminate].
    now inversion Hm; subst.
  - exact Hi.
  - rewrite Hreq, E. simpl. split; [exact F|].
    eapply Forall_impl; [|exact F].
    intros q (_ & _ & _ & rest & Hu). unfold isLookup.
    destruct Hu as [Hu | Hu]; rewrite Hu; reflexivity.
Qed.

(** X4.  The DocRouter node reads the organization once, at item 0, and
    every request of the run is a [POST] on the documents of that
    organization, at most one per input item. *)
Theorem X4_upload_requests (h : Host) (org : jsstring) (c : Credentials)
    (r : result (list INodeExecutionData)) (s' : ExecState) :
  getString h "operation" 0 None = inr (lit "upload") ->
  getString h "organizationId" 0 None = inr org ->
  getCredentials h orgApi = inr c ->
  executeOf Upload h start = (r, s') ->
  Forall (uploadRequest (baseUrlOf c) org) (requests s') /\
  length (requests s') <= length (getInputData h).
Proof.
  intros Hop Horg Hc Hex.
  pose proof (execute_requests Upload h) as Hreq. rewrite Hex in Hreq. simpl in Hreq.
  unfold bind, lift, ret in Hreq. rewrite Hop in Hreq. simpl in Hreq. rewrite Horg in Hreq.
  destruct (getString h "binaryPropertyName" 0 None) as [e | bp];
    [rewrite Hreq; split; [constructor | simpl; lia]|].
  destruct (getString h "documentName" 0 (Some [])) as [e | dn];
    [rewrite Hreq; split; [constructor | simpl; lia]|].
  destruct (getString h "tagIds" 0 (Some [])) as [e | tags];
    [rewrite Hreq; split; [constructor | simpl; lia]|].
  destruct (getJson h "metadata" 0 (Some (VObj []))) as [e | meta];
    [rewrite Hreq; split; [constructor | simpl; lia]|].
  rewrite Hc in Hreq.
  match type of Hreq with
  | context [runPlan h ?p ?s] =>
      destruct (runPlan_emits (uploadRequest (baseUrlOf c) org) h p s) as (new & E & L & F)
  end.
  - intros m Hm. discriminate.
  - intros i. apply upload_emits.
  - rewrite Hreq, E. simpl in *. split; assumption.
Qed.

(** ** Errors raised before a request *)


(** X6.  The LLM result update and delete need a prompt revision: with a
    blank one (empty, or whitespace only) the item fails before any
    request, and the error of the delete (and of the update, once its
    parameters are read and the result parsed) is "Prompt Revision ID is
    required for ...", carrying the item index. *)
Theorem X6_prompt_revision_required (h : Host) (baseUrl org : jsstring) (i : nat)
    (documentId rev : jsstring) :
  getString h "documentId" i None = inr documentId ->
  getString h "promptRevid" i (Some (lit "default")) = inr rev ->
  trim rev = [] ->
  (forall tr,
     DocRouterLLM.perItem h baseUrl org (lit "delete") i tr =
     (inl (NodeOperationError (lit "Prompt Revision ID is required for Delete.") (Some i)),
      tr)) /\
  (forall tr,
     (exists e, DocRouterLLM.perItem h baseUrl org (lit "update") i tr = (inl e, tr)) /\
     (forall p v verified,
        getJson h "updatedLlmResult" i None = inr p ->
        getBoolean h "isVerified" i (Some false) = inr verified ->
        parseIfString h p (lit "{}") = inr v ->
        DocRouterLLM.perItem h baseUrl org (lit "update") i tr =
        (inl (NodeOperationError (lit "Prompt Revision ID is required for Update.") (Some i)),
         tr))).
Proof.
  intros Hid Hrev Hblank. split.
  - intros tr. unfold DocRouterLLM.perItem, bind, lift. rewrite Hid, Hrev.
    simpl (_ === _). cbv iota. unfold DocRouterLLM.delete. rewrite Hblank. reflexivity.
  - intros tr. split.
    + unfold DocRouterLLM.perItem, bind at 1 2, lift. rewrite Hid, Hrev.
      simpl (_ === _). cbv iota. unfold DocRouterLLM.update, bind, lift.
      destruct (getJson h "updatedLlmResult" i None); [eexists; reflexivity|].
      destruct (getBoolean h "isVerified" i (Some false)); [eexists; reflexivity|].
      destruct (parseIfString h _ (lit "{}")); [eexists; reflexivity|].
      rewrite Hblank. eexists; reflexivity.
    + intros p v verified Hp Hv Hparse.
      unfold DocRouterLLM.perItem, bind at 1 2, lift. rewrite Hid, Hrev.
      simpl (_ === _). cbv iota. unfold DocRouterLLM.update, bind, lift.
      rewrite Hp, Hv, Hparse, Hblank. reflexivity.
Qed.

Lemma llm_block (h : Host) (baseUrl org operation : jsstring) (i : nat)
    (documentId rev : jsstring) :
  getString h "documentId" i None = inr documentId ->
  getString h "promptRevid" i (Some (lit "default")) = inr rev ->
  DocRouterLLM.perItem h baseUrl org operation i =
  if operation === lit "run" then DocRouterLLM.run h baseUrl org documentId rev i
  else if operation === lit "get" then DocRouterLLM.get h baseUrl org documentId rev i
  else if operation === lit "update" then DocRouterLLM.update h baseUrl org documentId rev i
  else if operation === lit "delete" then DocRouterLLM.delete h baseUrl org documentId rev i
  else if operation === customApiCall
  then throw (NodeOperationError DocRouterLLM.customMessage None)
  else throw (unknownOperation operation).
Proof.
  intros Hid Hrev. unfold DocRouterLLM.perItem, bind, lift. now rewrite Hid, Hrev.
Qed.

(** X7.  Every request of the LLM node carries a non-empty
    [prompt_revid] in its query: run and get fall back to "default" when
    the parameter is empty, update and delete send the trimmed parameter
    and are not issued when that is empty. *)
Theorem X7_prompt_revid_sent (h : Host) (baseUrl org operation : jsstring) (i : nat)
    (documentId rev : jsstring) (tr : trace) (q : Request) :
  getString h "documentId" i None = inr documentId ->
  getString h "promptRevid" i (Some (lit "default")) = inr rev ->
  snd (DocRouterLLM.perItem h baseUrl org operation i tr) = tr ++ [q] ->
  exists o v,
    qs q = Some o /\ obj_get o (lit "prompt_revid") = Some (VStr v) /\ v <> [] /\
    url q = lit "/v0/orgs/" ++ org ++
            (if (operation === lit "run") then lit "/llm/run/" else lit "/llm/result/")
            ++ documentId /\
    v = (if (operation === lit "run") || (operation === lit "get")
         then or_str rev (lit "default") else trim rev).
Proof.
  intros Hid Hrev. rewrite (llm_block h baseUrl org operation i documentId rev Hid Hrev).
  assert (Hd : or_str rev (lit "default") <> []) by (apply or_str_nonempty; discriminate).
  destruct (operation === lit "run") eqn:E1; [|destruct (operation === lit "get") eqn:E2;
    [|destruct (operation === lit "update") eqn:E3;
      [|destruct (operation === lit "delete") eqn:E4]]].
  - unfold DocRouterLLM.run, bind, lift.
    destruct (getBoolean h "force" i (Some false));
      [simpl; intros H; now elim (app_one_neq tr q)|].
    unfold httpRequestWithAuthentication. simpl. intros H. apply app_one_inv in H. subst q.
    eexists. eexists. repeat split; try reflexivity. assumption.
  - unfold DocRouterLLM.get, bind, lift.
    destruct (getBoolean h "fallback" i (Some false));
      [simpl; intros H; now elim (app_one_neq tr q)|].
    unfold httpRequestWithAuthentication. simpl. intros H. apply app_one_inv in H. subst q.
    eexists. eexists. repeat split; try reflexivity. assumption.
  - unfold DocRouterLLM.update, bind, lift.
    destruct (getJson h "updatedLlmResult" i None);
      [simpl; intros H; now elim (app_one_neq tr q)|].
    destruct (getBoolean h "isVerified" i (Some false));
      [simpl; intros H; now elim (app_one_neq tr q)|].
    destruct (parseIfString h _ (lit "{}"));
      [simpl; intros H; now elim (app_one_neq tr q)|].
    destruct (nonempty (trim rev)) eqn:Hne;
      [|simpl; intros H; now elim (app_one_neq tr q)].
    unfold httpRequestWithAuthentication. simpl. intros H. apply app_one_inv in H. subst q.
    eexists. eexists. repeat split; try reflexivity. now apply nonempty_true.
  - unfold DocRouterLLM.delete.
    destruct (nonempty (trim rev)) eqn:Hne;
      [|simpl; intros H; now elim (app_one_neq tr q)].
    unfold bind, httpRequestWithAuthentication, ret. simpl.
    match goal with |- context [remote ?a ?b ?c] => destruct (remote a b c) end;
      simpl; intros H; apply app_one_inv in H; subst q;
      eexists; eexists; (repeat split; try reflexivity); now apply nonempty_true.
  - destruct (operation === customApiCall); simpl; intros H; now elim (app_one_neq tr q).
Qed.

(** ** Whole runs: failures outside the loop, empty batches, entries *)

(** X8.  A run-once operation yields the single entry of its answer; when
    it fails, the failure is reported as one error entry paired with item
    0 if the run continues on failure, and is re-thrown unchanged, without
    an item index, otherwise. *)
Theorem X8_run_once_outcome (n : Node) (h : Host) (p : Plan) (tr0 : trace)
    (m : M trace value) :
  preludeOf n h [] = (inr p, tr0) ->
  planOnce p = Some m ->
  executeOf n h start =
  match m tr0 with
  | (inr v, tr1) =>
      (inr [okEntry v 0], {| requests := tr1; returnData := [okEntry v 0] |})
  | (inl e, tr1) =>
      if continueOnFail h
      then (inr [errorEntry h e 0], {| requests := tr1; returnData := [errorEntry h e 0] |})
      else (inl e, {| requests := tr1; returnData := [] |})
  end.
Proof.
  intros Hp Ho. rewrite execute_shape. unfold bind at 1. rewrite liftReq_run. simpl.
  rewrite Hp. simpl. unfold runPlan. rewrite Ho.
  unfold runOnceBlock, return_returnData, try_catch, bind, liftReq, handleError, push, throw.
  simpl. destruct (m tr0) as [[e | v] tr1]; simpl; [|reflexivity].
  now destruct (continueOnFail h).
Qed.

(** X9.  A failure of the opening part is never turned into an error
    entry: when the credentials cannot be read, or the token lookup
    itself fails, the run throws that error whatever the
    continue-on-failure setting, and nothing but the lookup was issued. *)
Theorem X9_opening_failure_aborts (n : Node) (h : Host) (operation : jsstring) :
  resolvesOrganization n = true ->
  getString h "operation" 0 None = inr operation ->
  (forall e, getCredentials h orgApi = inl e -> executeOf n h start = (inl e, start)) /\
  (forall c e,
     getCredentials h orgApi = inr c ->
     remote h [] (lookupRequest (baseUrlOf c) (apiToken c)) = inl e ->
     executeOf n h start =
     (inl e, {| requests := [lookupRequest (baseUrlOf c) (apiToken c)];
                returnData := [] |})).
Proof.
  intros Hn Hop. split.
  - intros e He. rewrite execute_shape. unfold bind at 1. rewrite liftReq_run. simpl.
    rewrite (org_prelude_eq n h Hn). unfold bind, lift. now rewrite Hop, He.
  - intros c e Hc He. rewrite execute_shape. unfold bind at 1. rewrite liftReq_run. simpl.
    rewrite (org_prelude n h operation c Hn Hop Hc). cbv zeta. now rewrite He.
Qed.

(** X10.  With no input item, a per-item operation returns an empty
    output and touches no resource: only the token lookup is issued.
    This holds for any operation name that is not run once, declared or
    not. *)
Theorem X10_empty_batch (n : Node) (h : Host) (operation : jsstring) (c : Credentials) :
  getInputData h = [] ->
  getString h "operation" 0 None = inr operation ->
  isRunOnce n operation = false ->
  getCredentials h (credentialOf n) = inr c ->
  (n = Account -> executeOf n h start = (inr [], start)) /\
  (resolvesOrganization n = true ->
   forall resp,
     remote h [] (lookupRequest (baseUrlOf c) (apiToken c)) = inr resp ->
     truthy (get_prop resp (lit "organization_id")) = true ->
     executeOf n h start =
     (inr [], {| requests := [lookupRequest (baseUrlOf c) (apiToken c)];
                 returnData := [] |})).
Proof.
  intros Hitems Hop Honce Hc. split.
  - intros ->. simpl in Hc, Honce. unfold executeOf, DocRouterAccount.execute, bind, lift.
    rewrite Hop, Hc, Honce, Hitems. reflexivity.
  - intros Hn resp Hresp Ht.
    assert (Hc' : getCredentials h orgApi = inr c) by (destruct n; try discriminate; exact Hc).
    rewrite execute_shape. unfold bind at 1. rewrite liftReq_run. simpl.
    rewrite (org_prelude n h operation c Hn Hop Hc'). cbv zeta. rewrite Hresp, Ht.
    simpl. unfold runPlan.
    assert (Hnone : planOnce (orgPlan n h (baseUrlOf c)
                      (String_of (Number_toString h) (get_prop resp (lit "organization_id")))
                      operation) = None).
    { destruct n; try discriminate; simpl in *.
      - now rewrite Honce.
      - now rewrite Honce.
      - apply orb_false_iff in Honce. destruct Honce as [H1 H3].
        apply orb_false_iff in H1. destruct H1 as [H1 H2]. now rewrite H1, H2, H3.
      - reflexivity.
      - now rewrite Honce. }
    rewrite Hnone, Hitems. reflexivity.
Qed.

Lemma entryOf_wellFormed (h : Host) (r : result value) (i : nat) :
  wellFormedEntry h (entryOf h r i).
Proof.
  destruct r as [e | v]; unfold wellFormedEntry; simpl.
  - split; [reflexivity|]. split; [reflexivity|]. split; [eauto|]. split.
    + destruct (isNodeOperationError e) eqn:E; [exact E | reflexivity].
    + exists e. split; reflexivity.
  - split; [|repeat split; eauto].
    unfold nullish_or. destruct (nullish v) eqn:E; [reflexivity | exact E].
Qed.

Lemma itemStep_entry h a body i s s' :
  itemStep h a body i s = (inr tt, s') ->
  exists r, returnData s' = returnData s ++ [entryOf h r i].
Proof.
  destruct (fst (body i (requests s))) as [e | v] eqn:Hb.
  - destruct (continueOnFail h) eqn:Hc.
    + rewrite itemStep_continue by assumption. rewrite Hb. intros H.
      inversion H; subst; clear H. now exists (inl e).
    + rewrite (itemStep_abort _ _ _ _ _ e) by assumption. discriminate.
  - rewrite (itemStep_ok _ _ _ _ _ v) by assumption. intros H.
    inversion H; subst; clear H. now exists (inr v).
Qed.

Lemma loop_entries h a body n : forall i s s',
  for_loop n i (itemStep h a body) s = (inr tt, s') ->
  exists l, returnData s' = returnData s ++ l /\ Forall (wellFormedEntry h) l.
Proof.
  induction n; intros i s s' H; simpl in H.
  - inversion H; subst. exists []. rewrite app_nil_r. split; [reflexivity | constructor].
  - apply bind_inr in H. destruct H as ([] & s1 & H1 & H2).
    apply itemStep_entry in H1. destruct H1 as (r & Hd).
    apply IHn in H2. destruct H2 as (l & Hl & F).
    exists (entryOf h r i :: l). rewrite Hl, Hd, <- app_assoc. split; [reflexivity|].
    constructor; [apply entryOf_wellFormed | assumption].
Qed.

(** X11.  Every entry of the output of a run has a [json] that is not
    null, no binary data and a paired item; an entry that carries an
    [error] carries a [NodeOperationError] (the caught error itself when
    it is one, the caught error wrapped by the library otherwise), and its
    [json] is [{ error: message }] for the message of the caught error,
    which the message of a wrapping error need not repeat. *)
Theorem X11_entries_well_formed (n : Node) (h : Host) (out : list INodeExecutionData)
    (s' : ExecState) :
  executeOf n h start = (inr out, s') ->
  Forall (wellFormedEntry h) out.
Proof.
  intros Hex. rewrite execute_shape in Hex.
  apply bind_inr in Hex. destruct Hex as (p & s1 & Hpre & Hrun).
  rewrite liftReq_run in Hpre. simpl in Hpre.
  destruct (preludeOf n h []) as [rp tr0]. simpl in Hpre.
  inversion Hpre; subst; clear Hpre.
  unfold runPlan in Hrun. destruct (planOnce p) as [m|].
  - unfold runOnceBlock, return_returnData, try_catch, bind, liftReq, handleError,
      push, throw in Hrun. simpl in Hrun.
    destruct (m tr0) as [[e | v] tr1]; simpl in Hrun.
    + destruct (continueOnFail h); inversion Hrun; subst.
      constructor; [apply (entryOf_wellFormed h (inl e) 0) | constructor].
    + inversion Hrun; subst.
      constructor; [apply (entryOf_wellFormed h (inr v) 0) | constructor].
  - apply bind_inr in Hrun. destruct Hrun as ([] & s2 & Hloop & Hret).
    apply loop_entries in Hloop. destruct Hloop as (l & Hl & F).
    unfold return_returnData in Hret. inversion Hret; subst; clear Hret.
    rewrite Hl. exact F.
Qed.

(** ** Tag IDs, queries and bodies *)

Lemma split_comma_app (p rest : jsstring) :
  ~ In comma p -> split_comma (p ++ comma :: rest) = p :: split_comma rest.
Proof.
  induction p as [|c p IH]; simpl; intros H.
  - reflexivity.
  - destruct (N.eqb c comma) eqn:E.
    + apply N.eqb_eq in E. elim H. now left.
    + rewrite IH; [reflexivity|]. intros Hp. apply H. now right.
Qed.

Lemma split_join_comma (ts : list jsstring) :
  ts <> [] -> Forall (fun t => ~ In comma t) ts -> split_comma (join_comma ts) = ts.
Proof.
  induction ts as [|p ts IH]; intros Hne F; [contradiction|].
  inversion F; subst. destruct ts as [|q ts].
  - simpl. now apply split_comma_single.
  - change (join_comma (p :: q :: ts)) with (p ++ comma :: join_comma (q :: ts)).
    rewrite split_comma_app by assumption. f_equal. apply IH; [discriminate | assumption].
Qed.

(** X12.  Normalizing is stable: joining the tokens of a tag-ID string
    with commas and normalizing again gives the same tokens. *)
Theorem X12_tokens_round_trip (s : jsstring) :
  split_trim_filter (join_comma (split_trim_filter s)) = split_trim_filter s.
Proof.
  pose proof (split_trim_filter_clean s) as F.
  destruct (split_trim_filter s) as [|t ts] eqn:E; [reflexivity|].
  unfold split_trim_filter at 1.
  rewrite split_join_comma.
  - assert (Hm : map trim (t :: ts) = t :: ts).
    { clear E. induction F as [|x l Hx _ IH]; [reflexivity|]. simpl.
      destruct Hx as (_ & _ & Hx). now rewrite Hx, IH. }
    rewrite Hm. clear Hm E.
    induction F as [|x l Hx _ IH]; [reflexivity|]. simpl.
    destruct Hx as (Hx & _ & _). apply nonempty_true in Hx. now rewrite Hx, IH.
  - discriminate.
  - eapply Forall_impl; [|exact F]. intros a (_ & Ha & _). exact Ha.
Qed.

(** X13.  The document listing always sends [limit] and [skip]; each of
    [tag_ids], [name_search] and [metadata_search] is in the query exactly
    when its parameter is not the empty string, with the parameter as it
    is (not trimmed).  The request is a [GET] without body. *)
Theorem X13_document_list_query (h : Host) (baseUrl org : jsstring)
    (limit skip : number) (f ns ms : jsstring) (tr : trace) (q : Request) :
  getNumber h "limit" 0 (Some (num 10)) = inr limit ->
  getNumber h "skip" 0 (Some (num 0)) = inr skip ->
  getString h "filterTagIds" 0 (Some []) = inr f ->
  getString h "nameSearch" 0 (Some []) = inr ns ->
  getString h "metadataSearch" 0 (Some []) = inr ms ->
  snd (DocRouterDocument.listOnce h baseUrl org tr) = tr ++ [q] ->
  method q = GET /\ body q = None /\
  url q = lit "/v0/orgs/" ++ org ++ lit "/documents" /\
  exists o,
    qs q = Some o /\
    obj_get o (lit "limit") = Some (VNum limit) /\
    obj_get o (lit "skip") = Some (VNum skip) /\
    obj_get o (lit "tag_ids") = (if nonempty f then Some (VStr f) else None) /\
    obj_get o (lit "name_search") = (if nonempty ns then Some (VStr ns) else None) /\
    obj_get o (lit "metadata_search") = (if nonempty ms then Some (VStr ms) else None).
Proof.
  intros H1 H2 H3 H4 H5. unfold DocRouterDocument.listOnce, bind, lift.
  rewrite H1, H2, H3, H4, H5. unfold httpRequestWithAuthentication. simpl.
  intros H. apply app_one_inv in H. subst q. simpl.
  repeat split. eexists. split; [reflexivity|].
  destruct (nonempty f); destruct (nonempty ns); destruct (nonempty ms);
    repeat split; reflexivity.
Qed.



(** X16.  The members of an organization update: text that is blank is
    left out of the body; otherwise the trimmed text is parsed and
    whatever JSON value it denotes (an array or not) is sent as
    [members]; when it does not parse, the item fails before any request
    with "Members must be a valid JSON array" in place of the parser's
    message. *)
Theorem X16_members (h : Host) (baseUrl : jsstring) (i : nat)
    (organizationId name type members : jsstring) (tr : trace) :
  getString h "organizationId" i None = inr organizationId ->
  getString h "orgNameUpdate" i (Some []) = inr name ->
  getString h "orgTypeUpdate" i (Some []) = inr type ->
  getString h "members" i (Some []) = inr members ->
  (trim members = [] ->
   exists b q,
     snd (DocRouterAccount.updateOrganization h baseUrl i tr) = tr ++ [q] /\
     body q = Some (VObj b) /\ obj_get b (lit "members") = None) /\
  (forall v,
     trim members <> [] -> JSON_parse h (trim members) = inr v ->
     exists b q,
       snd (DocRouterAccount.updateOrganization h baseUrl i tr) = tr ++ [q] /\
       body q = Some (VObj b) /\ obj_get b (lit "members") = Some v) /\
  (forall e,
     trim members <> [] -> JSON_parse h (trim members) = inl e ->
     DocRouterAccount.updateOrganization h baseUrl i tr =
     (inl (NodeOperationError (lit "Members must be a valid JSON array") None), tr)).
Proof.
  intros H1 H2 H3 H4.
  assert (Hrun : DocRouterAccount.updateOrganization h baseUrl i tr =
            match DocRouterAccount.updateOrganizationBody h (nodeParameters h)
                    name type members with
            | inl e => (inl e, tr)
            | inr b =>
                httpRequestWithAuthentication h
                  (mkRequest DocRouterAccount.accountApi PUT baseUrl
                     (lit "/v0/account/organizations/" ++ trim organizationId)
                     None (Some (VObj b))) tr
            end).
  { unfold DocRouterAccount.updateOrganization, bind, lift. rewrite H1, H2, H3, H4.
    now destruct (DocRouterAccount.updateOrganizationBody _ _ _ _ _). }
  rewrite Hrun. unfold DocRouterAccount.updateOrganizationBody.
  split; [|split].
  - intros Hb. rewrite Hb. rewrite andb_false_r.
    eexists. eexists. split; [reflexivity|]. split; [reflexivity|].
    destruct (nonempty name); destruct (DocRouterAccount.present _ _); reflexivity.
  - intros v Hne Hv.
    assert (Hm : nonempty members = true).
    { destruct members; [now elim Hne | reflexivity]. }
    apply nonempty_true in Hne. rewrite Hm, Hne, Hv. simpl.
    eexists. eexists. split; [reflexivity|]. split; [reflexivity|].
    apply obj_get_set_same.
  - intros e Hne He.
    assert (Hm : nonempty members = true).
    { destruct members; [now elim Hne | reflexivity]. }
    apply nonempty_true in Hne. now rewrite Hm, Hne, He.
Qed.

(** X17.  The base URL a node uses is the trimmed [baseUrl] of the
    credentials, or the public endpoint when that is missing or blank; it
    is never empty and has no surrounding whitespace. *)
Theorem X17_base_url (c : Credentials) :
  baseUrlOf c <> [] /\
  trim (baseUrlOf c) = baseUrlOf c /\
  (forall u, cred_baseUrl c = Some u -> trim u <> [] -> baseUrlOf c = trim u) /\
  ((cred_baseUrl c = None \/ exists u, cred_baseUrl c = Some u /\ trim u = []) ->
   baseUrlOf c = lit "https://app.docrouter.ai/fastapi").
Proof.
  unfold baseUrlOf. split; [apply or_str_nonempty; discriminate|]. split; [|split].
  - destruct (cred_baseUrl c) as [u|]; [|reflexivity].
    unfold or_str. destruct (trim u) as [|x r] eqn:E; [reflexivity|].
    simpl. rewrite <- E. apply trim_idem.
  - intros u -> Hne. now apply or_str_left.
  - intros [-> | (u & -> & ->)]; reflexivity.
Qed.

Lemma loop_all_return h a body n : forall i s,
  allReturn n i body (requests s) ->
  for_loop n i (itemStep h a body) s =
  (inr tt, {| requests := traceAfter n i body (requests s);
              returnData := returnData s ++ entriesFrom h n i body (requests s) |}).
Proof.
  induction n; intros i s Hall; simpl.
  - unfold ret. rewrite app_nil_r. now destruct s.
  - apply allReturn_step in Hall. destruct Hall as [[v Hv] Hall].
    rewrite (bind_ok _ _ _ _ _ (itemStep_ok h a body i s v Hv)).
    rewrite IHn by exact Hall. simpl. now rewrite Hv, <- app_assoc.
Qed.

(** X18.  The continue-on-failure setting only matters when an item
    fails: if the [try] block of every item returns, the run returns one
    normal entry per item, in input order, whatever the setting. *)
Theorem X18_no_failure_no_policy (n : Node) (h : Host) (p : Plan) (tr0 : trace) :
  preludeOf n h [] = (inr p, tr0) ->
  planOnce p = None ->
  allReturn (length (getInputData h)) 0 (planItem p) tr0 ->
  exists out s',
    executeOf n h start = (inr out, s') /\
    length out = length (getInputData h) /\
    Forall (fun e => error e = None) out /\
    forall i v, i < length (getInputData h) ->
      fst (planItem p i (traceAfter i 0 (planItem p) tr0)) = inr v ->
      nth_error out i = Some (okEntry v i).
Proof.
  intros Hp Ho Hall. eexists. eexists. split.
  - rewrite execute_shape. unfold bind at 1. rewrite liftReq_run. simpl.
    rewrite Hp. simpl. unfold runPlan. rewrite Ho. unfold bind.
    rewrite (loop_all_return h (planAnnotates p) (planItem p) _ 0
               {| requests := tr0; returnData := [] |} Hall).
    simpl. reflexivity.
  - simpl. split; [apply entriesFrom_length|]. split.
    + apply Forall_forall. intros e He. apply In_nth_error in He. destruct He as [k Hk].
      assert (Hlt : k < length (getInputData h)).
      { rewrite <- (entriesFrom_length h (length (getInputData h)) 0 (planItem p) tr0).
        apply nth_error_Some. congruence. }
      rewrite entriesFrom_nth in Hk by assumption.
      destruct (Hall k Hlt) as [v Hv]. rewrite Hv in Hk. inversion Hk; subst. reflexivity.
    + intros i v Hi Hv. rewrite entriesFrom_nth by assumption. simpl. now rewrite Hv.
Qed.

(** X19.  A knowledge base search always sends the trimmed query, [top_k]
    and [skip]; [metadata_filter] is in the body only when the filter has
    at least one key, and [coalesce_neighbors] only when that node
    parameter is set. *)
Theorem X19_search_body (h : Host) (baseUrl org : jsstring)
    (kbId query : jsstring) (topK skip : number) (p filter : value) (keys : nat)
    (tr : trace) (q : Request) :
  getString h "kbId" 0 None = inr kbId ->
  getString h "searchQuery" 0 None = inr query ->
  getNumber h "topK" 0 (Some (num 5)) = inr topK ->
  getNumber h "searchSkip" 0 (Some (num 0)) = inr skip ->
  getJson h "metadataFilter" 0 (Some (VStr (lit "{}"))) = inr p ->
  parseIfString h p (lit "{}") = inr filter ->
  Object_keys_length filter = inr keys ->
  snd (DocRouterKnowledgeBase.search h baseUrl org tr) = tr ++ [q] ->
  method q = POST /\
  exists b,
    body q = Some (VObj b) /\
    obj_get b (lit "query") = Some (VStr (trim query)) /\
    obj_get b (lit "top_k") = Some (VNum topK) /\
    obj_get b (lit "skip") = Some (VNum skip) /\
    obj_get b (lit "metadata_filter") =
      match keys with O => None | _ => Some filter end /\
    obj_get b (lit "coalesce_neighbors") =
      (if obj_has (nodeParameters h) (lit "coalesceNeighborsSearch")
          && negb (nullish (obj_prop (nodeParameters h) (lit "coalesceNeighborsSearch")))
       then Some (obj_prop (nodeParameters h) (lit "coalesceNeighborsSearch"))
       else None).
Proof.
  intros H1 H2 H3 H4 H5 H6 H7.
  unfold DocRouterKnowledgeBase.search, bind, lift.
  rewrite H1, H2, H3, H4, H5, H6, H7.
  unfold httpRequestWithAuthentication. simpl. intros H. apply app_one_inv in H. subst q.
  simpl. split; [reflexivity|]. eexists. split; [reflexivity|].
  unfold DocRouterKnowledgeBase.optionalParam.
  destruct (obj_has (nodeParameters h) (lit "coalesceNeighborsSearch")
            && negb (nullish (obj_prop (nodeParameters h) (lit "coalesceNeighborsSearch"))))
    eqn:E.
  - assert (Hn : nullish (obj_prop (nodeParameters h) (lit "coalesceNeighborsSearch")) = false).
    { apply andb_true_iff in E. destruct E as [_ E]. now apply negb_true_iff in E. }
    rewrite Hn. destruct keys; repeat split; reflexivity.
  - destruct keys; repeat split; reflexivity.
Qed.

(** * Single items in whole runs *)

(** ** A reached item issues its requests *)

Lemma loop_reaches h a body :
  (forall i, emits (fun _ => True) 1 (body i)) ->
  forall j n i s,
    j < n ->
    continueOnFail h = true \/ allReturn j i body (requests s) ->
    exists after,
      requests (snd (for_loop n i (itemStep h a body) s)) =
      snd (body (i + j) (traceAfter j i body (requests s))) ++ after.
Proof.
  intros Hb. induction j; intros n i s Hn Hr.
  - destruct n; [lia|]. simpl traceAfter. rewrite Nat.add_0_r. simpl for_loop.
    unfold bind. pose proof (itemStep_requests h a body i s) as Hq.
    destruct (itemStep h a body i s) as [[e | []] s1]; simpl in *.
    + exists []. now rewrite app_nil_r.
    + destruct (loop_emits _ h a body Hb n (S i) s1) as (new & E & _ & _).
      exists new. now rewrite E, Hq.
  - destruct n; [lia|]. simpl for_loop. simpl traceAfter. rewrite Nat.add_succ_r.
    assert (Hstep : exists s1, itemStep h a body i s = (inr tt, s1) /\
                      requests s1 = snd (body i (requests s)) /\
                      (continueOnFail h = true \/ allReturn j (S i) body (requests s1))).
    { destruct Hr as [Hc | Hall].
      - eexists. split; [apply itemStep_continue; exact Hc|]. split; [reflexivity|].
        now left.
      - apply allReturn_step in Hall. destruct Hall as [[v Hv] Hall].
        eexists. split; [apply (itemStep_ok h a body i s v Hv)|].
        split; [reflexivity|]. now right. }
    destruct Hstep as (s1 & Hs1 & Hq & Hr1).
    rewrite (bind_ok _ _ _ _ _ Hs1).
    destruct (IHj n (S i) s1 ltac:(lia) Hr1) as (after & E).
    exists after. rewrite E, Hq. reflexivity.
Qed.

Lemma execute_reaches (n : Node) (h : Host) (p : Plan) (tr0 : trace) (j : nat) :
  preludeOf n h [] = (inr p, tr0) ->
  planOnce p = None ->
  j < length (getInputData h) ->
  reached h (planItem p) tr0 j ->
  exists after,
    requests (snd (executeOf n h start)) =
    snd (planItem p j (traceAfter j 0 (planItem p) tr0)) ++ after.
Proof.
  intros Hp Ho Hj Hr. rewrite execute_requests, Hp. unfold runPlan. rewrite Ho.
  destruct (prelude_emits n h _ _ Hp) as [_ Hb]. destruct (Hb p eq_refl) as [_ Hi].
  destruct (loop_reaches h (planAnnotates p) (planItem p) Hi j (length (getInputData h)) 0
              {| requests := tr0; returnData := [] |} Hj Hr) as (after & E).
  exists after. simpl in E. rewrite <- E. unfold bind, return_returnData.
  now destruct (for_loop _ _ _ _) as [[e | []] s1].
Qed.

(** A run whose items all return, or that continues on failure, returns
    the entries of its items. *)
Lemma execute_returns (n : Node) (h : Host) (p : Plan) (tr0 : trace) :
  preludeOf n h [] = (inr p, tr0) ->
  planOnce p = None ->
  reached h (planItem p) tr0 (length (getInputData h)) ->
  executeOf n h start =
  (inr (entriesFrom h (length (getInputData h)) 0 (planItem p) tr0),
   {| requests := traceAfter (length (getInputData h)) 0 (planItem p) tr0;
      returnData := entriesFrom h (length (getInputData h)) 0 (planItem p) tr0 |}).
Proof.
  intros Hp Ho Hr. rewrite execute_shape. unfold bind at 1. rewrite liftReq_run. simpl.
  rewrite Hp. simpl. unfold runPlan. rewrite Ho. unfold bind.
  destruct Hr as [Hc | Hall].
  - rewrite loop_continue by assumption. reflexivity.
  - rewrite (loop_all_return h (planAnnotates p) (planItem p) _ 0
               {| requests := tr0; returnData := [] |} Hall).
    reflexivity.
Qed.

(** When every turn issues exactly one request, the requests of the loop
    line up with the items. *)
Lemma traceAfter_nth (body : nat -> M trace value) (R : nat -> Request -> Prop) n :
  forall i tr,
    (forall k tr, i <= k < i + n -> exists q, snd (body k tr) = tr ++ [q] /\ R k q) ->
    exists new,
      traceAfter n i body tr = tr ++ new /\ length new = n /\
      forall k, k < n -> exists q, nth_error new k = Some q /\ R (i + k) q.
Proof.
  induction n; intros i tr H; simpl.
  - exists []. rewrite app_nil_r. repeat split. intros k Hk. lia.
  - destruct (H i tr ltac:(lia)) as (q & Eq & Rq).
    destruct (IHn (S i) (snd (body i tr))) as (new & En & Ln & Hn).
    { intros k tr' Hk. apply H. lia. }
    exists (q :: new). rewrite En, Eq, <- app_assoc. simpl.
    split; [reflexivity|]. split; [now rewrite Ln|].
    intros [|k] Hk.
    + exists q. rewrite Nat.add_0_r. now split.
    + destruct (Hn k ltac:(lia)) as (q' & E' & R'). exists q'.
      rewrite Nat.add_succ_r. now split.
Qed.

(** The plan that the opening part of a per-organization node or of the
    Account node leaves. *)
Lemma opens_prelude (n : Node) (h : Host) (c : Credentials) (org operation : jsstring) :
  n <> Upload ->
  getString h "operation" 0 None = inr operation ->
  opens n h c org ->
  exists p,
    preludeOf n h [] = (inr p, openingRequests n c) /\
    (match planOnce p with Some _ => true | None => false end) = isRunOnce n operation /\
    planItem p =
      match n with
      | Account => DocRouterAccount.perItem h (baseUrlOf c) operation
      | _ => planItem (orgPlan n h (baseUrlOf c) org operation)
      end.
Proof.
  intros Hn Hop [Hc Hl].
  destruct (resolvesOrganization n) eqn:Hres.
  - destruct (Hl eq_refl) as (resp & Hresp & Ht & Horg).
    assert (Hc' : getCredentials h orgApi = inr c) by (destruct n; try discriminate; exact Hc).
    pose proof (org_prelude n h operation c Hres Hop Hc') as Hp.
    cbv zeta in Hp. rewrite Hresp, Ht in Hp. rewrite <- Horg in Hp.
    eexists. split; [unfold openingRequests; rewrite Hres; exact Hp|].
    destruct (prelude_inv _ _ _ _ _ Hp) as (op' & Hop' & Honce & _).
    rewrite Hop in Hop'. inversion Hop'; subst op'.
    split; [exact Honce|]. destruct n; try discriminate; reflexivity.
  - destruct n; try discriminate; [|now elim Hn].
    simpl in Hc. simpl preludeOf. unfold bind, lift, ret. rewrite Hop, Hc.
    eexists. split; [reflexivity|]. simpl.
    split; [now destruct (DocRouterAccount.runOnce operation) | reflexivity].
Qed.

(** The plan of a per-organization node, read back from its opening part. *)
Lemma org_plan (n : Node) (h : Host) (p : Plan) (tr0 : trace) (operation : jsstring) :
  resolvesOrganization n = true ->
  getString h "operation" 0 None = inr operation ->
  preludeOf n h [] = (inr p, tr0) ->
  exists baseUrl org, p = orgPlan n h baseUrl org operation.
Proof.
  intros Hn Hop. rewrite (org_prelude_eq n h Hn). unfold bind, lift, ret.
  rewrite Hop.
  destruct (getCredentials h orgApi) as [e | c]; [discriminate|].
  destruct (lookupOrganization _ _ _ _ []) as [[e | org] tr1]; [discriminate|].
  intros H. inversion H; subst. now exists (baseUrlOf c), org.
Qed.

(** The plan of the Account node. *)
Lemma account_plan (h : Host) (p : Plan) (tr0 : trace) (operation : jsstring) :
  getString h "operation" 0 None = inr operation ->
  preludeOf Account h [] = (inr p, tr0) ->
  exists baseUrl,
    planOnce p = (if DocRouterAccount.runOnce operation
                  then Some (DocRouterAccount.once h baseUrl operation) else None) /\
    planItem p = DocRouterAccount.perItem h baseUrl operation /\
    planAnnotates p = false.
Proof.
  intros Hop. simpl preludeOf. unfold bind, lift, ret. rewrite Hop.
  destruct (getCredentials h DocRouterAccount.accountApi) as [e | c]; [discriminate|].
  intros H. inversion H; subst. now exists (baseUrlOf c).
Qed.

(** ** C9: the confirmation of a delete *)

Lemma delete_run (d : DeleteOp) (h : Host) (baseUrl org : jsstring) (k : nat)
    (id : jsstring) (tr : trace) :
  deleteReads d h k id ->
  (forall q, method q = DELETE -> exists resp, remote h tr q = inr resp) ->
  exists q extra,
    deleteBlock d h baseUrl org k tr =
      (inr (VObj ((lit "success", VBool true) :: (idProperty d, VStr (idUsed d id)) :: extra)),
       tr ++ [q]) /\
    method q = DELETE /\
    baseURL q = baseUrl /\
    url q = deleteUrl d org (idUsed d id).
Proof.
  intros [Hid Hrev] Hremote.
  destruct d; simpl in Hid; simpl deleteBlock.
  1-4,6-7:
    cbv [DocRouterDocument.perItem DocRouterTag.perItem DocRouterSchema.perItem
         DocRouterKnowledgeBase.perItem DocRouterAccount.perItem];
    simpl (_ === _);
    cbv [DocRouterDocument.delete DocRouterTag.delete DocRouterSchema.delete
         DocRouterKnowledgeBase.delete DocRouterAccount.deleteUser
         DocRouterAccount.deleteOrganization];
    unfold bind, lift, httpRequestWithAuthentication, ret; rewrite Hid;
    match goal with
    | |- context [remote _ _ ?q] =>
        destruct (Hremote q eq_refl) as [resp Hresp]; rewrite Hresp;
        exists q, []; simpl;
        unfold DocRouterKnowledgeBase.kbUrl; rewrite <- ?app_assoc; repeat split
    end.
  destruct (Hrev eq_refl) as (rev & Hr & Hne).
  unfold DocRouterLLM.perItem. unfold bind at 1, lift at 1. rewrite Hid.
  unfold bind at 1, lift at 1. rewrite Hr. simpl (_ === _).
  cbv iota. unfold DocRouterLLM.delete.
  apply nonempty_true in Hne. rewrite Hne. simpl negb. cbv iota.
  unfold bind, httpRequestWithAuthentication, ret. cbn beta iota delta [negb].
  match goal with
  | |- context [remote _ _ ?q] =>
      destruct (Hremote q eq_refl) as [resp Hresp]; rewrite Hresp;
      exists q; eexists; simpl; repeat split
  end.
Qed.

(** C9.  A run of a delete operation over a batch whose identifiers can
    be read, against a remote that answers each [DELETE] (with whatever
    body, an empty one included), returns one entry per item: the entry
    of item [k] is the confirmation [{ success: true, <id property>: <id>,
    ... }] built by the node for the identifier of item [k], never an
    empty object, and the [DELETE] request of that item addresses the
    resource with that identifier. *)
Theorem C9_delete_confirmation (d : DeleteOp) (h : Host) (c : Credentials)
    (org : jsstring) :
  getString h "operation" 0 None = inr (operationOf d) ->
  opens (nodeOf d) h c org ->
  (forall k, k < length (getInputData h) -> exists id, deleteReads d h k id) ->
  (forall tr q, method q = DELETE -> exists resp, remote h tr q = inr resp) ->
  exists out s' deletes,
    executeOf (nodeOf d) h start = (inr out, s') /\
    requests s' = openingRequests (nodeOf d) c ++ deletes /\
    length out = length (getInputData h) /\
    length deletes = length (getInputData h) /\
    forall k id,
      k < length (getInputData h) ->
      getString h (idParameter d) k None = inr id ->
      exists q extra,
        nth_error deletes k = Some q /\
        method q = DELETE /\
        baseURL q = baseUrlOf c /\
        url q = deleteUrl d org (idUsed d id) /\
        nth_error out k =
          Some {| json := VObj ((lit "success", VBool true) ::
                                (idProperty d, VStr (idUsed d id)) :: extra);
                  binary := None;
                  pairedItem := Some k;
                  error := None |}.
Proof.
  intros Hop Hopen Hreads Hremote.
  destruct (opens_prelude (nodeOf d) h c org (operationOf d)
              ltac:(destruct d; discriminate) Hop Hopen) as (p & Hp & Honce & Hitem).
  assert (Ho : planOnce p = None).
  { destruct (planOnce p); [|reflexivity].
    destruct d; vm_compute in Honce; discriminate. }
  assert (Hbody : planItem p = deleteBlock d h (baseUrlOf c) org).
  { rewrite Hitem. destruct d; reflexivity. }
  set (len := length (getInputData h)) in *.
  assert (Hall : allReturn len 0 (planItem p) (openingRequests (nodeOf d) c)).
  { intros k Hk. destruct (Hreads k Hk) as [id Hid]. rewrite Hbody. simpl.
    match goal with
    | |- context [deleteBlock d h ?b ?o k ?tr] =>
        destruct (delete_run d h b o k id tr Hid (Hremote tr)) as (q & extra & E & _)
    end.
    rewrite E. eexists. reflexivity. }
  pose proof (execute_returns (nodeOf d) h p _ Hp Ho (or_intror Hall)) as Hex.
  fold len in Hex.
  destruct (traceAfter_nth (planItem p)
              (fun k q => forall id, getString h (idParameter d) k None = inr id ->
                 method q = DELETE /\ baseURL q = baseUrlOf c /\
                 url q = deleteUrl d org (idUsed d id))
              len 0 (openingRequests (nodeOf d) c)) as (deletes & Etr & Hlen & Hnth).
  { intros k tr Hk. destruct (Hreads k ltac:(lia)) as [id Hid]. rewrite Hbody.
    destruct (delete_run d h (baseUrlOf c) org k id tr Hid (Hremote tr))
      as (q & extra & E & Hm & Hb & Hu).
    exists q. rewrite E. split; [reflexivity|].
    intros id' Hid'. destruct Hid as [Hid _]. rewrite Hid in Hid'.
    inversion Hid'; subst id'. auto. }
  eexists. eexists. exists deletes. split; [exact Hex|]. simpl.
  split; [exact Etr|]. split; [apply entriesFrom_length|]. split; [exact Hlen|].
  intros k id Hk Hid.
  destruct (Hnth k Hk) as (q & Hq & HR). destruct (HR id Hid) as (Hm & Hb & Hu).
  destruct (Hreads k Hk) as [id' [Hid' Hrev]].
  assert (id' = id) by congruence. subst id'.
  destruct (delete_run d h (baseUrlOf c) org k id
              (traceAfter k 0 (planItem p) (openingRequests (nodeOf d) c))
              (conj Hid Hrev) (Hremote _)) as (q' & extra & E & _).
  exists q, extra. repeat (split; [assumption|]).
  rewrite <- Hbody in E.
  rewrite entriesFrom_nth by exact Hk. simpl. rewrite E. reflexivity.
Qed.

(** ** Uploads: the request of an item *)

Lemma uploadBody_run h i bp dn tags meta bd content m nkeys tr :
  getBinaryDataBuffer h i bp = inr content ->
  parseIfString h meta (lit "{}") = inr m ->
  Object_keys_length (or_val m (VObj [])) = inr nkeys ->
  exists b, uploadBody h i bp dn tags meta bd tr = (inr b, tr).
Proof.
  intros Hc Hm Hk. unfold uploadBody, bind, lift, ret. rewrite Hc, Hm, Hk.
  eexists. reflexivity.
Qed.

(** The plan of an upload run, in the two nodes that upload. *)
Lemma upload_plan (n : Node) (h : Host) (p : Plan) (tr0 : trace)
    (bp dn tags : jsstring) (meta : value) (i : nat) :
  n = Document \/ n = Upload ->
  getString h "operation" 0 None = inr (lit "upload") ->
  preludeOf n h [] = (inr p, tr0) ->
  getString h "binaryPropertyName" (parameterIndex n i) None = inr bp ->
  getString h "documentName" (parameterIndex n i) (Some []) = inr dn ->
  getString h "tagIds" (parameterIndex n i) (Some []) = inr tags ->
  getJson h "metadata" (parameterIndex n i) (Some (VObj [])) = inr meta ->
  planOnce p = None /\
  exists baseUrl org,
    forall tr, planItem p i tr = DocRouter.perItem h baseUrl org bp dn tags meta i tr.
Proof.
  intros [-> | ->] Hop Hp Hbp Hdn Htags Hmeta; simpl in *.
  - unfold bind, lift, ret in Hp. rewrite Hop in Hp.
    destruct (getCredentials h orgApi) as [e | c]; [discriminate|].
    destruct (lookupOrganization _ _ _ _ []) as [[e | org] tr1]; [discriminate|].
    inversion Hp; subst; clear Hp. simpl. split; [reflexivity|].
    exists (baseUrlOf c), org. intros tr.
    unfold DocRouterDocument.perItem. simpl (_ === _). cbv iota.
    unfold DocRouterDocument.upload, DocRouter.perItem, bind, lift.
    now rewrite Hbp, Hdn, Htags, Hmeta.
  - unfold bind, lift, ret, throw in Hp. rewrite Hop in Hp. simpl in Hp.
    destruct (getString h "organizationId" 0 None) as [e | org]; [discriminate|].
    rewrite Hbp, Hdn, Htags, Hmeta in Hp.
    destruct (getCredentials h orgApi) as [e | c]; [discriminate|].
    inversion Hp; subst; clear Hp. simpl. split; [reflexivity|].
    exists (baseUrlOf c), org. reflexivity.
Qed.

(** The request that an upload issues for an item with an attachment. *)
Lemma upload_run h baseUrl org bp dn tags meta i bd content m nkeys tr :
  itemBinary (getInputData h) i bp = inr (Some bd) ->
  getBinaryDataBuffer h i bp = inr content ->
  parseIfString h meta (lit "{}") = inr m ->
  Object_keys_length (or_val m (VObj [])) = inr nkeys ->
  exists q,
    snd (DocRouter.perItem h baseUrl org bp dn tags meta i tr) = tr ++ [q] /\
    method q = POST /\
    url q = lit "/v0/orgs/" ++ org ++ lit "/documents" /\
    requestUploadField q (lit "name") = Some (VStr (documentNameOf dn bd)) /\
    requestUploadField q (lit "tag_ids") =
      match split_trim_filter tags with
      | [] => None
      | l => Some (strings l)
      end.
Proof.
  intros Hbin Hc Hm Hk. unfold DocRouter.perItem.
  unfold bind at 1, lift at 1. rewrite Hbin.
  destruct (uploadBody_run h i bp dn tags meta bd content m nkeys tr Hc Hm Hk) as [b Hb].
  unfold bind. rewrite Hb.
  destruct (uploadBody_inv _ _ _ _ _ _ _ _ _ _ Hb) as (_ & Hn & Ht).
  unfold httpRequestWithAuthentication. simpl.
  eexists. split; [reflexivity|]. repeat split; assumption.
Qed.

(** The request of a reached item of an upload run. *)
Lemma upload_request (n : Node) (h : Host) (p : Plan) (tr0 : trace) (i : nat)
    (bp dn tags : jsstring) (meta m : value) (bd : IBinaryData)
    (content : jsstring) (nkeys : nat) :
  n = Document \/ n = Upload ->
  getString h "operation" 0 None = inr (lit "upload") ->
  preludeOf n h [] = (inr p, tr0) ->
  i < length (getInputData h) ->
  reached h (planItem p) tr0 i ->
  getString h "binaryPropertyName" (parameterIndex n i) None = inr bp ->
  getString h "documentName" (parameterIndex n i) (Some []) = inr dn ->
  getString h "tagIds" (parameterIndex n i) (Some []) = inr tags ->
  getJson h "metadata" (parameterIndex n i) (Some (VObj [])) = inr meta ->
  itemBinary (getInputData h) i bp = inr (Some bd) ->
  getBinaryDataBuffer h i bp = inr content ->
  parseIfString h meta (lit "{}") = inr m ->
  Object_keys_length (or_val m (VObj [])) = inr nkeys ->
  exists q after,
    requests (snd (executeOf n h start)) =
      traceAfter i 0 (planItem p) tr0 ++ q :: after /\
    method q = POST /\
    (exists org, url q = lit "/v0/orgs/" ++ org ++ lit "/documents") /\
    requestUploadField q (lit "name") = Some (VStr (documentNameOf dn bd)) /\
    requestUploadField q (lit "tag_ids") =
      match split_trim_filter tags with
      | [] => None
      | l => Some (strings l)
      end.
Proof.
  intros Hn Hop Hp Hi Hr Hbp Hdn Htags Hmeta Hbin Hc Hm Hk.
  destruct (upload_plan n h p tr0 bp dn tags meta i Hn Hop Hp Hbp Hdn Htags Hmeta)
    as (Ho & baseUrl & org & Hitem).
  destruct (execute_reaches n h p tr0 i Hp Ho Hi Hr) as (after & E).
  rewrite Hitem in E.
  destruct (upload_run h baseUrl org bp dn tags meta i bd content m nkeys
              (traceAfter i 0 (planItem p) tr0) Hbin Hc Hm Hk)
    as (q & Hq & Hmethod & Hu & Hname & Htag).
  exists q, after. rewrite E, Hq, <- app_assoc. split; [reflexivity|].
  split; [assumption|]. split; [now exists org|]. now split.
Qed.


(** ** C8: the tag IDs of uploads and of a new knowledge base *)

Lemma kb_create_run h baseUrl org i tags tr :
  getString h "tagIds" i (Some []) = inr tags ->
  createReads h i ->
  exists q,
    snd (DocRouterKnowledgeBase.perItem h baseUrl org (lit "create") i tr) = tr ++ [q] /\
    method q = POST /\
    url q = DocRouterKnowledgeBase.kbUrl org /\
    bodyField (body q) (lit "tag_ids") = Some (strings (split_trim_filter tags)).
Proof.
  intros Htags ([name Hname] & [descr Hdescr] & [ct Hct] & [cs Hcs] & [co Hco] & [em Hem]
                & [cn Hcn] & [re Hre] & [ri Hri]).
  assert (E : exists q,
             snd (DocRouterKnowledgeBase.create h baseUrl org i tr) = tr ++ [q] /\
             method q = POST /\ url q = DocRouterKnowledgeBase.kbUrl org).
  { unfold DocRouterKnowledgeBase.create, bind, lift.
    rewrite Hname, Hdescr, Htags, Hct, Hcs, Hco, Hem, Hcn, Hre, Hri.
    unfold httpRequestWithAuthentication. simpl. eexists. repeat split. }
  destruct E as (q & Hq & Hm & Hu).
  exists q. unfold DocRouterKnowledgeBase.perItem. simpl (_ === _). cbv iota.
  split; [exact Hq|]. split; [exact Hm|]. split; [exact Hu|].
  exact (kb_create_issue h baseUrl org i tags tr q Htags Hq).
Qed.

(** C8, amended.  A comma-separated tag-ID string normalizes to its
    trimmed non-empty tokens ("a, b ,c" becomes ["a","b","c"]).  In the
    two upload nodes, an item that is reached and has its attachment is
    uploaded by a request whose serialized body carries [tag_ids] exactly
    when there is a token (the Document node reads the string at the
    index of the item, the DocRouter node at index 0); the request by
    which the Knowledge Base node creates a knowledge base always carries
    [tag_ids], the empty list when there is no token. *)
Theorem C8_tag_ids (h : Host) (i : nat) (tags : jsstring) :
  let tokens := split_trim_filter tags in
  split_trim_filter (lit "a, b ,c") = [lit "a"; lit "b"; lit "c"] /\
  (forall t, In t tokens <->
     exists piece, In piece (split_comma tags) /\ t = trim piece /\ t <> []) /\
  Forall (fun t => t <> [] /\ ~ In comma t /\ trim t = t) tokens /\
  (forall (n : Node) (p : Plan) (tr0 : trace) (bp dn : jsstring) (meta m : value)
          (bd : IBinaryData) (content : jsstring) (nkeys : nat),
     n = Document \/ n = Upload ->
     getString h "operation" 0 None = inr (lit "upload") ->
     preludeOf n h [] = (inr p, tr0) ->
     i < length (getInputData h) ->
     reached h (planItem p) tr0 i ->
     getString h "binaryPropertyName" (parameterIndex n i) None = inr bp ->
     getString h "documentName" (parameterIndex n i) (Some []) = inr dn ->
     getString h "tagIds" (parameterIndex n i) (Some []) = inr tags ->
     getJson h "metadata" (parameterIndex n i) (Some (VObj [])) = inr meta ->
     itemBinary (getInputData h) i bp = inr (Some bd) ->
     getBinaryDataBuffer h i bp = inr content ->
     parseIfString h meta (lit "{}") = inr m ->
     Object_keys_length (or_val m (VObj [])) = inr nkeys ->
     exists q after,
       requests (snd (executeOf n h start)) =
         traceAfter i 0 (planItem p) tr0 ++ q :: after /\
       method q = POST /\
       requestUploadField q (lit "tag_ids") =
         match tokens with [] => None | l => Some (strings l) end) /\
  (forall (p : Plan) (tr0 : trace),
     getString h "operation" 0 None = inr (lit "create") ->
     preludeOf KnowledgeBase h [] = (inr p, tr0) ->
     i < length (getInputData h) ->
     reached h (planItem p) tr0 i ->
     getString h "tagIds" i (Some []) = inr tags ->
     createReads h i ->
     exists q after,
       requests (snd (executeOf KnowledgeBase h start)) =
         traceAfter i 0 (planItem p) tr0 ++ q :: after /\
       method q = POST /\
       bodyField (body q) (lit "tag_ids") = Some (strings tokens)).
Proof.
  intros tokens.
  split; [reflexivity|].
  split; [intros t; apply split_trim_filter_tokens|].
  split; [apply split_trim_filter_clean|].
  split.
  - intros n p tr0 bp dn meta m bd content nkeys Hn Hop Hp Hi Hr Hbp Hdn Htags Hmeta
      Hbin Hc Hm Hk.
    destruct (upload_request n h p tr0 i bp dn tags meta m bd content nkeys
                Hn Hop Hp Hi Hr Hbp Hdn Htags Hmeta Hbin Hc Hm Hk)
      as (q & after & Hreq & Hmethod & _ & _ & Htag).
    exists q, after. split; [exact Hreq|]. split; [exact Hmethod|].
    rewrite Htag. unfold tokens. now destruct (split_trim_filter tags).
  - intros p tr0 Hop Hp Hi Hr Htags Hreads.
    destruct (org_plan KnowledgeBase h p tr0 (lit "create") eq_refl Hop Hp)
      as (baseUrl & org & ->).
    destruct (execute_reaches KnowledgeBase h _ tr0 i Hp eq_refl Hi Hr) as (after & E).
    simpl planItem in *.
    destruct (kb_create_run h baseUrl org i tags
                (traceAfter i 0 (DocRouterKnowledgeBase.perItem h baseUrl org (lit "create")) tr0)
                Htags Hreads) as (q & Hq & Hm & _ & Hb).
    exists q, after. rewrite E, Hq, <- app_assoc. split; [reflexivity|]. now split.
Qed.

(** ** C2: what an update sends *)

Lemma updateBody_run (h : Host) (name tags : jsstring) (meta m : value) (k : nat) :
  (truthy meta = true ->
   parseIfString h meta (lit "{}") = inr m /\ Object_keys_length m = inr k) ->
  exists b,
    DocRouterDocument.updateBody h name tags meta = inr b /\
    obj_get b (lit "document_name") = (if nonempty name then Some (VStr name) else None) /\
    obj_get b (lit "tag_ids") =
      (if nonempty tags then Some (strings (split_trim_filter tags)) else None) /\
    obj_get b (lit "metadata") =
      (if truthy meta then match k with O => None | S _ => Some m end else None) /\
    (forall f v, In (f, v) b ->
       f = lit "document_name" \/ f = lit "tag_ids" \/ f = lit "metadata").
Proof.
  intros Hmeta. unfold DocRouterDocument.updateBody.
  destruct (truthy meta) eqn:Ht.
  - destruct (Hmeta eq_refl) as [Hp Hk]. rewrite Hp, Hk.
    destruct k; destruct (nonempty name); destruct (nonempty tags);
      eexists; (split; [reflexivity|]); simpl;
      (split; [reflexivity|]); (split; [reflexivity|]); (split; [reflexivity|]);
      intros f v Hin; simpl in Hin;
      intuition (match goal with H : (_, _) = (_, _) |- _ => inversion H end; auto).
  - destruct (nonempty name); destruct (nonempty tags);
      eexists; (split; [reflexivity|]); simpl;
      (split; [reflexivity|]); (split; [reflexivity|]); (split; [reflexivity|]);
      intros f v Hin; simpl in Hin;
      intuition (match goal with H : (_, _) = (_, _) |- _ => inversion H end; auto).
Qed.

(** The fields a user update provides. *)
Lemma updateUserBody_nil (np : IDataObject) (u p r : jsstring) :
  DocRouterAccount.updateUserBody np u p r = [] <->
  nonempty u || nonempty p || DocRouterAccount.present np (lit "role")
  || DocRouterAccount.present np (lit "emailVerified")
  || DocRouterAccount.present np (lit "hasSeenTour") = false.
Proof.
  unfold DocRouterAccount.updateUserBody.
  destruct (nonempty u); destruct (nonempty p);
    destruct (DocRouterAccount.present np (lit "role"));
    destruct (DocRouterAccount.present np (lit "emailVerified"));
    destruct (DocRouterAccount.present np (lit "hasSeenTour"));
    simpl; split; intros H; try discriminate; reflexivity.
Qed.

(** An item that throws is where a run that stops on failure ends. *)
Lemma execute_aborts (n : Node) (h : Host) (p : Plan) (tr0 : trace) (j : nat) (e : JsError) :
  continueOnFail h = false ->
  preludeOf n h [] = (inr p, tr0) ->
  planOnce p = None ->
  j < length (getInputData h) ->
  allReturn j 0 (planItem p) tr0 ->
  fst (planItem p j (traceAfter j 0 (planItem p) tr0)) = inl e ->
  executeOf n h start =
  (inl (if planAnnotates p then annotate j e else e),
   {| requests := traceAfter (S j) 0 (planItem p) tr0;
      returnData := entriesFrom h j 0 (planItem p) tr0 |}).
Proof.
  intros Hc Hp Ho Hj Hall He.
  rewrite execute_shape. unfold bind at 1. rewrite liftReq_run. simpl.
  rewrite Hp. simpl. unfold runPlan. rewrite Ho. unfold bind.
  rewrite (loop_abort h (planAnnotates p) (planItem p) j _ 0
             {| requests := tr0; returnData := [] |} e Hc Hj Hall He).
  reflexivity.
Qed.

(** C2, amended.  In a run of the Document update, of the Account user
    update or of the Tag update, an item that is reached and whose
    parameters can be read is dealt with as follows.  The Document update
    and the user update send a sparse body: an optional field is in the
    body exactly when the caller provided it (a non-empty string, a
    metadata object with a key, a node parameter that is set), and an
    absent or empty-string field is left out.  The user update that
    provides no field at all throws before any request is issued for the
    item.  The Tag update always sends [name], whatever its value. *)
Theorem C2_sparse_update (h : Host) (i : nat) :
  (forall (p : Plan) (tr0 : trace) (id name tags : jsstring) (meta m : value) (k : nat),
     getString h "operation" 0 None = inr (lit "update") ->
     preludeOf Document h [] = (inr p, tr0) ->
     i < length (getInputData h) ->
     reached h (planItem p) tr0 i ->
     getString h "documentId" i None = inr id ->
     getString h "newDocumentName" i (Some []) = inr name ->
     getString h "tagIds" i (Some []) = inr tags ->
     getJson h "metadata" i (Some (VObj [])) = inr meta ->
     (truthy meta = true ->
      parseIfString h meta (lit "{}") = inr m /\ Object_keys_length m = inr k) ->
     exists q after b org,
       requests (snd (executeOf Document h start)) =
         traceAfter i 0 (planItem p) tr0 ++ q :: after /\
       method q = PUT /\
       url q = lit "/v0/orgs/" ++ org ++ lit "/documents/" ++ id /\
       body q = Some (VObj b) /\
       obj_get b (lit "document_name") = (if nonempty name then Some (VStr name) else None) /\
       obj_get b (lit "tag_ids") =
         (if nonempty tags then Some (strings (split_trim_filter tags)) else None) /\
       obj_get b (lit "metadata") =
         (if truthy meta then match k with O => None | S _ => Some m end else None) /\
       (forall f v, In (f, v) b ->
          f = lit "document_name" \/ f = lit "tag_ids" \/ f = lit "metadata")) /\
  (forall (p : Plan) (tr0 : trace) (userId u pw r : jsstring),
     getString h "operation" 0 None = inr (lit "updateUser") ->
     preludeOf Account h [] = (inr p, tr0) ->
     i < length (getInputData h) ->
     reached h (planItem p) tr0 i ->
     getString h "userId" i None = inr userId ->
     getString h "userNameUpdate" i (Some []) = inr u ->
     getString h "passwordUpdate" i (Some []) = inr pw ->
     getString h "role" i (Some []) = inr r ->
     nonempty u || nonempty pw || DocRouterAccount.present (nodeParameters h) (lit "role")
     || DocRouterAccount.present (nodeParameters h) (lit "emailVerified")
     || DocRouterAccount.present (nodeParameters h) (lit "hasSeenTour") = true ->
     exists q after b,
       requests (snd (executeOf Account h start)) =
         traceAfter i 0 (planItem p) tr0 ++ q :: after /\
       method q = PUT /\
       url q = lit "/v0/account/users/" ++ trim userId /\
       body q = Some (VObj b) /\ b <> [] /\
       obj_get b (lit "name") = (if nonempty u then Some (VStr (trim u)) else None) /\
       obj_get b (lit "password") = (if nonempty pw then Some (VStr pw) else None) /\
       obj_has b (lit "role") = DocRouterAccount.present (nodeParameters h) (lit "role") /\
       obj_has b (lit "email_verified") =
         DocRouterAccount.present (nodeParameters h) (lit "emailVerified") /\
       obj_has b (lit "has_seen_tour") =
         DocRouterAccount.present (nodeParameters h) (lit "hasSeenTour") /\
       (forall f v, In (f, v) b ->
          f = lit "name" \/ f = lit "password" \/ f = lit "role" \/
          f = lit "email_verified" \/ f = lit "has_seen_tour")) /\
  (forall (p : Plan) (tr0 : trace) (userId u pw r : jsstring),
     getString h "operation" 0 None = inr (lit "updateUser") ->
     preludeOf Account h [] = (inr p, tr0) ->
     i < length (getInputData h) ->
     getString h "userId" i None = inr userId ->
     getString h "userNameUpdate" i (Some []) = inr u ->
     getString h "passwordUpdate" i (Some []) = inr pw ->
     getString h "role" i (Some []) = inr r ->
     nonempty u || nonempty pw || DocRouterAccount.present (nodeParameters h) (lit "role")
     || DocRouterAccount.present (nodeParameters h) (lit "emailVerified")
     || DocRouterAccount.present (nodeParameters h) (lit "hasSeenTour") = false ->
     let e := NodeOperationError DocRouterAccount.updateUserMessage None in
     traceAfter (S i) 0 (planItem p) tr0 = traceAfter i 0 (planItem p) tr0 /\
     (continueOnFail h = false ->
      allReturn i 0 (planItem p) tr0 ->
      executeOf Account h start =
      (inl e, {| requests := traceAfter i 0 (planItem p) tr0;
                 returnData := entriesFrom h i 0 (planItem p) tr0 |})) /\
     (continueOnFail h = true ->
      exists out s',
        executeOf Account h start = (inr out, s') /\
        nth_error out i =
          Some {| json := VObj [(lit "error", VStr DocRouterAccount.updateUserMessage)];
                  binary := None;
                  pairedItem := Some i;
                  error := Some e |})) /\
  (forall (p : Plan) (tr0 : trace) (tagId tagName color description : jsstring),
     getString h "operation" 0 None = inr (lit "update") ->
     preludeOf Tag h [] = (inr p, tr0) ->
     i < length (getInputData h) ->
     reached h (planItem p) tr0 i ->
     getString h "tagId" i None = inr tagId ->
     getString h "tagName" i None = inr tagName ->
     getString h "color" i (Some []) = inr color ->
     getString h "description" i (Some []) = inr description ->
     exists q after org,
       requests (snd (executeOf Tag h start)) =
         traceAfter i 0 (planItem p) tr0 ++ q :: after /\
       method q = PUT /\
       url q = lit "/v0/orgs/" ++ org ++ lit "/tags/" ++ tagId /\
       bodyField (body q) (lit "name") = Some (VStr (trim tagName))).
Proof.
  split; [|split; [|split]].
  - intros p tr0 id name tags meta m k Hop Hp Hi Hr Hid Hname Htags Hmeta Hok.
    destruct (org_plan Document h p tr0 (lit "update") eq_refl Hop Hp)
      as (baseUrl & org & ->).
    destruct (execute_reaches Document h _ tr0 i Hp eq_refl Hi Hr) as (after & E).
    simpl planItem in *.
    destruct (updateBody_run h name tags meta m k Hok) as (b & Hb & Hfields).
    assert (Hrun : forall tr, exists q,
              snd (DocRouterDocument.perItem h baseUrl org (lit "update") i tr) = tr ++ [q] /\
              method q = PUT /\
              url q = lit "/v0/orgs/" ++ org ++ lit "/documents/" ++ id /\
              body q = Some (VObj b)).
    { intros tr. unfold DocRouterDocument.perItem. simpl (_ === _). cbv iota.
      unfold DocRouterDocument.update, bind, lift.
      rewrite Hid, Hname, Htags, Hmeta, Hb.
      unfold httpRequestWithAuthentication, ret.
      match goal with |- context [remote ?a ?b ?c] => destruct (remote a b c) end;
        simpl; eexists; repeat split. }
    destruct (Hrun (traceAfter i 0 (DocRouterDocument.perItem h baseUrl org (lit "update")) tr0))
      as (q & Hq & Hm & Hu & Hbody).
    exists q, after, b, org. rewrite E, Hq, <- app_assoc.
    split; [reflexivity|]. split; [exact Hm|]. split; [exact Hu|]. split; [exact Hbody|].
    exact Hfields.
  - intros p tr0 userId u pw r Hop Hp Hi Hr Hid Hu Hpw Hrole Hprov.
    destruct (account_plan h p tr0 (lit "updateUser") Hop Hp) as (baseUrl & Ho & Hitem & _).
    simpl in Ho.
    destruct (execute_reaches Account h p tr0 i Hp Ho Hi Hr) as (after & E).
    rewrite Hitem in E. rewrite Hitem.
    unfold DocRouterAccount.perItem in E at 1. simpl (_ === _) in E. cbv iota in E.
    rewrite (updateUser_run h baseUrl i userId u pw r _ Hid Hu Hpw Hrole) in E.
    pose proof (updateUserBody_sparse (nodeParameters h) u pw r) as S.
    pose proof (updateUserBody_nil (nodeParameters h) u pw r) as N.
    destruct (DocRouterAccount.updateUserBody (nodeParameters h) u pw r) as [|f b] eqn:Eb.
    + rewrite (proj1 N eq_refl) in Hprov. discriminate.
    + unfold httpRequestWithAuthentication in E. simpl in E.
      eexists. exists after, (f :: b). simpl executeOf. rewrite E, <- app_assoc.
      split; [reflexivity|]. split; [reflexivity|]. split; [reflexivity|].
      split; [reflexivity|]. split; [discriminate|]. exact S.
  - intros p tr0 userId u pw r Hop Hp Hi Hid Hu Hpw Hrole Hprov e.
    destruct (account_plan h p tr0 (lit "updateUser") Hop Hp) as (baseUrl & Ho & Hitem & Ha).
    simpl in Ho.
    assert (Hthrow : forall tr, planItem p i tr = (inl e, tr)).
    { intros tr. rewrite Hitem. unfold DocRouterAccount.perItem. simpl (_ === _). cbv iota.
      rewrite (updateUser_run h baseUrl i userId u pw r tr Hid Hu Hpw Hrole).
      now rewrite (proj2 (updateUserBody_nil (nodeParameters h) u pw r) Hprov). }
    assert (Hsame : traceAfter (S i) 0 (planItem p) tr0 = traceAfter i 0 (planItem p) tr0).
    { rewrite traceAfter_S. simpl. now rewrite Hthrow. }
    split; [exact Hsame|]. split.
    + intros Hc Hall.
      rewrite (execute_aborts Account h p tr0 i e Hc Hp Ho Hi Hall)
        by (now rewrite Hthrow).
      now rewrite Ha, Hsame.
    + intros Hc. eexists. eexists.
      split; [apply (execute_returns Account h p tr0 Hp Ho (or_introl Hc))|].
      rewrite entriesFrom_nth by exact Hi. simpl. now rewrite Hthrow.
  - intros p tr0 tagId tagName color description Hop Hp Hi Hr Hid Hname Hcolor Hdescr.
    destruct (org_plan Tag h p tr0 (lit "update") eq_refl Hop Hp) as (baseUrl & org & ->).
    destruct (execute_reaches Tag h _ tr0 i Hp eq_refl Hi Hr) as (after & E).
    simpl planItem in *.
    unfold DocRouterTag.perItem in E at 1. simpl (_ === _) in E. cbv iota in E.
    unfold DocRouterTag.update, bind, lift in E.
    rewrite Hid, Hname, Hcolor, Hdescr in E.
    unfold httpRequestWithAuthentication in E. simpl in E.
    eexists. exists after, org. simpl executeOf. rewrite E, <- app_assoc.
    split; [reflexivity|]. split; [reflexivity|]. split; [reflexivity|].
    unfold DocRouterTag.tagBody.
    destruct (nonempty (trim color)); destruct (nonempty (trim description)); reflexivity.
Qed.

(** ** The run-level statements on examples *)

Lemma C9_witness :
  getString hostDelete "operation" 0 None = inr (operationOf DeleteDocument) /\
  opens Document hostDelete exampleCredentials (lit "org1") /\
  (forall k, k < length (getInputData hostDelete) ->
     deleteReads DeleteDocument hostDelete k (lit "X")) /\
  exists out s' q extra,
    executeOf Document hostDelete start = (inr out, s') /\
    nth_error (requests s') 1 = Some q /\
    method q = DELETE /\
    url q = lit "/v0/orgs/org1/documents/X" /\
    nth_error out 0 =
      Some {| json := VObj ((lit "success", VBool true) ::
                            (lit "documentId", VStr (lit "X")) :: extra);
              binary := None;
              pairedItem := Some 0;
              error := None |}.
Proof.
  assert (Hopen : opens Document hostDelete exampleCredentials (lit "org1")).
  { split; [reflexivity|]. intros _. exists org1Answer. repeat split. }
  assert (Hreads : forall k, k < length (getInputData hostDelete) ->
                     deleteReads DeleteDocument hostDelete k (lit "X")).
  { intros k _. split; [reflexivity | discriminate]. }
  assert (Hrem : forall tr q, method q = DELETE ->
                   exists resp, remote hostDelete tr q = inr resp).
  { intros tr q Hq. simpl. unfold exampleRemote. rewrite Hq.
    destruct (isLookup q); eexists; reflexivity. }
  split; [reflexivity|]. split; [exact Hopen|]. split; [exact Hreads|].
  destruct (C9_delete_confirmation DeleteDocument hostDelete exampleCredentials (lit "org1")
              eq_refl Hopen (fun k Hk => ex_intro _ (lit "X") (Hreads k Hk)) Hrem)
    as (out & s' & deletes & Hex & Hreq & _ & _ & Hnth).
  destruct (Hnth 0 (lit "X") (le_n 1) eq_refl) as (q & extra & Hq & Hm & _ & Hu & Ho).
  exists out, s', q, extra. split; [exact Hex|].
  split; [rewrite Hreq; exact Hq|]. split; [exact Hm|]. split; [exact Hu | exact Ho].
Defined.


Lemma C8_witness :
  getString hostUploadTwo "tagIds" 0 (Some []) = inr (lit "a, b ,c") /\
  getString hostUploadTwo "tagIds" 1 (Some []) = inr (lit " , ") /\
  getString hostCreateTagged "tagIds" 0 (Some []) = inr (lit " x ,, y") /\
  createReads hostCreateTagged 0 /\
  (exists q,
     nth_error (requests (snd (executeOf Upload hostUploadTwo start))) 1 = Some q /\
     requestUploadField q (lit "tag_ids") = Some (strings [lit "a"; lit "b"; lit "c"])) /\
  (exists q,
     nth_error (requests (snd (executeOf Document hostUploadTwo start))) 2 = Some q /\
     requestUploadField q (lit "tag_ids") = None) /\
  (exists q,
     nth_error (requests (snd (executeOf KnowledgeBase hostCreateTagged start))) 1 = Some q /\
     bodyField (body q) (lit "tag_ids") = Some (strings [lit "x"; lit "y"])).
Proof.
  assert (Hreads : createReads hostCreateTagged 0).
  { repeat split; eexists; reflexivity. }
  repeat (split; [reflexivity|]). split; [exact Hreads|]. split; [|split].
  - destruct (C8_tag_ids hostUploadTwo 1 (lit "a, b ,c")) as (_ & _ & _ & H & _).
    destruct (H Upload planUploadTwo [] (lit "data") (lit "  ") (VObj []) (VObj [])
                unnamedFile (lit "aGVsbG8=") 0
                (or_intror eq_refl) eq_refl eq_refl (le_n 2) (or_introl eq_refl)
                eq_refl eq_refl eq_refl eq_refl eq_refl eq_refl eq_refl eq_refl)
      as (q & after & Hreq & _ & Htag).
    exists q. split; [rewrite Hreq; reflexivity | exact Htag].
  - destruct (C8_tag_ids hostUploadTwo 1 (lit " , ")) as (_ & _ & _ & H & _).
    destruct (H Document
                (orgPlan Document hostUploadTwo defaultBaseUrl (lit "org1") (lit "upload"))
                [lookupRequest defaultBaseUrl (lit "T")]
                (lit "data") (lit "second") (VObj []) (VObj [])
                unnamedFile (lit "aGVsbG8=") 0
                (or_introl eq_refl) eq_refl eq_refl (le_n 2) (or_introl eq_refl)
                eq_refl eq_refl eq_refl eq_refl eq_refl eq_refl eq_refl eq_refl)
      as (q & after & Hreq & _ & Htag).
    exists q. split; [rewrite Hreq; reflexivity | exact Htag].
  - destruct (C8_tag_ids hostCreateTagged 0 (lit " x ,, y")) as (_ & _ & _ & _ & H).
    destruct (H (orgPlan KnowledgeBase hostCreateTagged defaultBaseUrl (lit "org1")
                   (lit "create"))
                [lookupRequest defaultBaseUrl (lit "T")]
                eq_refl eq_refl (le_n 1) (or_intror (fun k Hk => match Nat.nlt_0_r k Hk with end))
                eq_refl Hreads)
      as (q & after & Hreq & _ & Htag).
    exists q. split; [rewrite Hreq; reflexivity | exact Htag].
Defined.

Lemma C2_witness :
  (exists q b,
     nth_error (requests (snd (executeOf Document hostRename start))) 1 = Some q /\
     url q = lit "/v0/orgs/org1/documents/X" /\
     body q = Some (VObj b) /\
     obj_get b (lit "document_name") = Some (VStr (lit "new.pdf")) /\
     obj_get b (lit "tag_ids") = None /\
     obj_get b (lit "metadata") = None) /\
  (exists q b,
     nth_error (requests (snd (executeOf Account hostUpdateUser start))) 0 = Some q /\
     url q = lit "/v0/account/users/u1" /\
     body q = Some (VObj b) /\
     obj_get b (lit "name") = Some (VStr (lit "Ann")) /\
     obj_get b (lit "password") = None /\
     obj_has b (lit "role") = false) /\
  (getString hostUpdateNothing "userId" 0 None = inr (lit "u1") /\
   executeOf Account hostUpdateNothing start =
     (inl (NodeOperationError DocRouterAccount.updateUserMessage None), start)) /\
  (exists q,
     nth_error (requests (snd (executeOf Tag hostEmptyTagName start))) 1 = Some q /\
     url q = lit "/v0/orgs/org1/tags/t1" /\
     bodyField (body q) (lit "name") = Some (VStr [])).
Proof.
  assert (Hfirst : forall body tr, allReturn 0 0 body tr).
  { intros body tr k Hk. destruct (Nat.nlt_0_r k Hk). }
  split; [|split; [|split]].
  - destruct (C2_sparse_update hostRename 0) as (H & _).
    destruct (H (orgPlan Document hostRename defaultBaseUrl (lit "org1") (lit "update"))
                [lookupRequest defaultBaseUrl (lit "T")]
                (lit "X") (lit "new.pdf") [] (VObj []) (VObj []) 0
                eq_refl eq_refl (le_n 1) (or_intror (Hfirst _ _))
                eq_refl eq_refl eq_refl eq_refl (fun _ => conj eq_refl eq_refl))
      as (q & after & b & org & Hreq & _ & Hu & Hb & Hn & Ht & Hm & _).
    exists q, b. split; [rewrite Hreq; reflexivity|].
    assert (Hq : nth_error (requests (snd (executeOf Document hostRename start))) 1 = Some q)
      by (rewrite Hreq; reflexivity).
    vm_compute in Hq. inversion Hq; subst q. clear Hq.
    split; [reflexivity|]. split; [exact Hb|]. split; [exact Hn|]. split; [exact Ht | exact Hm].
  - destruct (C2_sparse_update hostUpdateUser 0) as (_ & H & _).
    destruct (H (planUpdateUser hostUpdateUser) [] (lit " u1 ") (lit " Ann ") [] []
                eq_refl eq_refl (le_n 1) (or_intror (Hfirst _ _))
                eq_refl eq_refl eq_refl eq_refl eq_refl)
      as (q & after & b & Hreq & _ & Hu & Hb & _ & Hn & Hp & Hr & _).
    exists q, b. split; [rewrite Hreq; reflexivity|].
    split; [rewrite Hu; reflexivity|]. split; [exact Hb|]. split; [exact Hn|].
    split; [exact Hp | exact Hr].
  - split; [reflexivity|].
    destruct (C2_sparse_update hostUpdateNothing 0) as (_ & _ & H & _).
    destruct (H (planUpdateUser hostUpdateNothing) [] (lit "u1") [] [] []
                eq_refl eq_refl (le_n 1) eq_refl eq_refl eq_refl eq_refl eq_refl)
      as (_ & Habort & _).
    exact (Habort eq_refl (Hfirst _ _)).
  - destruct (C2_sparse_update hostEmptyTagName 0) as (_ & _ & _ & H).
    destruct (H (orgPlan Tag hostEmptyTagName defaultBaseUrl (lit "org1") (lit "update"))
                [lookupRequest defaultBaseUrl (lit "T")] (lit "t1") [] [] []
                eq_refl eq_refl (le_n 1) (or_intror (Hfirst _ _))
                eq_refl eq_refl eq_refl eq_refl)
      as (q & after & org & Hreq & _ & Hu & Hname).
    exists q.
    assert (Hq : nth_error (requests (snd (executeOf Tag hostEmptyTagName start))) 1 = Some q)
      by (rewrite Hreq; reflexivity).
    split; [exact Hq|]. split; [|exact Hname].
    vm_compute in Hq. inversion Hq; subst q. reflexivity.
Defined.

(** ** Example runs for the further properties *)

Lemma X1_witness :
  getString hostBlankRevision "operation" 0 None = inr (lit "update") /\
  exists r s',
    executeOf LLM hostBlankRevision start = (r, s') /\
    length (requests s') <= 1 + 3.
Proof.
  split; [reflexivity|]. eexists. eexists.
  assert (Hex : executeOf LLM hostBlankRevision start
                = (fst (executeOf LLM hostBlankRevision start),
                   snd (executeOf LLM hostBlankRevision start)))
    by now destruct (executeOf LLM hostBlankRevision start).
  split; [exact Hex|].
  exact (X1_request_bound LLM hostBlankRevision (lit "update")
           (fst (executeOf LLM hostBlankRevision start))
           (snd (executeOf LLM hostBlankRevision start)) eq_refl Hex).
Defined.

Lemma X2_witness :
  resolvesOrganization Document = true /\
  getString hostDelete "operation" 0 None = inr (lit "delete") /\
  getCredentials hostDelete orgApi = inr exampleCredentials /\
  remote hostDelete [] (lookupRequest defaultBaseUrl (lit "T")) = inr org1Answer /\
  truthy (get_prop org1Answer (lit "organization_id")) = true /\
  exists r s' new,
    executeOf Document hostDelete start = (r, s') /\
    requests s' = lookupRequest defaultBaseUrl (lit "T") :: new /\
    Forall (addressed orgApi defaultBaseUrl (orgPrefix (lit "org1"))) new.
Proof.
  repeat (split; [reflexivity|]).
  eexists. eexists.
  assert (Hex : executeOf Document hostDelete start
                = (fst (executeOf Document hostDelete start),
                   snd (executeOf Document hostDelete start)))
    by now destruct (executeOf Document hostDelete start).
  destruct (X2_requests_under_organization Document hostDelete (lit "delete")
              exampleCredentials org1Answer
              (fst (executeOf Document hostDelete start))
              (snd (executeOf Document hostDelete start))
              eq_refl eq_refl eq_refl eq_refl eq_refl Hex)
    as (new & Hreq & F).
  exists new. split; [exact Hex|]. split; [exact Hreq | exact F].
Defined.

Lemma X3_witness :
  getString hostBlankMembers "operation" 0 None = inr (lit "updateOrganization") /\
  getCredentials hostBlankMembers DocRouterAccount.accountApi = inr exampleCredentials /\
  exists r s',
    executeOf Account hostBlankMembers start = (r, s') /\
    Forall (accountRequest defaultBaseUrl) (requests s') /\
    Forall (fun q => isLookup q = false) (requests s').
Proof.
  repeat (split; [reflexivity|]).
  eexists. eexists.
  assert (Hex : executeOf Account hostBlankMembers start
                = (fst (executeOf Account hostBlankMembers start),
                   snd (executeOf Account hostBlankMembers start)))
    by now destruct (executeOf Account hostBlankMembers start).
  split; [exact Hex|].
  exact (X3_account_requests hostBlankMembers (lit "updateOrganization")
           exampleCredentials
           (fst (executeOf Account hostBlankMembers start))
           (snd (executeOf Account hostBlankMembers start)) eq_refl eq_refl Hex).
Defined.

Lemma X4_witness :
  getString hostUpload "operation" 0 None = inr (lit "upload") /\
  getString hostUpload "organizationId" 0 None = inr (lit "org9") /\
  getCredentials hostUpload orgApi = inr exampleCredentials /\
  exists r s',
    executeOf Upload hostUpload start = (r, s') /\
    Forall (uploadRequest defaultBaseUrl (lit "org9")) (requests s') /\
    length (requests s') <= 1.
Proof.
  repeat (split; [reflexivity|]).
  eexists. eexists.
  assert (Hex : executeOf Upload hostUpload start
                = (fst (executeOf Upload hostUpload start),
                   snd (executeOf Upload hostUpload start)))
    by now destruct (executeOf Upload hostUpload start).
  split; [exact Hex|].
  exact (X4_upload_requests hostUpload (lit "org9") exampleCredentials
           (fst (executeOf Upload hostUpload start))
           (snd (executeOf Upload hostUpload start))
           eq_refl eq_refl eq_refl Hex).
Defined.


Lemma X6_witness :
  getString hostBlankRevision "documentId" 1 None = inr (lit "doc1") /\
  getString hostBlankRevision "promptRevid" 1 (Some (lit "default")) = inr (lit " ") /\
  trim (lit " ") = [] /\
  forall tr,
    DocRouterLLM.perItem hostBlankRevision defaultBaseUrl (lit "org1") (lit "delete") 1 tr =
    (inl (NodeOperationError (lit "Prompt Revision ID is required for Delete.") (Some 1)),
     tr).
Proof.
  repeat (split; [reflexivity|]).
  exact (proj1 (X6_prompt_revision_required hostBlankRevision defaultBaseUrl (lit "org1") 1
                  (lit "doc1") (lit " ") eq_refl eq_refl eq_refl)).
Defined.

Lemma X7_witness :
  getString hostBlankRevision "documentId" 0 None = inr (lit "doc1") /\
  getString hostBlankRevision "promptRevid" 0 (Some (lit "default")) = inr (lit "default") /\
  exists q,
    snd (DocRouterLLM.perItem hostBlankRevision defaultBaseUrl (lit "org1") (lit "run") 0 [])
      = [] ++ [q] /\
    exists o v,
      qs q = Some o /\ obj_get o (lit "prompt_revid") = Some (VStr v) /\ v <> [] /\
      url q = lit "/v0/orgs/org1/llm/run/doc1" /\ v = lit "default".
Proof.
  repeat (split; [reflexivity|]).
  eexists. split; [vm_compute; reflexivity|].
  destruct (X7_prompt_revid_sent hostBlankRevision defaultBaseUrl (lit "org1") (lit "run") 0
              (lit "doc1") (lit "default") [] _ eq_refl eq_refl eq_refl)
    as (o & v & H1 & H2 & H3 & H4 & H5).
  exists o, v. repeat split; assumption.
Defined.

Lemma X8_witness :
  preludeOf Schema hostValidate [] =
    (inr (orgPlan Schema hostValidate defaultBaseUrl (lit "org1") (lit "validate")),
     [lookupRequest defaultBaseUrl (lit "T")]) /\
  planOnce (orgPlan Schema hostValidate defaultBaseUrl (lit "org1") (lit "validate")) =
    Some (DocRouterSchema.validateOnce hostValidate defaultBaseUrl (lit "org1")) /\
  exists out s',
    executeOf Schema hostValidate start = (inr out, s') /\
    out = [okEntry (VObj [(lit "id", VStr (lit "r1"))]) 0].
Proof.
  repeat (split; [reflexivity|]).
  eexists. eexists.
  rewrite (X8_run_once_outcome Schema hostValidate
             (orgPlan Schema hostValidate defaultBaseUrl (lit "org1") (lit "validate"))
             [lookupRequest defaultBaseUrl (lit "T")]
             (DocRouterSchema.validateOnce hostValidate defaultBaseUrl (lit "org1"))
             eq_refl eq_refl).
  split; reflexivity.
Defined.

Lemma X9_witness :
  resolvesOrganization Document = true /\
  getString hostLookupDown "operation" 0 None = inr (lit "get") /\
  continueOnFail hostLookupDown = true /\
  executeOf Document hostLookupDown start =
    (inl connectionRefused,
     {| requests := [lookupRequest defaultBaseUrl (lit "T")]; returnData := [] |}).
Proof.
  repeat (split; [reflexivity|]).
  exact (proj2 (X9_opening_failure_aborts Document hostLookupDown (lit "get")
                  eq_refl eq_refl) exampleCredentials connectionRefused eq_refl eq_refl).
Defined.

Lemma X10_witness :
  getInputData hostNoItems = [] /\
  getString hostNoItems "operation" 0 None = inr (lit "frobnicate") /\
  isRunOnce Document (lit "frobnicate") = false /\
  getCredentials hostNoItems (credentialOf Document) = inr exampleCredentials /\
  executeOf Document hostNoItems start =
    (inr [], {| requests := [lookupRequest defaultBaseUrl (lit "T")]; returnData := [] |}).
Proof.
  repeat (split; [reflexivity|]).
  exact (proj2 (X10_empty_batch Document hostNoItems (lit "frobnicate") exampleCredentials
                  eq_refl eq_refl eq_refl eq_refl) eq_refl org1Answer eq_refl eq_refl).
Defined.

Lemma X11_witness :
  exists out s' e,
    executeOf Document hostItemsDown start = (inr out, s') /\
    Forall (wellFormedEntry hostItemsDown) out /\
    nth_error out 1 =
      Some {| json := VObj [(lit "error", VStr (lit "connect ECONNREFUSED"))];
              binary := None;
              pairedItem := Some 1;
              error := Some e |} /\
    message e = lit "The service refused the connection - perhaps it is offline".
Proof.
  eexists. eexists. eexists. split; [vm_compute; reflexivity|]. split.
  - eapply (X11_entries_well_formed Document hostItemsDown). vm_compute. reflexivity.
  - split; reflexivity.
Defined.

Lemma X13_witness :
  getNumber hostList "limit" 0 (Some (num 10)) = inr (num 10) /\
  getNumber hostList "skip" 0 (Some (num 0)) = inr (num 0) /\
  getString hostList "filterTagIds" 0 (Some []) = inr (lit "t1,t2") /\
  getString hostList "nameSearch" 0 (Some []) = inr (lit " inv ") /\
  getString hostList "metadataSearch" 0 (Some []) = inr [] /\
  exists q o,
    snd (DocRouterDocument.listOnce hostList defaultBaseUrl (lit "org1") []) = [] ++ [q] /\
    qs q = Some o /\
    obj_get o (lit "tag_ids") = Some (VStr (lit "t1,t2")) /\
    obj_get o (lit "name_search") = Some (VStr (lit " inv ")) /\
    obj_get o (lit "metadata_search") = None.
Proof.
  repeat (split; [reflexivity|]).
  eexists.
  destruct (X13_document_list_query hostList defaultBaseUrl (lit "org1")
              (num 10) (num 0) (lit "t1,t2") (lit " inv ") [] [] _
              eq_refl eq_refl eq_refl eq_refl eq_refl eq_refl)
    as (_ & _ & _ & o & Hq & _ & _ & H1 & H2 & H3).
  exists o. split; [reflexivity|]. repeat split; assumption.
Defined.



Lemma X16_witness :
  getString hostBlankMembers "organizationId" 0 None = inr (lit "o1") /\
  getString hostBlankMembers "orgNameUpdate" 0 (Some []) = inr [] /\
  getString hostBlankMembers "orgTypeUpdate" 0 (Some []) = inr [] /\
  getString hostBlankMembers "members" 0 (Some []) = inr (lit " ") /\
  trim (lit " ") = [] /\
  exists b q,
    snd (DocRouterAccount.updateOrganization hostBlankMembers defaultBaseUrl 0 []) = [] ++ [q] /\
    body q = Some (VObj b) /\ obj_get b (lit "members") = None.
Proof.
  repeat (split; [reflexivity|]).
  exact (proj1 (X16_members hostBlankMembers defaultBaseUrl 0 (lit "o1") [] [] (lit " ") []
                  eq_refl eq_refl eq_refl eq_refl) eq_refl).
Defined.

Lemma X18_witness :
  preludeOf Document hostDelete [] =
    (inr (orgPlan Document hostDelete defaultBaseUrl (lit "org1") (lit "delete")),
     [lookupRequest defaultBaseUrl (lit "T")]) /\
  continueOnFail hostDelete = false /\
  exists out s',
    executeOf Document hostDelete start = (inr out, s') /\
    length out = 1 /\
    Forall (fun e => error e = None) out.
Proof.
  split; [reflexivity|]. split; [reflexivity|].
  assert (Hall : allReturn (length (getInputData hostDelete)) 0
            (planItem (orgPlan Document hostDelete defaultBaseUrl (lit "org1") (lit "delete")))
            [lookupRequest defaultBaseUrl (lit "T")]).
  { intros k Hk. destruct k as [|k]; [eexists; reflexivity|].
    exfalso. exact (Nat.nle_succ_0 _ (le_S_n _ _ Hk)). }
  destruct (X18_no_failure_no_policy Document hostDelete
              (orgPlan Document hostDelete defaultBaseUrl (lit "org1") (lit "delete"))
              [lookupRequest defaultBaseUrl (lit "T")] eq_refl eq_refl Hall)
    as (out & s' & Hex & Hlen & F & _).
  exists out, s'. split; [exact Hex|]. split; [exact Hlen | exact F].
Defined.

Lemma X19_witness :
  getString hostSearch "kbId" 0 None = inr (lit "kb1") /\
  getString hostSearch "searchQuery" 0 None = inr (lit " cats ") /\
  getJson hostSearch "metadataFilter" 0 (Some (VStr (lit "{}"))) = inr (VStr (lit "{}")) /\
  parseIfString hostSearch (VStr (lit "{}")) (lit "{}") = inr (VObj []) /\
  exists q b,
    snd (DocRouterKnowledgeBase.search hostSearch defaultBaseUrl (lit "org1") []) = [] ++ [q] /\
    body q = Some (VObj b) /\
    obj_get b (lit "query") = Some (VStr (lit "cats")) /\
    obj_get b (lit "metadata_filter") = None.
Proof.
  repeat (split; [reflexivity|]).
  eexists.
  destruct (X19_search_body hostSearch defaultBaseUrl (lit "org1") (lit "kb1") (lit " cats ")
              (num 5) (num 0) (VStr (lit "{}")) (VObj []) 0 [] _
              eq_refl eq_refl eq_refl eq_refl eq_refl eq_refl eq_refl eq_refl)
    as (_ & b & Hb & H1 & _ & _ & H2 & _).
  exists b. split; [reflexivity|]. repeat split; assumption.
Defined.

Lemma X17_witness :
  cred_baseUrl exampleCredentials = None /\
  baseUrlOf exampleCredentials = lit "https://app.docrouter.ai/fastapi".
Proof.
  split; [reflexivity|].
  apply (proj2 (proj2 (proj2 (X17_base_url exampleCredentials)))).
  left. reflexivity.
Defined.
